(** * CozyClean backend: sync-upload transaction and token identity

    A shallow embedding of the backend's request handlers
    ([app/api/v1/sync.py], [app/api/v1/auth.py], [app/api/deps.py],
    [app/core/security.py]) together with the ORM models of
    [app/models/base.py], the request schemas of [app/schemas] and the
    session dependency of [app/core/database.py].

    The handlers are written against three libraries: the ORM session
    (staging objects, flushing them as INSERT or UPDATE statements inside one
    transaction, commit and rollback), the JOSE codec ([jwt.encode] and
    [jwt.decode]) and the web framework's bearer extractor and HTTP errors.
    Each is modelled by the small executable semantics the handlers rely on;
    the handlers themselves are transcribed statement by statement in a
    state-and-exception monad over the ORM session. *)

From Stdlib Require Import ZArith NArith Ascii String List Lia Bool.
From Stdlib Require Import Floats.SpecFloat.
From stdpp Require Import base option list strings gmap pretty.

Local Open Scope Z_scope.
#[local] Set Warnings "-register-all".

(** ** Python values used by the handlers *)

Module Py.

(** A Python [str] is represented by its UTF-8 bytes, so [s.encode("utf-8")]
    and [b.decode("utf-8")] do not change the representation. *)
Definition encode_utf8 (s : string) : string := s.
Definition decode_utf8 (b : string) : string := b.

Definition is_continuation (c : ascii) : bool :=
  let n := N_of_ascii c in ((128 <=? n) && (n <? 192))%N.

(** [len(s)]: the number of code points, that is of bytes that do not
    continue a multi-byte sequence. *)
Fixpoint len (s : string) : Z :=
  match s with
  | EmptyString => 0
  | String c s' => (if is_continuation c then 0 else 1) + len s'
  end.

(** [s.replace(old, "")] for a non-empty [old]: occurrences are removed from
    left to right without overlap; [skip] counts the characters of a match
    that are still to be dropped. *)
Fixpoint remove_go (old : string) (skip : nat) (s : string) : string :=
  match s with
  | EmptyString => EmptyString
  | String c s' =>
      match skip with
      | S k => remove_go old k s'
      | O =>
          if String.prefix old s
          then remove_go old (Nat.pred (String.length old)) s'
          else String c (remove_go old O s')
      end
  end.

Definition remove (old s : string) : string := remove_go old O s.

Definition is_brace (c : ascii) : bool :=
  (Ascii.eqb c "{" || Ascii.eqb c "}")%char.

Fixpoint lstrip_braces (s : string) : string :=
  match s with
  | String c s' => if is_brace c then lstrip_braces s' else s
  | EmptyString => EmptyString
  end.

Fixpoint rstrip_braces (s : string) : string :=
  match s with
  | String c s' =>
      match rstrip_braces s' with
      | EmptyString => if is_brace c then EmptyString else String c EmptyString
      | r => String c r
      end
  | EmptyString => EmptyString
  end.

(** [s.strip("{}")] *)
Definition strip_braces (s : string) : string :=
  rstrip_braces (lstrip_braces s).

(** *** Hexadecimal *)

Definition hex_char (d : N) : ascii :=
  match d with
  | 0 => "0" | 1 => "1" | 2 => "2" | 3 => "3" | 4 => "4" | 5 => "5"
  | 6 => "6" | 7 => "7" | 8 => "8" | 9 => "9" | 10 => "a" | 11 => "b"
  | 12 => "c" | 13 => "d" | 14 => "e" | _ => "f"
  end%N%char.

(** ['%0kx' % n] for [n < 16^k]: [k] digits, most significant first. *)
Fixpoint hex_of (k : nat) (n : N) : string :=
  match k with
  | O => EmptyString
  | S k' => String (hex_char ((n / 16 ^ N.of_nat k') mod 16)%N) (hex_of k' n)
  end.

(** *** Code points *)

(** The code points of a [str], read off its UTF-8 bytes: [more] is the
    number of continuation bytes the current character still needs, [acc]
    what its bytes have given so far. *)
Fixpoint code_points_go (more : nat) (acc : N) (s : string) : list N :=
  match s with
  | EmptyString => []
  | String c s' =>
      let n := N_of_ascii c in
      match more with
      | O =>
          if (n <? 0x80)%N then n :: code_points_go 0 0 s'
          else if (n <? 0xE0)%N then code_points_go 1 (n mod 0x20) s'
          else if (n <? 0xF0)%N then code_points_go 2 (n mod 0x10) s'
          else code_points_go 3 (n mod 0x08) s'
      | S O => (acc * 64 + n mod 64)%N :: code_points_go 0 0 s'
      | S k => code_points_go k (acc * 64 + n mod 64)%N s'
      end
  end.

Definition code_points (s : string) : list N := code_points_go 0 0 s.

(** *** [int(s, base)] for a [str]

    The string is first brought to ASCII: a character outside ASCII that is
    white space becomes a blank, a decimal digit of another script becomes
    the ASCII digit of its value, and any other makes the string no number.
    What is left is read as blanks, a sign, for base 16 the prefix [0x] or
    [0X] (after which one underscore may stand), digits with single
    underscores between them, and blanks. The tables are those of Unicode
    14.0 and a decimal literal of more than 4300 digits is refused, as in
    CPython 3.11. [None] stands for [ValueError]. *)

(** White space outside ASCII. *)
Definition is_unicode_space (c : N) : bool :=
  bool_decide (c ∈ [0x85; 0xA0; 0x1680; 0x2028; 0x2029; 0x202F; 0x205F; 0x3000]%N)
  || ((0x2000 <=? c) && (c <=? 0x200A))%N.

(** The first code points of the runs of ten decimal digits outside ASCII. *)
Definition decimal_zeros : list N :=
  [ 0x660; 0x6F0; 0x7C0; 0x966; 0x9E6; 0xA66; 0xAE6; 0xB66; 0xBE6; 0xC66;
    0xCE6; 0xD66; 0xDE6; 0xE50; 0xED0; 0xF20; 0x1040; 0x1090; 0x17E0;
    0x1810; 0x1946; 0x19D0; 0x1A80; 0x1A90; 0x1B50; 0x1BB0; 0x1C40;
    0x1C50; 0xA620; 0xA8D0; 0xA900; 0xA9D0; 0xA9F0; 0xAA50; 0xABF0;
    0xFF10; 0x104A0; 0x10D30; 0x11066; 0x110F0; 0x11136; 0x111D0; 0x112F0;
    0x11450; 0x114D0; 0x11650; 0x116C0; 0x11730; 0x118E0; 0x11950;
    0x11C50; 0x11D50; 0x11DA0; 0x16A60; 0x16AC0; 0x16B50; 0x1D7CE;
    0x1D7D8; 0x1D7E2; 0x1D7EC; 0x1D7F6; 0x1E140; 0x1E2F0; 0x1E950;
    0x1FBF0 ]%N.

Definition unicode_decimal (c : N) : option N :=
  (fun z => c - z)%N <$> List.find (fun z => (z <=? c) && (c <? z + 10))%N decimal_zeros.

Definition to_ascii (c : N) : option N :=
  if (c <? 127)%N then Some c
  else if is_unicode_space c then Some 32%N
  else (fun d => 48 + d)%N <$> unicode_decimal c.

(** The white space of the C locale: blank, [\t], [\n], [\v], [\f], [\r]. *)
Definition is_space (c : N) : bool := ((c =? 32) || ((9 <=? c) && (c <=? 13)))%N.

Fixpoint skip_spaces (l : list N) : list N :=
  match l with
  | c :: l' => if is_space c then skip_spaces l' else l
  | [] => []
  end.

(** The value of a digit or letter, for bases up to 36. *)
Definition digit_value (c : N) : option N :=
  if ((48 <=? c) && (c <=? 57))%N then Some (c - 48)%N
  else if ((97 <=? c) && (c <=? 122))%N then Some (c - 87)%N
  else if ((65 <=? c) && (c <=? 90))%N then Some (c - 55)%N
  else None.

(** The digits of a literal: [acc] is the value and [n] the number of the
    digits read, [underscore] tells that the last character was one. The
    result is the value, the number of digits and what follows them. *)
Fixpoint digits_go (base acc : N) (n : nat) (underscore : bool) (l : list N)
  : option (N * nat * list N) :=
  match l with
  | c :: l' =>
      if (c =? 95)%N then
        if underscore then None else digits_go base acc n true l'
      else
        match digit_value c with
        | Some d =>
            if (d <? base)%N then digits_go base (acc * base + d)%N (S n) false l'
            else if underscore then None else Some (acc, n, l)
        | None => if underscore then None else Some (acc, n, l)
        end
  | [] => if underscore then None else Some (acc, n, l)
  end.

(** A sign: [+] or [-]. *)
Definition sign (l : list N) : bool * list N :=
  match l with
  | c :: l' =>
      if (c =? 43)%N then (false, l') else if (c =? 45)%N then (true, l') else (false, l)
  | [] => (false, [])
  end.

Definition starts_with_underscore (l : list N) : bool :=
  match l with c :: _ => (c =? 95)%N | [] => false end.

(** The prefix [0x] or [0X] of a base-16 literal, and one underscore after
    it. *)
Definition skip_prefix (base : N) (l : list N) : list N :=
  match l with
  | z :: x :: l' =>
      if ((base =? 16) && (z =? 48) && ((x =? 120) || (x =? 88)))%N then
        if starts_with_underscore l' then tail l' else l'
      else l
  | _ => l
  end.

(** The longest decimal literal [int] converts. *)
Definition max_str_digits : nat := 4300.

Definition is_power_of_two (base : N) : bool := bool_decide (base ∈ [2; 4; 8; 16; 32]%N).

(** The literal once it is brought to ASCII. *)
Definition int_of_ascii (base : N) (l : list N) : option Z :=
  let '(negative, l) := sign (skip_spaces l) in
  let l := skip_prefix base l in
  if starts_with_underscore l then None
  else
    match digits_go base 0 0 false l with
    | Some (v, n, rest) =>
        if (n =? 0)%nat then None
        else if negb (is_power_of_two base) && (max_str_digits <? n)%nat then None
        else
          match skip_spaces rest with
          | [] => Some (if negative then - Z.of_N v else Z.of_N v)
          | _ => None
          end
    | None => None
    end.

Definition int_of_str (base : N) (s : string) : option Z :=
  mapM to_ascii (code_points s) ≫= int_of_ascii base.

(** *** [uuid.UUID] *)

(** A UUID object holds an integer below [2^128]. *)
Definition UUID := N.

Definition UUID_wf (u : UUID) : Prop := (u < 2 ^ 128)%N.

(** [str(u)]: 32 hexadecimal digits grouped 8-4-4-4-12. *)
Definition UUID_str (u : UUID) : string :=
  let hex := hex_of 32 u in
  String.substring 0 8 hex +:+ "-" +:+ String.substring 8 4 hex +:+ "-" +:+
  String.substring 12 4 hex +:+ "-" +:+ String.substring 16 4 hex +:+ "-" +:+
  String.substring 20 12 hex.

(** [UUID(s)]: the prefixes [urn:] and [uuid:], braces at the ends and
    hyphens are removed, 32 characters must be left, and their value as a
    base-16 literal must lie in the range. [None] stands for the [ValueError]
    the constructor raises. *)
Definition UUID_of_str (s : string) : option UUID :=
  let hex := remove "uuid:" (remove "urn:" s) in
  let hex := remove "-" (strip_braces hex) in
  if len hex =? 32 then
    match int_of_str 16 hex with
    | Some n => if (0 <=? n) && (n <? 2 ^ 128) then Some (Z.to_N n) else None
    | None => None
    end
  else None.

(** *** [base64.b64encode] *)

Definition b64_char (d : N) : ascii :=
  if (d <? 26)%N then ascii_of_N (65 + d)
  else if (d <? 52)%N then ascii_of_N (97 + (d - 26))
  else if (d <? 62)%N then ascii_of_N (48 + (d - 52))
  else if (d =? 62)%N then "+"%char else "/"%char.

Fixpoint b64encode_go (l : list N) : string :=
  match l with
  | [] => EmptyString
  | [a] =>
      String (b64_char (a / 4)) (String (b64_char ((a mod 4) * 16))
        (String "=" (String "=" EmptyString)))
  | [a; b] =>
      String (b64_char (a / 4)) (String (b64_char ((a mod 4) * 16 + b / 16))
        (String (b64_char ((b mod 16) * 4)) (String "=" EmptyString)))
  | a :: b :: c :: r =>
      String (b64_char (a / 4)) (String (b64_char ((a mod 4) * 16 + b / 16))
        (String (b64_char ((b mod 16) * 4 + c / 64))
          (String (b64_char (c mod 64)) (b64encode_go r))))
  end%N.

Definition b64encode (b : string) : string :=
  b64encode_go (map N_of_ascii (list_ascii_of_string b)).

(** A NUL character occurs in [s]. *)
Fixpoint has_nul (s : string) : bool :=
  match s with
  | EmptyString => false
  | String c s' => Ascii.eqb c "000" || has_nul s'
  end.

(** *** [str.lower] on ASCII letters

    (No character outside ASCII lowers to a letter of [bearer], the one
    string a lowered value is compared with.) *)

Definition lower_char (c : ascii) : ascii :=
  let n := N_of_ascii c in
  if ((65 <=? n) && (n <=? 90))%N then ascii_of_N (n + 32) else c.

Fixpoint lower (s : string) : string :=
  match s with
  | EmptyString => EmptyString
  | String c s' => String (lower_char c) (lower s')
  end.

End Py.

(** Wall-clock instants ([datetime]) are microseconds since the epoch, UTC;
    a [timedelta] is a number of microseconds. Both types are bounded: a
    [datetime] lies in the years 1 to 9999, and a [timedelta] has at most
    999999999 days in either direction. *)
Definition datetime := Z.
Definition timedelta := Z.

(** [datetime.min] and [datetime.max], read as UTC. *)
Definition datetime_min : datetime := -62135596800000000.
Definition datetime_max : datetime := 253402300799999999.

Definition is_datetime (t : Z) : bool := (datetime_min <=? t) && (t <=? datetime_max).

(** [timedelta.min] and [timedelta.max]. *)
Definition timedelta_min : timedelta := -999999999 * 86400000000.
Definition timedelta_max : timedelta := 1000000000 * 86400000000 - 1.

Definition is_timedelta (d : Z) : bool := (timedelta_min <=? d) && (d <=? timedelta_max).

Definition timedelta_minutes (m : Z) : timedelta := m * 60 * 1000000.
Definition timedelta_seconds (s : Z) : timedelta := s * 1000000.

(** [timegm(t.utctimetuple())]: whole seconds, the microseconds dropped. *)
Definition timegm (t : datetime) : Z := t / 1000000.

(** Outcome of a computation that may raise. *)
Inductive outcome (E A : Type) : Type :=
| Ok (a : A)
| Raise (e : E).
Arguments Ok {E A} a.
Arguments Raise {E A} e.

(** ** Persistence: tables, constraints and the ORM session *)

(** What goes wrong when a statement is executed: the conditions the
    database reports, by their driver class name, and the loss of the
    connection. *)
Inductive pgerror : Type :=
| UniqueViolation (constraint : string)
| ForeignKeyViolation (constraint : string)
| NotNullViolation (column : string)
| StringDataRightTruncation (sqltype : string)
| NumericValueOutOfRange (sqltype : string)
| ConnectionLost.

(** Python exceptions that reach the handlers. *)
Inductive Exception : Type :=
| HTTPException (status_code : Z) (detail : string) (headers : list (string * string))
| DBAPIError (e : pgerror) (* raised while a statement is executed *)
| StaleDataError
| InvalidRequestError
| JWTError (msg : string)
| JWSError (msg : string)
| JWKError (msg : string)
| TypeError (msg : string)
| AttributeError (msg : string)
| ValueError (msg : string)
| OverflowError
| RecursionError.

(** [t + d] for a [datetime] and a [timedelta]. *)
Definition datetime_add (t : datetime) (d : timedelta) : outcome Exception datetime :=
  if is_datetime (t + d) then Ok (t + d) else Raise OverflowError.

(** [timedelta(minutes=m)] *)
Definition timedelta_of_minutes (m : Z) : outcome Exception timedelta :=
  if is_timedelta (timedelta_minutes m) then Ok (timedelta_minutes m)
  else Raise OverflowError.

(** A string parameter that holds a NUL character is not sent: the driver
    raises a [ValueError] of its own, which the ORM passes on as it is. *)
Definition nul_error : Exception :=
  ValueError "A string literal cannot contain NUL (0x00) characters.".

Definition HTTP_400_BAD_REQUEST : Z := 400.
Definition HTTP_401_UNAUTHORIZED : Z := 401.
Definition HTTP_500_INTERNAL_SERVER_ERROR : Z := 500.

Definition in_smallint (x : Z) : bool := (-32768 <=? x) && (x <=? 32767).
Definition in_integer (x : Z) : bool := (-2147483648 <=? x) && (x <=? 2147483647).
Definition in_bigint (x : Z) : bool :=
  (-9223372036854775808 <=? x) && (x <=? 9223372036854775807).

(** Length check of a [VARCHAR(n)] or [CHAR(n)] column, in characters. (The
    database stores a longer string whose excess is all blanks, cut to [n];
    that is not modelled: the request schemas keep the strings of a request
    within the column lengths.) *)
Definition fits (n : Z) (s : string) : bool := Py.len s <=? n.
Definition fits_opt (n : Z) (s : option string) : bool :=
  match s with Some s => fits n s | None => true end.

(** A [CHAR(n)] value is stored blank-padded to [n] characters. *)
Fixpoint blanks (n : nat) : string :=
  match n with O => EmptyString | S k => String " " (blanks k) end.
Definition bpchar (n : Z) (s : string) : string :=
  s +:+ blanks (Z.to_nat (n - Py.len s)).

(** *** [class Users(Base)] *)
Module Users.
(** An ORM object: every column attribute is [None] until it is given. *)
Module Obj.
Record t : Type := {
  uid : option Py.UUID;
  phone_number : option string;
  nickname : option string;
  avatar_url : option string;
  is_pro : option bool;
  pro_expire_at : option datetime;
  current_energy : option Z;
  total_saved_bytes : option Z;
  total_deleted_count : option Z;
  last_login_at : option datetime;
  created_at : option datetime
}.
End Obj.

(** A stored row of table [users]. *)
Record row : Type := {
  uid : Py.UUID;
  phone_number : string;
  nickname : option string;
  avatar_url : option string;
  is_pro : bool;
  pro_expire_at : option datetime;
  current_energy : Z;
  total_saved_bytes : Z;
  total_deleted_count : Z;
  last_login_at : option datetime;
  created_at : datetime
}.

Definition set_last_login_at (t : datetime) (r : row) : row :=
  {| uid := uid r; phone_number := phone_number r; nickname := nickname r;
     avatar_url := avatar_url r; is_pro := is_pro r;
     pro_expire_at := pro_expire_at r; current_energy := current_energy r;
     total_saved_bytes := total_saved_bytes r;
     total_deleted_count := total_deleted_count r;
     last_login_at := Some t; created_at := created_at r |}.
End Users.

(** *** [class SyncSessionLogs(Base)] *)
Module SyncSessionLogs.
Module Obj.
Record t : Type := {
  session_id : option string;
  uid : option Py.UUID;
  mode : option Z;
  deleted_count : option Z;
  saved_bytes : option Z;
  start_time : option datetime;
  device_id : option string;
  created_at : option datetime
}.
End Obj.

Record row : Type := {
  session_id : string;
  uid : Py.UUID;
  mode : Z;
  deleted_count : Z;
  saved_bytes : Z;
  start_time : option datetime;
  device_id : option string;
  created_at : datetime
}.
End SyncSessionLogs.

(** *** [class SyncPhotoActions(Base)] *)
Module SyncPhotoActions.
Module Obj.
Record t : Type := {
  action_id : option Z;
  uid : option Py.UUID;
  photo_md5 : option string;
  action_type : option Z;
  action_source : option string;
  created_at : option datetime
}.
End Obj.

Record row : Type := {
  action_id : Z;
  uid : Py.UUID;
  photo_md5 : string;
  action_type : Z;
  action_source : string;
  created_at : datetime
}.
End SyncPhotoActions.

(** The rows of the three tables the handlers write. *)
Record Tables : Type := {
  users : list Users.row;
  sync_session_logs : list SyncSessionLogs.row;
  sync_photo_actions : list SyncPhotoActions.row
}.

(** The committed database: the tables and the [BIGSERIAL] sequence of
    [sync_photo_actions.action_id]. A sequence value, once drawn, is not
    given back when the drawing transaction is rolled back. *)
Record Database : Type := {
  tables : Tables;
  action_id_seq : Z
}.

(** Objects staged in a session: new instances to INSERT, and the one
    attribute change the handlers make on a loaded instance. *)
Inductive Pending : Type :=
| NewUsers (o : Users.Obj.t)
| NewSyncSessionLogs (o : SyncSessionLogs.Obj.t)
| NewSyncPhotoActions (o : SyncPhotoActions.Obj.t)
| DirtyUsersLastLogin (uid : Py.UUID) (t : datetime).

Record Settings : Type := {
  SECRET_KEY : string;
  ALGORITHM : string;
  ACCESS_TOKEN_EXPIRE_MINUTES : Z
}.

(** [class Settings(BaseSettings)] with no environment override. *)
Definition default_settings : Settings :=
  {| SECRET_KEY := "change-me-to-a-random-secret-key";
     ALGORITHM := "HS256";
     ACCESS_TOKEN_EXPIRE_MINUTES := 1440 |}.

(** Values of the [data] dictionary handed to [create_access_token]. *)
Inductive pyval : Type :=
| PStr (s : string)
| PInt (n : Z)
| PDatetime (t : datetime).

(** The values [json.loads] returns: [None], booleans, integers, floats
    ([Infinity] and [NaN] included), strings, lists and dictionaries. *)
Inductive json : Type :=
| JNull
| JBool (b : bool)
| JInt (n : Z)
| JFloat (f : spec_float)
| JStr (s : string)
| JList (l : list json)
| JObj (m : gmap string json).

(** A segment of a compact JWS, by what the codec makes of it: characters
    that are no base64url text, bytes that are no JSON text (or no UTF-8),
    a JSON text whose arrays or objects nest deeper than the interpreter's
    recursion limit, or a JSON text, given by the value [json.loads] returns
    for it. [raw] is the segment. *)
Inductive segment : Type :=
| NotBase64 (raw : string)
| NotJSON (raw : string)
| TooDeep (raw : string)
| Loaded (v : json).

(** A bearer credential as the codec takes it apart: a string with fewer
    than three segments, or a header, a payload and a signature, the
    signature absent when its segment is no base64url text. *)
Inductive Token : Type :=
| NotJWS (raw : string)
| JWS (header payload : segment) (signature : option string).

(** What a request's run depends on besides its arguments: the readings of
    the wall clock in the order they are taken, the database server's
    [now()] for the request's transaction, the value [uuid.uuid4()] returns,
    the statement (a SELECT, INSERT, UPDATE or COMMIT, counted from 0) at
    which the connection is lost (if it is), the loaded settings, the signing
    primitive and the texts of the libraries' exceptions. [signer alg key] is
    the keyed hash the JOSE library builds for an algorithm name and a key,
    over the header and the payload of a token; it is [None] when the library
    refuses the pair (unknown algorithm, unacceptable key). [exc_str e] is
    [str(e)] for an exception whose text the interpreter, the ORM or the web
    framework composes (for a driver error: the class of the driver's
    exception, the server's message with its detail line, the SQL statement
    and its parameters, a link to the ORM's documentation). *)
Record Env : Type := {
  clock : nat -> datetime;
  db_now : datetime;
  uuid4 : Py.UUID;
  conn_lost_at : option nat;
  settings : Settings;
  signer : string -> string -> option (segment -> segment -> string);
  exc_str : Exception -> string
}.

(** [str(e)]: the message the exception was raised with, or the text its
    library composes. *)
Definition Exception_str (env : Env) (e : Exception) : string :=
  match e with
  | JWTError m | JWSError m | JWKError m
  | TypeError m | AttributeError m | ValueError m => m
  | HTTPException _ _ _ | DBAPIError _ | StaleDataError | InvalidRequestError
  | OverflowError | RecursionError => exc_str env e
  end.

(** State a handler runs on. [store] is the committed database, shared by
    all requests; the rest is private to the request's ORM session: [txn] is
    the working copy of a transaction whose flush failed and that waits for
    its rollback, [pending] the staged objects, [stmts] the number of
    statements executed and [reads] the number of clock readings taken. *)
Record State : Type := {
  store : Database;
  txn : option Tables;
  pending : list Pending;
  stmts : nat;
  reads : nat
}.

(** A fresh session on a database ([SessionLocal()] in [get_db]). *)
Definition SessionLocal (d : Database) : State :=
  {| store := d; txn := None; pending := []; stmts := O; reads := O |}.

(** *** Statements *)

Definition check (b : bool) (e : pgerror) : outcome pgerror unit :=
  if b then Ok tt else Raise e.

Definition required {A : Type} (column : string) (v : option A) : outcome pgerror A :=
  match v with Some a => Ok a | None => Raise (NotNullViolation column) end.

Definition obind {E A B : Type} (m : outcome E A) (f : A -> outcome E B) : outcome E B :=
  match m with Ok a => f a | Raise e => Raise e end.

Declare Scope outcome_scope.
Delimit Scope outcome_scope with outcome.
Notation "x <~ m ; k" := (obind m (fun x => k))
  (at level 100, m at next level, right associativity) : outcome_scope.
Notation "m ;> k" := (obind m (fun _ => k))
  (at level 100, right associativity) : outcome_scope.

Definition lost (env : Env) (k : nat) : bool :=
  bool_decide (conn_lost_at env = Some k).

(** [INSERT INTO users]: client-side and server-side column defaults, then
    the column types, NOT NULL, the primary key and UNIQUE(phone_number). *)
Definition insert_users (env : Env) (o : Users.Obj.t) (t : Tables)
  : outcome pgerror Tables :=
  (let uid := default (uuid4 env) (Users.Obj.uid o) in
   let is_pro := default false (Users.Obj.is_pro o) in
   let current_energy := default 50 (Users.Obj.current_energy o) in
   let total_saved_bytes := default 0 (Users.Obj.total_saved_bytes o) in
   let total_deleted_count := default 0 (Users.Obj.total_deleted_count o) in
   let created_at := default (db_now env) (Users.Obj.created_at o) in
   check (fits_opt 255 (Users.Obj.phone_number o))
         (StringDataRightTruncation "character varying(255)") ;>
   check (fits_opt 50 (Users.Obj.nickname o))
         (StringDataRightTruncation "character varying(50)") ;>
   check (in_integer current_energy) (NumericValueOutOfRange "integer") ;>
   check (in_bigint total_saved_bytes) (NumericValueOutOfRange "bigint") ;>
   check (in_integer total_deleted_count) (NumericValueOutOfRange "integer") ;>
   phone_number <~ required "phone_number" (Users.Obj.phone_number o) ;
   check (bool_decide (uid ∉ Users.uid <$> users t)) (UniqueViolation "users_pkey") ;>
   check (bool_decide (phone_number ∉ Users.phone_number <$> users t))
         (UniqueViolation "users_phone_number_key") ;>
   Ok {| users := users t ++
           [ {| Users.uid := uid; Users.phone_number := phone_number;
                Users.nickname := Users.Obj.nickname o;
                Users.avatar_url := Users.Obj.avatar_url o;
                Users.is_pro := is_pro;
                Users.pro_expire_at := Users.Obj.pro_expire_at o;
                Users.current_energy := current_energy;
                Users.total_saved_bytes := total_saved_bytes;
                Users.total_deleted_count := total_deleted_count;
                Users.last_login_at := Users.Obj.last_login_at o;
                Users.created_at := created_at |} ];
         sync_session_logs := sync_session_logs t;
         sync_photo_actions := sync_photo_actions t |})%outcome.

(** [INSERT INTO sync_session_logs]. *)
Definition insert_sync_session_logs (env : Env) (o : SyncSessionLogs.Obj.t) (t : Tables)
  : outcome pgerror Tables :=
  (let deleted_count := default 0 (SyncSessionLogs.Obj.deleted_count o) in
   let saved_bytes := default 0 (SyncSessionLogs.Obj.saved_bytes o) in
   let created_at := default (db_now env) (SyncSessionLogs.Obj.created_at o) in
   check (fits_opt 64 (SyncSessionLogs.Obj.session_id o))
         (StringDataRightTruncation "character varying(64)") ;>
   check (from_option in_smallint true (SyncSessionLogs.Obj.mode o))
         (NumericValueOutOfRange "smallint") ;>
   check (in_integer deleted_count) (NumericValueOutOfRange "integer") ;>
   check (in_bigint saved_bytes) (NumericValueOutOfRange "bigint") ;>
   check (fits_opt 64 (SyncSessionLogs.Obj.device_id o))
         (StringDataRightTruncation "character varying(64)") ;>
   session_id <~ required "session_id" (SyncSessionLogs.Obj.session_id o) ;
   uid <~ required "uid" (SyncSessionLogs.Obj.uid o) ;
   mode <~ required "mode" (SyncSessionLogs.Obj.mode o) ;
   check (bool_decide (session_id ∉ SyncSessionLogs.session_id <$> sync_session_logs t))
         (UniqueViolation "sync_session_logs_pkey") ;>
   check (bool_decide (uid ∈ Users.uid <$> users t))
         (ForeignKeyViolation "sync_session_logs_uid_fkey") ;>
   Ok {| users := users t;
         sync_session_logs := sync_session_logs t ++
           [ {| SyncSessionLogs.session_id := session_id;
                SyncSessionLogs.uid := uid;
                SyncSessionLogs.mode := mode;
                SyncSessionLogs.deleted_count := deleted_count;
                SyncSessionLogs.saved_bytes := saved_bytes;
                SyncSessionLogs.start_time := SyncSessionLogs.Obj.start_time o;
                SyncSessionLogs.device_id := SyncSessionLogs.Obj.device_id o;
                SyncSessionLogs.created_at := created_at |} ];
         sync_photo_actions := sync_photo_actions t |})%outcome.

(** One row of an [INSERT INTO sync_photo_actions]: the column types, NOT
    NULL and the primary key. [serial] is the value drawn from the sequence
    for a row without an explicit [action_id]. The foreign key is checked
    when the statement ends. *)
Definition insert_sync_photo_actions_row (env : Env) (serial : Z)
    (o : SyncPhotoActions.Obj.t) (t : Tables) : outcome pgerror Tables :=
  (let action_id := default serial (SyncPhotoActions.Obj.action_id o) in
   let action_source := default "ANDROID" (SyncPhotoActions.Obj.action_source o) in
   let created_at := default (db_now env) (SyncPhotoActions.Obj.created_at o) in
   check (in_bigint action_id) (NumericValueOutOfRange "bigint") ;>
   check (fits_opt 32 (SyncPhotoActions.Obj.photo_md5 o))
         (StringDataRightTruncation "character(32)") ;>
   check (from_option in_smallint true (SyncPhotoActions.Obj.action_type o))
         (NumericValueOutOfRange "smallint") ;>
   check (fits 10 action_source) (StringDataRightTruncation "character varying(10)") ;>
   uid <~ required "uid" (SyncPhotoActions.Obj.uid o) ;
   photo_md5 <~ required "photo_md5" (SyncPhotoActions.Obj.photo_md5 o) ;
   action_type <~ required "action_type" (SyncPhotoActions.Obj.action_type o) ;
   check (bool_decide (action_id ∉ SyncPhotoActions.action_id <$> sync_photo_actions t))
         (UniqueViolation "sync_photo_actions_pkey") ;>
   Ok {| users := users t;
         sync_session_logs := sync_session_logs t;
         sync_photo_actions := sync_photo_actions t ++
           [ {| SyncPhotoActions.action_id := action_id;
                SyncPhotoActions.uid := uid;
                SyncPhotoActions.photo_md5 := bpchar 32 photo_md5;
                SyncPhotoActions.action_type := action_type;
                SyncPhotoActions.action_source := action_source;
                SyncPhotoActions.created_at := created_at |} ] |})%outcome.

(** The rows of a multi-row [INSERT INTO sync_photo_actions], in the order
    of the statement; [seq] is the last value drawn from the sequence. The
    first row that fails ends the statement. *)
Fixpoint insert_sync_photo_actions_rows (env : Env) (os : list SyncPhotoActions.Obj.t)
    (seq : Z) (t : Tables) : Z * outcome pgerror Tables :=
  match os with
  | [] => (seq, Ok t)
  | o :: os' =>
      let seq' :=
        match SyncPhotoActions.Obj.action_id o with Some _ => seq | None => seq + 1 end in
      match insert_sync_photo_actions_row env seq' o t with
      | Ok t' => insert_sync_photo_actions_rows env os' seq' t'
      | Raise e => (seq', Raise e)
      end
  end.

(** The user a new action row refers to is stored. *)
Definition references_user (t : Tables) (o : SyncPhotoActions.Obj.t) : bool :=
  from_option (fun uid => bool_decide (uid ∈ Users.uid <$> users t)) true
              (SyncPhotoActions.Obj.uid o).

(** [INSERT INTO sync_photo_actions] with the rows of [os]. *)
Definition insert_sync_photo_actions (env : Env) (os : list SyncPhotoActions.Obj.t)
    (seq : Z) (t : Tables) : Z * outcome pgerror Tables :=
  match insert_sync_photo_actions_rows env os seq t with
  | (seq', Ok t') =>
      (seq', (check (forallb (references_user t') os)
                    (ForeignKeyViolation "sync_photo_actions_uid_fkey") ;>
              Ok t')%outcome)
  | failed => failed
  end.

(** [UPDATE users SET last_login_at = ? WHERE uid = ?]; the ORM raises
    [StaleDataError] when no row matched. *)
Definition update_users_last_login (uid : Py.UUID) (at_ : datetime) (t : Tables)
  : option Tables :=
  if bool_decide (uid ∈ Users.uid <$> users t) then
    Some {| users := (fun r => if bool_decide (Users.uid r = uid)
                               then Users.set_last_login_at at_ r else r) <$> users t;
            sync_session_logs := sync_session_logs t;
            sync_photo_actions := sync_photo_actions t |}
  else None.

(** *** The handler monad: environment, state, exceptions *)

Definition M (A : Type) : Type := Env -> State -> outcome Exception A * State.

Definition ret {A : Type} (a : A) : M A := fun _ st => (Ok a, st).

Definition bind {A B : Type} (m : M A) (f : A -> M B) : M B :=
  fun env st =>
    match m env st with
    | (Ok a, st') => f a env st'
    | (Raise e, st') => (Raise e, st')
    end.

Definition raise {A : Type} (e : Exception) : M A := fun _ st => (Raise e, st).

Definition ask : M Env := fun env st => (Ok env, st).

Definition lift {A : Type} (r : outcome Exception A) : M A := fun _ st => (r, st).

(** [try: m except Exception as e: h e] *)
Definition try_except {A : Type} (m : M A) (h : Exception -> M A) : M A :=
  fun env st =>
    match m env st with
    | (Ok a, st') => (Ok a, st')
    | (Raise e, st') => h e env st'
    end.

Declare Scope handler_scope.
Delimit Scope handler_scope with handler.
Notation "x <- m ;; k" := (bind m (fun x => k))
  (at level 100, m at next level, right associativity) : handler_scope.
Notation "m ;; k" := (bind m (fun _ => k))
  (at level 100, right associativity) : handler_scope.

(** [datetime.now(timezone.utc)] *)
Definition datetime_now : M datetime :=
  fun env st =>
    (Ok (clock env (reads st)),
     {| store := store st; txn := txn st; pending := pending st;
        stmts := stmts st; reads := S (reads st) |}).

(** *** The ORM session *)

(** [db.add(obj)] stages the object; nothing is sent to the database. *)
Definition db_add (p : Pending) : M unit :=
  fun _ st =>
    (Ok tt,
     {| store := store st; txn := txn st; pending := pending st ++ [p];
        stmts := stmts st; reads := reads st |}).

(** [db.add_all(objs)] *)
Fixpoint db_add_all (ps : list Pending) : M unit :=
  match ps with
  | [] => ret tt
  | p :: ps' => bind (db_add p) (fun _ => db_add_all ps')
  end.

(** *** The unit of work *)

(** The statements of a flush. The new rows of [sync_photo_actions] go out
    as multi-row INSERTs. *)
Inductive Statement : Type :=
| UpdateUsersLastLogin (uid : Py.UUID) (t : datetime)
| InsertUsers (o : Users.Obj.t)
| InsertSyncPhotoActions (os : list SyncPhotoActions.Obj.t)
| InsertSyncSessionLogs (o : SyncSessionLogs.Obj.t).

(** The ORM sends the new rows of a table in pages of at most 1000. *)
Definition page_size : nat := 1000.

Fixpoint pages_go {A : Type} (n : nat) (l : list A) : list (list A) :=
  match n with
  | O => []
  | S n' =>
      match l with
      | [] => []
      | _ => take page_size l :: pages_go n' (drop page_size l)
      end
  end.

Definition pages {A : Type} (l : list A) : list (list A) := pages_go (length l) l.

(** A flush sorts the staged objects by mapper, the objects of one mapper
    keeping their staging order: [Users] first, on which the two other
    mappers depend through their relationship [user] (its UPDATEs before its
    INSERTs), then [SyncPhotoActions] and [SyncSessionLogs], which do not
    depend on each other and come in the order of their names. (The handlers
    stage at most one object of [Users] and one of [SyncSessionLogs] in a
    flush, so that only the action rows are batched.) *)
Definition unit_of_work (ps : list Pending) : list Statement :=
  omap (fun p => match p with
                 | DirtyUsersLastLogin uid t => Some (UpdateUsersLastLogin uid t)
                 | _ => None
                 end) ps ++
  omap (fun p => match p with NewUsers o => Some (InsertUsers o) | _ => None end) ps ++
  (InsertSyncPhotoActions <$>
     pages (omap (fun p => match p with NewSyncPhotoActions o => Some o | _ => None end) ps)) ++
  omap (fun p => match p with
                 | NewSyncSessionLogs o => Some (InsertSyncSessionLogs o)
                 | _ => None
                 end) ps.

(** One statement, executed on the transaction's working copy. [seq] is
    the last value drawn from the action-id sequence. *)
Definition exec (env : Env) (s : Statement) (seq : Z) (t : Tables)
  : Z * outcome Exception Tables :=
  let db_error (r : outcome pgerror Tables) : outcome Exception Tables :=
    match r with Ok t' => Ok t' | Raise e => Raise (DBAPIError e) end in
  match s with
  | UpdateUsersLastLogin uid at_ =>
      (seq, match update_users_last_login uid at_ t with
            | Some t' => Ok t'
            | None => Raise StaleDataError
            end)
  | InsertUsers o => (seq, db_error (insert_users env o t))
  | InsertSyncPhotoActions os =>
      match insert_sync_photo_actions env os seq t with
      | (seq', r) => (seq', db_error r)
      end
  | InsertSyncSessionLogs o => (seq, db_error (insert_sync_session_logs env o t))
  end.

(** A string of an action object holds a NUL character. *)
Definition action_has_nul (o : SyncPhotoActions.Obj.t) : bool :=
  from_option Py.has_nul false (SyncPhotoActions.Obj.photo_md5 o)
  || Py.has_nul (default "ANDROID" (SyncPhotoActions.Obj.action_source o)).

(** A string parameter of the statement holds a NUL character. *)
Definition has_nul_param (s : Statement) : bool :=
  let nul (s : option string) := from_option Py.has_nul false s in
  match s with
  | UpdateUsersLastLogin _ _ => false
  | InsertUsers o =>
      nul (Users.Obj.phone_number o) || nul (Users.Obj.nickname o)
      || nul (Users.Obj.avatar_url o)
  | InsertSyncPhotoActions os => existsb action_has_nul os
  | InsertSyncSessionLogs o =>
      nul (SyncSessionLogs.Obj.session_id o) || nul (SyncSessionLogs.Obj.device_id o)
  end.

(** The statements of a flush, in order, numbered from [k]: a statement
    with a NUL character in a string parameter is not sent, a statement sent
    when the connection is lost fails, and the first statement that fails
    aborts the transaction; the working copy keeps what the earlier
    statements wrote. *)
Fixpoint run (env : Env) (ss : list Statement) (k : nat) (seq : Z) (t : Tables)
  : outcome Exception unit * nat * Z * Tables :=
  match ss with
  | [] => (Ok tt, k, seq, t)
  | s :: ss' =>
      if has_nul_param s then (Raise nul_error, k, seq, t)
      else if lost env k then (Raise (DBAPIError ConnectionLost), S k, seq, t)
      else
        match exec env s seq t with
        | (seq', Ok t') => run env ss' (S k) seq' t'
        | (seq', Raise e) => (Raise e, S k, seq', t)
        end
  end.

(** The flush of the staged objects. *)
Definition flush (env : Env) (ps : list Pending) (k : nat) (seq : Z) (t : Tables)
  : outcome Exception unit * nat * Z * Tables :=
  run env (unit_of_work ps) k seq t.

(** [db.commit()]: flush, then COMMIT. Only a successful COMMIT replaces the
    committed tables by the working copy; a connection lost at COMMIT is taken
    as a transaction that did not commit. A session whose earlier flush failed
    refuses further work until it is rolled back. *)
Definition db_commit : M unit :=
  fun env st =>
    match txn st with
    | Some _ => (Raise InvalidRequestError, st)
    | None =>
        match flush env (pending st) (stmts st)
                    (action_id_seq (store st)) (tables (store st)) with
        | (Raise e, k, seq, t) =>
            (Raise e,
             {| store := {| tables := tables (store st); action_id_seq := seq |};
                txn := Some t; pending := pending st; stmts := k;
                reads := reads st |})
        | (Ok _, k, seq, t) =>
            if lost env k then
              (Raise (DBAPIError ConnectionLost),
               {| store := {| tables := tables (store st); action_id_seq := seq |};
                  txn := Some t; pending := []; stmts := S k; reads := reads st |})
            else
              (Ok tt,
               {| store := {| tables := t; action_id_seq := seq |};
                  txn := None; pending := []; stmts := S k; reads := reads st |})
        end
    end.

(** [db.rollback()]: the working copy and the staged objects are dropped. *)
Definition db_rollback : M unit :=
  fun _ st =>
    (Ok tt,
     {| store := store st; txn := None; pending := [];
        stmts := stmts st; reads := reads st |}).

(** A SELECT round trip returning [f] of the committed tables. *)
Definition db_select {A : Type} (f : Tables -> outcome Exception A) : M A :=
  fun env st =>
    match txn st with
    | Some _ => (Raise InvalidRequestError, st)
    | None =>
        let st' := {| store := store st; txn := None; pending := pending st;
                      stmts := S (stmts st); reads := reads st |} in
        if lost env (stmts st) then (Raise (DBAPIError ConnectionLost), st')
        else (f (tables (store st)), st')
    end.

(** [db.query(Users).filter(Users.phone_number == phone).first()] *)
Definition db_query_users_by_phone_first (phone : string) : M (option Users.row) :=
  db_select (fun t =>
    Ok (List.find (fun r => bool_decide (Users.phone_number r = phone)) (users t))).

(** [db.refresh(user)] for the instance with primary key [uid]. *)
Definition db_refresh_users (uid : Py.UUID) : M Users.row :=
  db_select (fun t =>
    match List.find (fun r => bool_decide (Users.uid r = uid)) (users t) with
    | Some r => Ok r
    | None => Raise InvalidRequestError
    end).

(** ** [app/core/database.py] *)

(** [db.close()]: the transaction in progress is ended without a commit and
    the session is emptied. *)
Definition db_close : M unit :=
  fun _ st =>
    (Ok tt,
     {| store := store st; txn := None; pending := [];
        stmts := stmts st; reads := reads st |}).

(** [get_db()] around the route that depends on it: a fresh session is
    yielded to the route, and closed in the [finally] whether the route
    returned or raised. What is left is the committed database. *)
Definition get_db {A : Type} (route : M A) (env : Env) (d : Database)
  : outcome Exception A * Database :=
  match route env (SessionLocal d) with
  | (r, st) => (r, store (snd (db_close env st)))
  end.

(** ** Request and response schemas ([app/schemas]) *)

Module PhotoActionSchema.
Record t : Type := {
  md5 : string;
  action_type : Z;
  action_source : string
}.
(** [min_length=32, max_length=32] and [max_length=10]. *)
Definition valid (a : t) : bool :=
  (Py.len (md5 a) =? 32) && (Py.len (action_source a) <=? 10).
End PhotoActionSchema.

Module SyncRequest.
Record t : Type := {
  session_id : string;
  mode : Z;
  actions : list PhotoActionSchema.t
}.
Definition valid (b : t) : bool :=
  (Py.len (session_id b) <=? 64) && forallb PhotoActionSchema.valid (actions b).
End SyncRequest.

Module SyncResponse.
Record t : Type := {
  status : string;
  synced_count : Z
}.
End SyncResponse.

(** ** [app/api/v1/sync.py] *)

(** [sum(1 for a in actions if cond)] *)
Definition py_sum (l : list Z) : Z := fold_left Z.add l 0.

(** The constructor call [SyncSessionLogs(session_id=, uid=, mode=, deleted_count=)]. *)
Definition SyncSessionLogs_init (session_id : string) (uid : Py.UUID) (mode : Z)
    (deleted_count : Z) : SyncSessionLogs.Obj.t :=
  {| SyncSessionLogs.Obj.session_id := Some session_id;
     SyncSessionLogs.Obj.uid := Some uid;
     SyncSessionLogs.Obj.mode := Some mode;
     SyncSessionLogs.Obj.deleted_count := Some deleted_count;
     SyncSessionLogs.Obj.saved_bytes := None;
     SyncSessionLogs.Obj.start_time := None;
     SyncSessionLogs.Obj.device_id := None;
     SyncSessionLogs.Obj.created_at := None |}.

(** The constructor call [SyncPhotoActions(uid=, photo_md5=, action_type=, action_source=)]. *)
Definition SyncPhotoActions_init (uid : Py.UUID) (photo_md5 : string)
    (action_type : Z) (action_source : string) : SyncPhotoActions.Obj.t :=
  {| SyncPhotoActions.Obj.action_id := None;
     SyncPhotoActions.Obj.uid := Some uid;
     SyncPhotoActions.Obj.photo_md5 := Some photo_md5;
     SyncPhotoActions.Obj.action_type := Some action_type;
     SyncPhotoActions.Obj.action_source := Some action_source;
     SyncPhotoActions.Obj.created_at := None |}.

Definition sync_failed_prefix : string := "同步失败，请稍后重试: ".

(** The body of the [try] block of [sync_upload]. *)
Definition sync_upload_try (body : SyncRequest.t) (uid : Py.UUID) : M SyncResponse.t :=
  (let session_log :=
     SyncSessionLogs_init
       (SyncRequest.session_id body) uid (SyncRequest.mode body)
       (py_sum ((fun _ => 1) <$>
                filter (fun a => PhotoActionSchema.action_type a = 1)
                       (SyncRequest.actions body))) in
   db_add (NewSyncSessionLogs session_log) ;;
   let photo_actions :=
     (fun action =>
        SyncPhotoActions_init uid
          (PhotoActionSchema.md5 action)
          (PhotoActionSchema.action_type action)
          (PhotoActionSchema.action_source action))
       <$> SyncRequest.actions body in
   db_add_all (NewSyncPhotoActions <$> photo_actions) ;;
   db_commit ;;
   ret {| SyncResponse.status := "ok";
          SyncResponse.synced_count := Z.of_nat (length (SyncRequest.actions body)) |}
  )%handler.

(** [POST /sync/upload], with [uid] the result of [get_current_user]. *)
Definition sync_upload (body : SyncRequest.t) (uid : Py.UUID) : M SyncResponse.t :=
  try_except (sync_upload_try body uid)
    (fun e =>
       (db_rollback ;;
        env <- ask ;;
        raise (HTTPException HTTP_500_INTERNAL_SERVER_ERROR
                 (sync_failed_prefix +:+ Exception_str env e) []))%handler).

(** ** The JOSE codec ([jose.jwt]) *)

(** The two entry points the backend calls, [jwt.encode] and [jwt.decode],
    on tokens taken apart into their segments. The keyed hash is the
    environment's [signer]; a signature verifies when it is the one the signer
    computes for the header and the payload. The codec compares whole seconds,
    and it rejects a token as expired when its [exp] lies before the second of
    the clock reading, not when it equals it. The codec turns the errors of
    its JWS layer and the [ValueError]s of [json.loads] and of [int] into
    [JWTError]s (its subclasses [ExpiredSignatureError] and [JWTClaimsError]
    included); every other exception leaves it as it is. *)
Module Jose.

(** [jwt.encode] turns a [datetime] under [exp], [iat] or [nbf] into whole
    seconds; any other [datetime] is not JSON serialisable. *)
Definition to_json (k : string) (v : pyval) : option json :=
  match v with
  | PStr s => Some (JStr s)
  | PInt n => Some (JInt n)
  | PDatetime t =>
      if bool_decide (k ∈ ["exp"; "iat"; "nbf"]) then Some (JInt (timegm t))
      else None
  end.

Definition serialisable (claims : gmap string pyval) : bool :=
  bool_decide (map_Forall (fun k v => is_Some (to_json k v)) claims).

(** The header [jwt.encode] writes. *)
Definition header (algorithm : string) : gmap string json :=
  {[ "typ" := JStr "JWT"; "alg" := JStr algorithm ]}.

(** [jwt.encode(claims, key, algorithm=algorithm)] *)
Definition encode (env : Env) (claims : gmap string pyval) (key algorithm : string)
  : outcome Exception Token :=
  if bool_decide (algorithm = "") then Raise (JWSError "Algorithm not supported.")
  else
    match signer env algorithm key with
    | None => Raise (JWSError "Algorithm not supported or key not usable")
    | Some sign =>
        if serialisable claims then
          let h := Loaded (JObj (header algorithm)) in
          let p := Loaded (JObj (map_imap to_json claims)) in
          Ok (JWS h p (Some (sign h p)))
        else Raise (TypeError "Object of type datetime is not JSON serializable")
    end.

(** Truth value of a JSON value: [None], [False], zero, the empty string,
    the empty list and the empty dictionary are false. *)
Definition truthy (v : json) : bool :=
  match v with
  | JNull => false
  | JBool b => b
  | JInt n => negb (n =? 0)
  | JFloat (S754_zero _) => false
  | JFloat _ => true
  | JStr s => negb (bool_decide (s = ""))
  | JList l => match l with [] => false | _ => true end
  | JObj m => match map_to_list m with [] => false | _ => true end
  end.

Definition int_type_error (type : string) : Exception :=
  TypeError ("int() argument must be a string, a bytes-like object or a real number, not '"
             +:+ type +:+ "'").

(** [int(v)] inside a claim validator, which catches [ValueError] and raises
    its own error with the message [msg] instead: a string is read as a
    decimal literal, a float is cut to its integral part, and nothing is an
    integer in [None], a list or a dictionary. *)
Definition int_claim (msg : string) (v : json) : outcome Exception Z :=
  match v with
  | JInt n => Ok n
  | JBool b => Ok (if b then 1 else 0)
  | JFloat (S754_zero _) => Ok 0
  | JFloat (S754_finite s m e) =>
      let a := if 0 <=? e then Z.pos m * 2 ^ e else Z.pos m / 2 ^ (- e) in
      Ok (if s then - a else a)
  | JFloat (S754_infinity _) => Raise OverflowError
  | JFloat S754_nan => Raise (JWTError msg)
  | JStr s =>
      match Py.int_of_str 10 s with
      | Some n => Ok n
      | None => Raise (JWTError msg)
      end
  | JNull => Raise (int_type_error "NoneType")
  | JList _ => Raise (int_type_error "list")
  | JObj _ => Raise (int_type_error "dict")
  end.

Definition is_str (v : json) : bool :=
  match v with JStr _ => true | _ => false end.

(** The validators [jwt.decode] runs with its default options, in their
    order, no audience, issuer, subject or access token being passed. [now]
    is the clock reading in whole seconds. *)
Definition validate_claims (claims : gmap string json) (now : Z) : outcome Exception unit :=
  (match claims !! "iat" with
   | Some v => int_claim "Issued At claim (iat) must be an integer." v ;> Ok tt
   | None => Ok tt
   end ;>
   match claims !! "nbf" with
   | Some v =>
       nbf <~ int_claim "Not Before claim (nbf) must be an integer." v ;
       if now <? nbf then Raise (JWTError "The token is not yet valid (nbf)") else Ok tt
   | None => Ok tt
   end ;>
   match claims !! "exp" with
   | Some v =>
       exp <~ int_claim "Expiration Time claim (exp) must be an integer." v ;
       if exp <? now then Raise (JWTError "Signature has expired.") else Ok tt
   | None => Ok tt
   end ;>
   match claims !! "aud" with
   | Some v =>
       if match v with JStr _ => true | JList l => forallb is_str l | _ => false end
       then Raise (JWTError "Invalid audience")
       else Raise (JWTError "Invalid claim format in token")
   | None => Ok tt
   end ;>
   match claims !! "sub" with
   | Some v => if is_str v then Ok tt else Raise (JWTError "Subject must be a string.")
   | None => Ok tt
   end ;>
   match claims !! "jti" with
   | Some v => if is_str v then Ok tt else Raise (JWTError "JWT ID must be a string.")
   | None => Ok tt
   end ;>
   match claims !! "at_hash" with
   | Some _ =>
       Raise (JWTError "No access_token provided to compare against at_hash claim.")
   | None => Ok tt
   end)%outcome.

(** [jwt.decode(token, key, algorithms=algorithms)] at clock reading [now]:
    the token is taken apart and its header loaded, the algorithm of the
    header is looked up among [algorithms], the signature is verified, and
    only then the payload is loaded and its claims are validated. *)
Definition decode (env : Env) (token : Token) (key : string)
    (algorithms : list string) (now : datetime)
  : outcome Exception (gmap string json) :=
  match token with
  | NotJWS _ => Raise (JWTError "Not enough segments")
  | JWS (NotBase64 _) _ _ => Raise (JWTError "Not enough segments")
  | JWS (NotJSON _) _ _ => Raise (JWTError "Invalid header string")
  | JWS (TooDeep _) _ _ => Raise RecursionError
  | JWS (Loaded (JObj h)) payload signature =>
      match payload, signature with
      | NotBase64 _, _ => Raise (JWTError "Invalid payload padding")
      | _, None => Raise (JWTError "Invalid crypto padding")
      | _, Some sig =>
          match h !! "alg" with
          | Some (JStr alg) =>
              if bool_decide (alg = "") then
                Raise (JWTError "No algorithm was specified in the JWS header.")
              else if bool_decide (alg ∉ algorithms) then
                Raise (JWTError "The specified alg value is not allowed")
              else
                match signer env alg key with
                | None => Raise (JWKError ("Unable to find an algorithm for key: " +:+ key))
                | Some sign =>
                    if bool_decide (sign (Loaded (JObj h)) payload = sig) then
                      match payload with
                      | Loaded (JObj claims) =>
                          (validate_claims claims (timegm now) ;> Ok claims)%outcome
                      | Loaded _ =>
                          Raise (JWTError "Invalid payload string: must be a json object")
                      | TooDeep _ => Raise RecursionError
                      | NotJSON _ | NotBase64 _ => Raise (JWTError "Invalid payload string")
                      end
                    else Raise (JWTError "Signature verification failed.")
                end
          | Some alg =>
              if truthy alg then Raise (JWTError "The specified alg value is not allowed")
              else Raise (JWTError "No algorithm was specified in the JWS header.")
          | None => Raise (JWTError "No algorithm was specified in the JWS header.")
          end
      end
  | JWS (Loaded _) _ _ => Raise (JWTError "Invalid header string: must be a json object")
  end.

End Jose.

(** ** [base64.b64decode] and [bytes.decode] *)

Module Binascii.

(** The decoding table [table_a2b_base64]: the value of a character of the
    Base64 alphabet. *)
Definition table_a2b_base64 (c : ascii) : option N :=
  let n := N_of_ascii c in
  if ((65 <=? n) && (n <=? 90))%N then Some (n - 65)%N
  else if ((97 <=? n) && (n <=? 122))%N then Some (n - 71)%N
  else if ((48 <=? n) && (n <=? 57))%N then Some (n + 4)%N
  else if (n =? 43)%N then Some 62%N
  else if (n =? 47)%N then Some 63%N
  else None.

(** A value stored into an [unsigned char]. *)
Definition uchar (x : N) : N := N.land x 0xff.

(** The loop of [binascii.a2b_base64] in its default mode, over the input
    that is left: [quad_pos] is the position inside the current group of four
    characters, [leftchar] the bits of the group not yet written, [pads] the
    number of padding characters just seen and [bin_data] the bytes written
    so far. A character outside the alphabet is skipped; a padding character
    ends the decoding once it completes a group. *)
Fixpoint a2b_base64_go (quad_pos leftchar pads : N) (bin_data : list N)
    (ascii_data : string) : outcome Exception (list N) :=
  match ascii_data with
  | EmptyString =>
      if (quad_pos =? 0)%N then Ok bin_data
      else if (quad_pos =? 1)%N then
        Raise (ValueError
                 ("Invalid base64-encoded string: number of data characters (" +:+
                  pretty (N.of_nat (length bin_data) / 3 * 4 + 1)%N +:+
                  ") cannot be 1 more than a multiple of 4"))
      else Raise (ValueError "Incorrect padding")
  | String this_ch rest =>
      if Ascii.eqb this_ch "=" then
        if ((2 <=? quad_pos) && (4 <=? quad_pos + (pads + 1)))%N then Ok bin_data
        else
          a2b_base64_go quad_pos leftchar
            (if (2 <=? quad_pos)%N then pads + 1 else pads)%N bin_data rest
      else
        match table_a2b_base64 this_ch with
        | None => a2b_base64_go quad_pos leftchar pads bin_data rest
        | Some this_ch =>
            if (quad_pos =? 0)%N then a2b_base64_go 1 this_ch 0 bin_data rest
            else if (quad_pos =? 1)%N then
              a2b_base64_go 2 (N.land this_ch 0x0f) 0
                (bin_data ++ [uchar (N.lor (N.shiftl leftchar 2) (N.shiftr this_ch 4))])
                rest
            else if (quad_pos =? 2)%N then
              a2b_base64_go 3 (N.land this_ch 0x03) 0
                (bin_data ++ [uchar (N.lor (N.shiftl leftchar 4) (N.shiftr this_ch 2))])
                rest
            else
              a2b_base64_go 0 0 0
                (bin_data ++ [uchar (N.lor (N.shiftl leftchar 6) this_ch)]) rest
        end
  end.

(** [binascii.a2b_base64(data)]; its [binascii.Error] is a [ValueError]. *)
Definition a2b_base64 (data : string) : outcome Exception string :=
  match a2b_base64_go 0 0 0 [] data with
  | Ok bin_data => Ok (string_of_list_ascii (map ascii_of_N bin_data))
  | Raise e => Raise e
  end.

(** [base64.b64decode(s)], neither [altchars] nor [validate] being passed. *)
Definition b64decode (s : string) : outcome Exception string := a2b_base64 s.

End Binascii.

(** Well-formed UTF-8: [more] is the number of continuation bytes the
    current character still needs, [lo] and [hi] bound the next of them (the
    first continuation byte after [E0], [ED], [F0] and [F4] is restricted, so
    that over-long forms, surrogates and code points above [10FFFF] are
    refused). *)
Fixpoint utf8_go (more : nat) (lo hi : N) (b : string) : bool :=
  match b with
  | EmptyString => match more with O => true | S _ => false end
  | String c b' =>
      let n := N_of_ascii c in
      match more with
      | O =>
          if (n <=? 0x7F)%N then utf8_go 0 0x80 0xBF b'
          else if ((0xC2 <=? n) && (n <=? 0xDF))%N then utf8_go 1 0x80 0xBF b'
          else if (n =? 0xE0)%N then utf8_go 2 0xA0 0xBF b'
          else if (n =? 0xED)%N then utf8_go 2 0x80 0x9F b'
          else if ((0xE1 <=? n) && (n <=? 0xEF))%N then utf8_go 2 0x80 0xBF b'
          else if (n =? 0xF0)%N then utf8_go 3 0x90 0xBF b'
          else if ((0xF1 <=? n) && (n <=? 0xF3))%N then utf8_go 3 0x80 0xBF b'
          else if (n =? 0xF4)%N then utf8_go 3 0x80 0x8F b'
          else false
      | S k =>
          if ((lo <=? n) && (n <=? hi))%N then utf8_go k 0x80 0xBF b' else false
      end
  end.

Definition utf8_valid (b : string) : bool := utf8_go 0 0x80 0xBF b.

(** [b.decode("utf-8")] on arbitrary bytes: the strict decoder. Its
    [UnicodeDecodeError] is a [ValueError]; the byte, the position and the
    reason its message names are left out. *)
Definition bytes_decode_utf8 (b : string) : outcome Exception string :=
  if utf8_valid b then Ok (Py.decode_utf8 b)
  else Raise (ValueError "'utf-8' codec can't decode bytes").

(** ** [app/core/security.py] *)

(** Truth value of an optional [timedelta]: [None] and the zero duration are
    false. *)
Definition timedelta_truthy (d : option timedelta) : option timedelta :=
  match d with
  | Some d => if d =? 0 then None else Some d
  | None => None
  end.

(** [create_access_token(data, expires_delta)], the clock reading [now]. *)
Definition create_access_token (env : Env) (now : datetime)
    (data : gmap string pyval) (expires_delta : option timedelta)
  : outcome Exception Token :=
  (let to_encode := data in
   expire <~
     match timedelta_truthy expires_delta with
     | Some d => datetime_add now d
     | None =>
         d <~ timedelta_of_minutes (ACCESS_TOKEN_EXPIRE_MINUTES (settings env)) ;
         datetime_add now d
     end ;
   let to_encode := <["exp" := PDatetime expire]> to_encode in
   Jose.encode env to_encode (SECRET_KEY (settings env)) (ALGORITHM (settings env))
  )%outcome.

(** [encrypt_phone(phone)]: the Base64 placeholder. *)
Definition encrypt_phone (phone : string) : string :=
  Py.decode_utf8 (Py.b64encode (Py.encode_utf8 phone)).

(** [decrypt_phone(encrypted_phone)] *)
Definition decrypt_phone (encrypted_phone : string) : outcome Exception string :=
  match Binascii.b64decode (Py.encode_utf8 encrypted_phone) with
  | Ok b => bytes_decode_utf8 b
  | Raise e => Raise e
  end.

(** ** [app/api/deps.py] *)

(** The [Authorization] header as the bearer extractor sees it: absent (or
    empty), or split at its first blank into a scheme and a parameter. *)
Record Authorization : Type := {
  scheme : string;
  param : Token
}.

(** The error [OAuth2PasswordBearer] raises when it finds no bearer
    credential (its [auto_error] is on by default). *)
Definition not_authenticated_exception : Exception :=
  HTTPException HTTP_401_UNAUTHORIZED "Not authenticated" [("WWW-Authenticate", "Bearer")].

(** [oauth2_scheme = OAuth2PasswordBearer(tokenUrl=...)], called on a request:
    the header must be there, and its scheme must be [bearer] in any case. *)
Definition oauth2_scheme (authorization : option Authorization)
  : outcome Exception Token :=
  match authorization with
  | None => Raise not_authenticated_exception
  | Some a =>
      if bool_decide (Py.lower (scheme a) = "bearer") then Ok (param a)
      else Raise not_authenticated_exception
  end.

Definition credentials_exception : Exception :=
  HTTPException HTTP_401_UNAUTHORIZED "无法验证身份凭证，请重新登录"
                [("WWW-Authenticate", "Bearer")].

(** [get_current_user(token)], the clock reading [now]. *)
Definition get_current_user (env : Env) (now : datetime) (token : Token)
  : outcome Exception Py.UUID :=
  match Jose.decode env token (SECRET_KEY (settings env))
                    [ALGORITHM (settings env)] now with
  | Ok payload =>
      match payload !! "sub" with
      | None | Some JNull => Raise credentials_exception
      | Some (JStr uid_str) =>
          match Py.UUID_of_str uid_str with
          | Some uid => Ok uid
          | None => Raise credentials_exception
          end
      | Some _ => Raise (AttributeError "object has no attribute 'replace'")
      end
  | Raise (JWTError _) => Raise credentials_exception
  | Raise (ValueError _) => Raise credentials_exception
  | Raise e => Raise e
  end.

(** The authentication gate of a protected route: the bearer extractor, then
    [get_current_user] on the credential it returns. *)
Definition authenticate (env : Env) (now : datetime)
    (authorization : option Authorization) : outcome Exception Py.UUID :=
  match oauth2_scheme authorization with
  | Ok token => get_current_user env now token
  | Raise e => Raise e
  end.

(** ** [app/api/v1/auth.py] *)

Module LoginRequest.
Record t : Type := {
  phone : string;
  code : string
}.
(** [min_length=1] on both fields. *)
Definition valid (b : t) : bool := (1 <=? Py.len (phone b)) && (1 <=? Py.len (code b)).
End LoginRequest.

Module UserResponse.
Record t : Type := {
  uid : Py.UUID;
  is_pro : bool
}.
End UserResponse.

Module LoginResponse.
Record t : Type := {
  token : Token;
  user : UserResponse.t
}.
End LoginResponse.

(** The constructor call [Users(phone_number=, last_login_at=)]. *)
Definition Users_init (phone_number : string) (last_login_at : datetime) : Users.Obj.t :=
  {| Users.Obj.uid := None;
     Users.Obj.phone_number := Some phone_number;
     Users.Obj.nickname := None;
     Users.Obj.avatar_url := None;
     Users.Obj.is_pro := None;
     Users.Obj.pro_expire_at := None;
     Users.Obj.current_energy := None;
     Users.Obj.total_saved_bytes := None;
     Users.Obj.total_deleted_count := None;
     Users.Obj.last_login_at := Some last_login_at;
     Users.Obj.created_at := None |}.

Definition invalid_code_exception : Exception :=
  HTTPException HTTP_400_BAD_REQUEST "验证码错误，请重新输入" [].

(** Step 3 of [login], first half: the lookup by encrypted phone. *)
Definition login_lookup (encrypted_phone : string) : M (option Users.row) :=
  db_query_users_by_phone_first encrypted_phone.

(** Steps 3 (second half) to 5 of [login]: create or touch the user, issue
    the token, build the response. [user] is what the lookup returned. *)
Definition login_resume (encrypted_phone : string) (user : option Users.row)
  : M LoginResponse.t :=
  (user <-
     match user with
     | None =>
         now <- datetime_now ;;
         let user := Users_init encrypted_phone now in
         db_add (NewUsers user) ;;
         db_commit ;;
         env <- ask ;;
         db_refresh_users (default (uuid4 env) (Users.Obj.uid user))
     | Some user =>
         now <- datetime_now ;;
         db_add (DirtyUsersLastLogin (Users.uid user) now) ;;
         db_commit ;;
         db_refresh_users (Users.uid user)
     end ;;
   env <- ask ;;
   now <- datetime_now ;;
   access_token <-
     lift (create_access_token env now
             {[ "sub" := PStr (Py.UUID_str (Users.uid user)) ]} None) ;;
   ret {| LoginResponse.token := access_token;
          LoginResponse.user :=
            {| UserResponse.uid := Users.uid user;
               UserResponse.is_pro := Users.is_pro user |} |})%handler.

(** [POST /auth/login], once the rate limiter has let the request through. *)
Definition login (body : LoginRequest.t) : M LoginResponse.t :=
  if bool_decide (LoginRequest.code body ≠ "1234") then
    raise invalid_code_exception
  else
    (let encrypted_phone := encrypt_phone (LoginRequest.phone body) in
     user <- login_lookup encrypted_phone ;;
     login_resume encrypted_phone user)%handler.

(** ** The two routes as requests *)

(** [POST /api/v1/auth/login] for a body that has passed the schema, once the
    rate limiter has let the request through. *)
Definition post_login (body : LoginRequest.t) (env : Env) (d : Database)
  : outcome Exception LoginResponse.t * Database :=
  get_db (login body) env d.

(** [POST /api/v1/sync/upload] for a body that has passed the schema: the
    dependency [get_current_user] is resolved first, at clock reading [now],
    and the handler only runs with the user id it returns. *)
Definition post_sync_upload (now : datetime) (authorization : option Authorization)
    (body : SyncRequest.t) (env : Env) (d : Database)
  : outcome Exception SyncResponse.t * Database :=
  match authenticate env now authorization with
  | Ok uid => get_db (sync_upload body uid) env d
  | Raise e => (Raise e, d)
  end.

(** ** Two requests on one database *)

(** The state in which a suspended request resumes: its own session, on
    the database as other requests have left it meanwhile. *)
Definition resume_on (d : Database) (st : State) : State :=
  {| store := d; txn := txn st; pending := pending st;
     stmts := stmts st; reads := reads st |}.

(** ** The spec's words, for comparison *)

(** The number of actions of a batch whose type is the reserved delete
    code [1]. *)
Fixpoint count_deletes (actions : list PhotoActionSchema.t) : Z :=
  match actions with
  | [] => 0
  | a :: rest =>
      (if PhotoActionSchema.action_type a =? 1 then 1 else 0) + count_deletes rest
  end.

(** ** Scenario data *)

Module Scenario.
(** A stand-in for the keyed hash: it tells algorithms, keys, subjects and
    expiries apart, which is all the scenarios need. *)
Definition toy_sign (alg key : string) (header payload : segment) : string :=
  alg +:+ ":" +:+ key +:+ ":" +:+
  match payload with
  | Loaded (JObj claims) =>
      match claims !! "sub" with Some (JStr s) => s | _ => "" end +:+ ":" +:+
      match claims !! "exp" with Some (JInt n) => Py.hex_of 16 (Z.to_N n) | _ => "" end
  | _ => ""
  end.

(** A stand-in for the texts the libraries compose: the class of the
    driver's exception and the constraint, column or type the server
    names. *)
Definition sample_str (e : Exception) : string :=
  match e with
  | DBAPIError (UniqueViolation c) =>
      "(psycopg2.errors.UniqueViolation) duplicate key value violates unique constraint " +:+ c
  | DBAPIError (ForeignKeyViolation c) =>
      "(psycopg2.errors.ForeignKeyViolation) insert or update violates foreign key constraint "
      +:+ c
  | DBAPIError (NotNullViolation c) =>
      "(psycopg2.errors.NotNullViolation) null value violates not-null constraint in column "
      +:+ c
  | DBAPIError (StringDataRightTruncation t) =>
      "(psycopg2.errors.StringDataRightTruncation) value too long for type " +:+ t
  | DBAPIError (NumericValueOutOfRange t) =>
      "(psycopg2.errors.NumericValueOutOfRange) " +:+ t +:+ " out of range"
  | DBAPIError ConnectionLost =>
      "(psycopg2.OperationalError) server closed the connection unexpectedly"
  | _ => ""
  end.

Definition env : Env :=
  {| clock := fun k => 1700000000000000 + Z.of_nat k;
     db_now := 1700000000000000;
     uuid4 := 0x123e4567e89b12d3a456426614174000%N;
     conn_lost_at := None;
     settings := default_settings;
     signer := fun alg key =>
       if bool_decide (alg ∈ ["HS256"; "HS384"; "HS512"])
       then Some (toy_sign alg key) else None;
     exc_str := sample_str |}.

Definition empty_db : Database :=
  {| tables := {| users := []; sync_session_logs := []; sync_photo_actions := [] |};
     action_id_seq := 0 |}.

Definition md5_a : string := "aaaaaaaaaaaaaaaaaaaaaaaaaaaaaaaa".
Definition md5_b : string := "bbbbbbbbbbbbbbbbbbbbbbbbbbbbbbbb".

Definition batch : SyncRequest.t :=
  {| SyncRequest.session_id := "s1"; SyncRequest.mode := 1;
     SyncRequest.actions :=
       [ {| PhotoActionSchema.md5 := md5_a; PhotoActionSchema.action_type := 1;
            PhotoActionSchema.action_source := "ANDROID" |};
         {| PhotoActionSchema.md5 := md5_b; PhotoActionSchema.action_type := 0;
            PhotoActionSchema.action_source := "IOS" |} ] |}.

(** A batch without actions. *)
Definition batch0 : SyncRequest.t :=
  {| SyncRequest.session_id := "s0"; SyncRequest.mode := 0; SyncRequest.actions := [] |}.

Definition good_login : LoginRequest.t :=
  {| LoginRequest.phone := "+8613800000000"; LoginRequest.code := "1234" |}.
Definition bad_login : LoginRequest.t :=
  {| LoginRequest.phone := "+8613800000000"; LoginRequest.code := "0000" |}.

(** The same environment, the connection dropping at statement [k]. *)
Definition env_lost (k : nat) : Env :=
  {| clock := clock env; db_now := db_now env; uuid4 := uuid4 env;
     conn_lost_at := Some k; settings := settings env; signer := signer env;
     exc_str := exc_str env |}.

(** The same environment for a second request, drawing another UUID. *)
Definition env' : Env :=
  {| clock := clock env; db_now := db_now env;
     uuid4 := 0x9b2d6f3ac1e84c7faa105e3b7c0d92e1%N;
     conn_lost_at := None; settings := settings env; signer := signer env;
     exc_str := exc_str env |}.

(** The database after the first login of the scenario phone. *)
Definition db1 : Database := store (snd (login good_login env (SessionLocal empty_db))).

(** ... and after the upload of [batch] by that user. *)
Definition db2 : Database :=
  store (snd (sync_upload batch (uuid4 env) env (SessionLocal db1))).

(** A token issued for the scenario user at second 1700000000, valid for
    60 seconds; the same with another signature; tokens signed by the server
    without a subject and with a subject that is no UUID. *)
Definition issue (data : gmap string pyval) : Token :=
  match create_access_token env 1700000000000000 data (Some (timedelta_seconds 60)) with
  | Ok tok => tok
  | Raise _ => NotJWS ""
  end.
Definition issued : Token := issue {[ "sub" := PStr (Py.UUID_str (uuid4 env)) ]}.
Definition tampered : Token :=
  match issued with
  | JWS header payload _ => JWS header payload (Some "forged")
  | tok => tok
  end.
Definition no_subject : Token := issue ∅.
Definition bad_subject : Token := issue {[ "sub" := PStr "not-a-uuid" ]}.
Definition bearer (tok : Token) : option Authorization :=
  Some {| scheme := "Bearer"; param := tok |}.

(** Two credentials the codec does not refuse with an error of its own: one
    whose header is the base64url text of 1200 opening brackets, whatever its
    payload and signature are, and one with the server's signature whose
    expiry is [null]. *)
Definition deep_header : Token :=
  JWS (TooDeep (String.concat "" (repeat "W1tb" 400))) (NotJSON "") (Some "").
Definition null_expiry : Token :=
  let h := Loaded (JObj (Jose.header "HS256")) in
  let p := Loaded (JObj {[ "sub" := JStr (Py.UUID_str (uuid4 env)); "exp" := JNull ]}) in
  JWS h p (Some (toy_sign "HS256" (SECRET_KEY default_settings) h p)).

(** Two logins of the scenario phone, never seen before, racing: request A
    looks the phone up, request B then runs from lookup to commit, and A
    resumes with what its lookup returned. *)
Definition enc : string := encrypt_phone (LoginRequest.phone good_login).
Definition a_looked_up : outcome Exception (option Users.row) * State :=
  login_lookup enc env (SessionLocal empty_db).
Definition b_done : outcome Exception LoginResponse.t * State :=
  login good_login env' (SessionLocal empty_db).
Definition a_resumed : outcome Exception LoginResponse.t * State :=
  login_resume enc None env (resume_on (store (snd b_done)) (snd a_looked_up)).

Definition st2 : State := snd (sync_upload batch (uuid4 env) env (SessionLocal db1)).
Definition resp2 : SyncResponse.t :=
  {| SyncResponse.status := "ok"; SyncResponse.synced_count := 2 |}.
(** A phone of 190 characters, and a second phone. *)
Definition long_phone : string := String.concat "" (repeat "0123456789" 19).
Definition long_login : LoginRequest.t :=
  {| LoginRequest.phone := long_phone; LoginRequest.code := "1234" |}.
Definition other_login : LoginRequest.t :=
  {| LoginRequest.phone := "+8613900000000"; LoginRequest.code := "1234" |}.

(** The first login of the scenario phone as a request, the token it
    returns, and the upload of [batch] with that token a hundred seconds
    later. *)
Definition login1 : outcome Exception LoginResponse.t * Database :=
  post_login good_login env empty_db.
Definition token1 : Token :=
  match fst login1 with Ok resp => LoginResponse.token resp | Raise _ => NotJWS "" end.
Definition upload1 : outcome Exception SyncResponse.t * Database :=
  post_sync_upload 1700000100000000 (bearer token1) batch env (snd login1).

(** Claims that bring an expiry of their own. *)
Definition data_with_exp : gmap string pyval :=
  {[ "sub" := PStr "u"; "exp" := PInt 7 ]}.
End Scenario.


(** ** Auxiliary notions used in the statements *)

(** [p] holds of every character of [s]. *)
Fixpoint string_all (p : ascii -> bool) (s : string) : bool :=
  match s with
  | EmptyString => true
  | String c s' => p c && string_all p s'
  end.

(** The character codes of a string of ASCII characters. *)
Definition codes (s : string) : list N := N_of_ascii <$> list_ascii_of_string s.

(** The digits ['%x'] produces. *)
Definition is_lower_hex (c : ascii) : bool :=
  let n := N_of_ascii c in
  (((48 <=? n) && (n <=? 57)) || ((97 <=? n) && (n <=? 102)))%N.

(** [needle in hay] *)
Fixpoint contains (needle hay : string) : bool :=
  match hay with
  | EmptyString => String.prefix needle EmptyString
  | String _ hay' => String.prefix needle hay || contains needle hay'
  end.

(** The objects [sync_upload] stages for a batch: the session object, then
    the action objects. *)
Definition staged_session (body : SyncRequest.t) (uid : Py.UUID) : SyncSessionLogs.Obj.t :=
  SyncSessionLogs_init (SyncRequest.session_id body) uid (SyncRequest.mode body)
    (py_sum ((fun _ => 1) <$>
             filter (fun a => PhotoActionSchema.action_type a = 1)
                    (SyncRequest.actions body))).

Definition staged_action (uid : Py.UUID) (action : PhotoActionSchema.t)
  : SyncPhotoActions.Obj.t :=
  SyncPhotoActions_init uid
    (PhotoActionSchema.md5 action)
    (PhotoActionSchema.action_type action)
    (PhotoActionSchema.action_source action).

Definition staged (body : SyncRequest.t) (uid : Py.UUID) : list Pending :=
  NewSyncSessionLogs (staged_session body uid)
  :: (NewSyncPhotoActions <$> (staged_action uid <$> SyncRequest.actions body)).

(** A stored action row carries the user id and the three fields of the
    input action it was built from. *)
Definition carries (uid : Py.UUID) (a : PhotoActionSchema.t) (r : SyncPhotoActions.row)
  : Prop :=
  SyncPhotoActions.uid r = uid ∧
  SyncPhotoActions.photo_md5 r = PhotoActionSchema.md5 a ∧
  SyncPhotoActions.action_type r = PhotoActionSchema.action_type a ∧
  SyncPhotoActions.action_source r = PhotoActionSchema.action_source a.

(** The phone column of the users table. *)
Definition phones (d : Database) : list string :=
  Users.phone_number <$> users (tables d).

(** The session ids of the committed session rows. *)
Definition session_ids (d : Database) : list string :=
  SyncSessionLogs.session_id <$> sync_session_logs (tables d).

(** The claims of a token, if its payload is a JSON object. *)
Definition token_claims (tok : Token) : option (gmap string json) :=
  match tok with
  | JWS _ (Loaded (JObj claims)) _ => Some claims
  | _ => None
  end.

(** The expiry embedded in a token, in whole seconds, if it has one. *)
Definition token_exp (tok : Token) : option Z :=
  match token_claims tok ≫= (.!! "exp") with
  | Some (JInt n) => Some n
  | _ => None
  end.

(** The configured algorithm and key are accepted by the JOSE library. *)
Definition usable (env : Env) : Prop :=
  ALGORITHM (settings env) <> "" /\
  is_Some (signer env (ALGORITHM (settings env)) (SECRET_KEY (settings env))).

(** The lifetime [create_access_token] gives a token. *)
Definition lifetime (env : Env) (expires_delta : option timedelta) : timedelta :=
  default (timedelta_minutes (ACCESS_TOKEN_EXPIRE_MINUTES (settings env)))
          (timedelta_truthy expires_delta).

(** The claims [create_access_token] encodes for a subject, and the payload
    of the token it returns. *)
Definition issued_claims (env : Env) (now : datetime) (sub : string)
    (expires_delta : option timedelta) : gmap string pyval :=
  <["exp" := PDatetime (now + lifetime env expires_delta)]> {[ "sub" := PStr sub ]}.

Definition issued_payload (env : Env) (now : datetime) (sub : string)
    (expires_delta : option timedelta) : gmap string json :=
  map_imap Jose.to_json (issued_claims env now sub expires_delta).

(** The token the codec builds for the payload of an issued token with the
    keyed hash [sign]. *)
Definition issued_token (env : Env) (now : datetime) (sub : string)
    (expires_delta : option timedelta) (sign : segment -> segment -> string) : Token :=
  let h := Loaded (JObj (Jose.header (ALGORITHM (settings env)))) in
  let p := Loaded (JObj (issued_payload env now sub expires_delta)) in
  JWS h p (Some (sign h p)).

(** The clock reading is a date [datetime] holds, and so is the expiry
    [create_access_token] computes from it. *)
Definition expiry_in_range (env : Env) (now : datetime) (expires_delta : option timedelta)
  : bool :=
  is_datetime now && is_datetime (now + lifetime env expires_delta).

(** The values [int()] refuses with another error than [ValueError]:
    [None], a list and a dictionary with a [TypeError], an infinite float
    with an [OverflowError]. *)
Definition int_refuses (v : json) : option Exception :=
  match v with
  | JNull => Some (Jose.int_type_error "NoneType")
  | JList _ => Some (Jose.int_type_error "list")
  | JObj _ => Some (Jose.int_type_error "dict")
  | JFloat (S754_infinity _) => Some OverflowError
  | _ => None
  end.

(** The ways a credential gets an exception past the handler of
    [get_current_user], which catches [JWTError] and [ValueError] only: its
    header is nested too deeply for [json.loads]; or it has a signature
    segment and a payload that is nested too deeply; or it has a signature
    segment and holds under [iat], [nbf] or [exp] a value [int()] refuses
    with a [TypeError] or an [OverflowError]. *)
Inductive uncaught : Token -> Exception -> Prop :=
| uncaught_header raw payload signature :
    uncaught (JWS (TooDeep raw) payload signature) RecursionError
| uncaught_payload h raw sig :
    uncaught (JWS (Loaded (JObj h)) (TooDeep raw) (Some sig)) RecursionError
| uncaught_time h claims sig k v e :
    k ∈ ["iat"; "nbf"; "exp"] ->
    claims !! k = Some v ->
    int_refuses v = Some e ->
    uncaught (JWS (Loaded (JObj h)) (Loaded (JObj claims)) (Some sig)) e.

(** The integer [int()] makes of a claim, if it makes one. *)
Definition claim_int (v : json) : option Z :=
  match Jose.int_claim "" v with Ok n => Some n | Raise _ => None end.




(** What a user row created by a login from [phone] looks like. *)
Definition new_user_defaults (env : Env) (phone : string) (row : Users.row) : Prop :=
  Users.phone_number row = encrypt_phone phone /\
  Users.uid row = uuid4 env /\
  Users.is_pro row = false /\
  Users.current_energy row = 50 /\
  Users.total_saved_bytes row = 0 /\
  Users.total_deleted_count row = 0 /\
  Users.last_login_at row = Some (clock env O) /\
  Users.created_at row = db_now env /\
  Users.nickname row = None /\ Users.avatar_url row = None /\
  Users.pro_expire_at row = None.

(** No two user rows share a phone value. *)
Definition unique_phones (t : Tables) : Prop :=
  NoDup (Users.phone_number <$> users t).

(** A handler keeps a property of the committed tables, whatever the
    environment and the session state it runs in. *)
Definition preserves {A : Type} (I : Tables -> Prop) (m : M A) : Prop :=
  forall env st, I (tables (store st)) -> I (tables (store (snd (m env st)))).

(** The INSERT statements. *)
Definition is_insert (s : Statement) : bool :=
  match s with UpdateUsersLastLogin _ _ => false | _ => true end.

(** The numbers below [n], for checks by enumeration. *)
Definition N_below (n : nat) : list N := map N.of_nat (seq 0 n).

(** A character of the Base64 alphabet, or the padding character. *)
Definition is_b64 (c : ascii) : bool :=
  bool_decide (is_Some (Binascii.table_a2b_base64 c)) || Ascii.eqb c "=".


(** The key columns of the users and of the action rows. *)
Definition uids (d : Database) : list Py.UUID := Users.uid <$> users (tables d).
Definition action_ids (d : Database) : list Z :=
  SyncPhotoActions.action_id <$> sync_photo_actions (tables d).

(** What the declarations of [app/models/base.py] promise of the stored
    rows: the three primary keys and the unique phone column hold no value
    twice, every session row and every action row belongs to a stored user,
    and the sequence of [action_id] is ahead of the ids in use. *)
Definition consistent (d : Database) : Prop :=
  NoDup (uids d) /\
  NoDup (phones d) /\
  NoDup (session_ids d) /\
  NoDup (action_ids d) /\
  (forall r, r ∈ sync_session_logs (tables d) -> SyncSessionLogs.uid r ∈ uids d) /\
  (forall r, r ∈ sync_photo_actions (tables d) -> SyncPhotoActions.uid r ∈ uids d) /\
  (forall r, r ∈ sync_photo_actions (tables d) ->
             SyncPhotoActions.action_id r <= action_id_seq d) /\
  0 <= action_id_seq d.

(** The databases that requests to the two routes lead to from [d0], each
    request in an environment, at a time and with a header and a body of its
    own. *)
Inductive reachable (d0 : Database) : Database -> Prop :=
| reachable_start : reachable d0 d0
| reachable_login env body d :
    reachable d0 d -> reachable d0 (snd (post_login body env d))
| reachable_sync_upload env now authorization body d :
    reachable d0 d -> reachable d0 (snd (post_sync_upload now authorization body env d)).

(** The row [r] after the UPDATE of [login] for user [uid]. *)
Definition touch (uid : Py.UUID) (at_ : datetime) (r : Users.row) : Users.row :=
  if bool_decide (Users.uid r = uid) then Users.set_last_login_at at_ r else r.

(** Every value of the batch fits the column it is stored in, and no string
    of it holds a NUL character. *)
Definition storable_action (a : PhotoActionSchema.t) : bool :=
  fits 32 (PhotoActionSchema.md5 a) && negb (Py.has_nul (PhotoActionSchema.md5 a))
  && in_smallint (PhotoActionSchema.action_type a)
  && fits 10 (PhotoActionSchema.action_source a)
  && negb (Py.has_nul (PhotoActionSchema.action_source a)).

Definition storable (body : SyncRequest.t) : bool :=
  fits 64 (SyncRequest.session_id body) && negb (Py.has_nul (SyncRequest.session_id body))
  && in_smallint (SyncRequest.mode body)
  && in_integer (count_deletes (SyncRequest.actions body))
  && forallb storable_action (SyncRequest.actions body).

(** [r'] is the user row [r], its [last_login_at] apart. *)
Definition same_user (r r' : Users.row) : Prop :=
  r' = r \/ exists t, r' = Users.set_last_login_at t r.

(** [d'] holds what [d] holds and possibly more: the user rows of [d] in
    place, each the same user, then new ones; the session rows and the action
    rows of [d] unchanged, then new ones; a sequence that has not gone
    back. *)
Definition grows (d d' : Database) : Prop :=
  (exists kept new,
     users (tables d') = kept ++ new /\ Forall2 same_user (users (tables d)) kept) /\
  sync_session_logs (tables d) `prefix_of` sync_session_logs (tables d') /\
  sync_photo_actions (tables d) `prefix_of` sync_photo_actions (tables d') /\
  action_id_seq d <= action_id_seq d'.

(** * Properties *)

(** ** Strings and UUIDs *)

Section StringFacts.

Lemma string_all_app p (a b : string) :
  string_all p (a +:+ b) = string_all p a && string_all p b.
Proof.
  induction a as [|c a IH]; simpl; [reflexivity|].
  rewrite IH. apply andb_assoc.
Qed.

Lemma string_all_impl (p q : ascii -> bool) (s : string) :
  (forall c, p c = true -> q c = true) ->
  string_all p s = true -> string_all q s = true.
Proof.
  intros Hpq. induction s as [|c s IH]; simpl; [done|].
  intros [Hc Hs]%andb_true_iff. rewrite (Hpq _ Hc). simpl. auto.
Qed.

Lemma string_all_substring p (s : string) : forall n m,
  string_all p s = true -> string_all p (String.substring n m s) = true.
Proof.
  induction s as [|c s IH]; intros n m H.
  - destruct n, m; reflexivity.
  - simpl in H. apply andb_true_iff in H as [Hc Hs].
    destruct n as [|n]; [destruct m as [|m]|]; simpl; auto.
    rewrite Hc. simpl. auto.
Qed.

Lemma lower_hex_cases (c : ascii) (q : ascii -> bool) :
  is_lower_hex c = true ->
  forallb q ["0";"1";"2";"3";"4";"5";"6";"7";"8";"9";"a";"b";"c";"d";"e";"f"]%char = true ->
  q c = true.
Proof.
  intros Hc Hq.
  destruct c as [[] [] [] [] [] [] [] []]; try discriminate Hc;
    cbn in Hq; repeat (apply andb_true_iff in Hq as [? Hq]); assumption.
Qed.

Lemma hex_char_lower (d : N) : is_lower_hex (Py.hex_char d) = true.
Proof.
  destruct d as [|p]; [reflexivity|].
  do 5 (try (destruct p as [p|p|]; try reflexivity)).
Qed.

(** What the parser of [int] sees in a digit of ['%x']. *)
Lemma hex_char_code (d : N) :
  (d < 16)%N ->
  let c := N_of_ascii (Py.hex_char d) in
  Py.digit_value c = Some d /\ (c =? 95)%N = false /\ Py.is_space c = false /\
  (c =? 43)%N = false /\ (c =? 45)%N = false /\ (c =? 120)%N = false /\
  (c =? 88)%N = false /\ (c <? 127)%N = true /\ (c <? 128)%N = true.
Proof.
  intros Hd. destruct d as [|p]; [repeat split|].
  do 4 (try (destruct p as [p|p|]; try (repeat split; fail); try lia)).
Qed.

Lemma length_hex_of k n : String.length (Py.hex_of k n) = k.
Proof. induction k; simpl; congruence. Qed.

Lemma hex_of_lower k n : string_all is_lower_hex (Py.hex_of k n) = true.
Proof.
  induction k; simpl; [reflexivity|].
  rewrite hex_char_lower. assumption.
Qed.

Lemma code_points_hex_of k n : Py.code_points (Py.hex_of k n) = codes (Py.hex_of k n).
Proof.
  unfold Py.code_points, codes. induction k as [|k IH]; [reflexivity|].
  cbn [Py.hex_of Py.code_points_go list_ascii_of_string fmap list_fmap]. cbv zeta.
  destruct (hex_char_code ((n / 16 ^ N.of_nat k) mod 16)) as (_ & _ & _ & _ & _ & _ & _ & _ & H);
    [apply N.mod_upper_bound; lia|].
  change (0x80)%N with 128%N. rewrite H, IH. reflexivity.
Qed.

Lemma to_ascii_hex_of k n :
  mapM Py.to_ascii (codes (Py.hex_of k n)) = Some (codes (Py.hex_of k n)).
Proof.
  unfold codes. induction k as [|k IH]; [reflexivity|].
  cbn [Py.hex_of list_ascii_of_string fmap list_fmap mapM].
  destruct (hex_char_code ((n / 16 ^ N.of_nat k) mod 16)) as (_ & _ & _ & _ & _ & _ & _ & H & _);
    [apply N.mod_upper_bound; lia|].
  assert (Hc : forall c, (c <? 127)%N = true -> Py.to_ascii c = Some c)
    by (intros c Hc; unfold Py.to_ascii; rewrite Hc; reflexivity).
  rewrite (Hc _ H), IH. reflexivity.
Qed.

(** Reading back the digits: the accumulator is shifted and the low [k]
    digits of [n] are added. *)
Lemma digits_go_hex_of k : forall n acc m,
  Py.digits_go 16 acc m false (codes (Py.hex_of k n))
  = Some ((acc * 16 ^ N.of_nat k + n mod 16 ^ N.of_nat k)%N, (m + k)%nat, []).
Proof.
  unfold codes. induction k as [|k IH]; intros n acc m.
  - cbn. rewrite N.mod_1_r, Nat.add_0_r. do 3 f_equal. lia.
  - cbn [Py.hex_of list_ascii_of_string fmap list_fmap Py.digits_go].
    destruct (hex_char_code ((n / 16 ^ N.of_nat k) mod 16)) as (Hv & Hu & _);
      [apply N.mod_upper_bound; lia|].
    rewrite Hu, Hv.
    assert (Hlt : (((n / 16 ^ N.of_nat k) mod 16 <? 16) = true)%N)
      by (apply N.ltb_lt, N.mod_upper_bound; lia).
    rewrite Hlt, IH. do 3 f_equal; [|lia].
    rewrite Nat2N.inj_succ, N.pow_succ_r'.
    set (b := (16 ^ N.of_nat k)%N).
    assert (Hb : (b <> 0)%N) by (apply N.pow_nonzero; lia).
    rewrite (N.mul_comm 16 b), N.Div0.mod_mul_r. lia.
Qed.

(** [int(s, 16)] reads the digits of ['%x'] back. *)
Lemma int_of_str_hex_of k n :
  Py.int_of_str 16 (Py.hex_of (S k) n) = Some (Z.of_N (n mod 16 ^ N.of_nat (S k))).
Proof.
  unfold Py.int_of_str. rewrite code_points_hex_of, to_ascii_hex_of.
  cbn [mbind option_bind].
  pose proof (digits_go_hex_of (S k) n 0 0) as Hdigits.
  unfold codes in *.
  cbn [Py.hex_of list_ascii_of_string fmap list_fmap] in *.
  destruct (hex_char_code ((n / 16 ^ N.of_nat k) mod 16))
    as (_ & Hu & Hsp & Hplus & Hminus & _);
    [apply N.mod_upper_bound; lia|].
  unfold Py.int_of_ascii. cbn [Py.skip_spaces]. rewrite Hsp.
  cbn [Py.sign]. rewrite Hplus, Hminus.
  assert (Hpre : forall c r,
            r = N_of_ascii <$> list_ascii_of_string (Py.hex_of k n) ->
            Py.skip_prefix 16 (c :: r) = c :: r).
  { intros c r ->. destruct k as [|k']; [reflexivity|].
    cbn [Py.hex_of list_ascii_of_string fmap list_fmap Py.skip_prefix].
    destruct (hex_char_code ((n / 16 ^ N.of_nat k') mod 16))
      as (_ & _ & _ & _ & _ & Hx & HX & _);
      [apply N.mod_upper_bound; lia|].
    rewrite Hx, HX, !andb_false_r. reflexivity. }
  rewrite (Hpre _ _ eq_refl).
  cbn [Py.starts_with_underscore]. rewrite Hu.
  rewrite Hdigits. cbn [Nat.add Nat.eqb].
  change (Py.is_power_of_two 16) with true. cbn [negb andb Py.skip_spaces].
  reflexivity.
Qed.

Lemma len_no_continuation (s : string) :
  string_all (fun c => negb (Py.is_continuation c)) s = true ->
  Py.len s = Z.of_nat (String.length s).
Proof.
  induction s as [|c s IH]; [reflexivity|].
  cbn [string_all Py.len String.length].
  intros [Hc Hs]%andb_true_iff.
  apply negb_true_iff in Hc. rewrite Hc, IH by assumption. lia.
Qed.

(** Removing a pattern whose first character does not occur. *)
Lemma remove_absent (c0 : ascii) (old' s : string) :
  string_all (fun c => negb (Ascii.eqb c0 c)) s = true ->
  Py.remove (String c0 old') s = s.
Proof.
  unfold Py.remove. induction s as [|c s IH]; [reflexivity|].
  cbn [string_all Py.remove_go String.prefix].
  intros [Hc Hs]%andb_true_iff.
  apply negb_true_iff, Ascii.eqb_neq in Hc.
  destruct (ascii_dec c0 c) as [Heq|_]; [congruence|].
  f_equal. auto.
Qed.

Lemma remove_hyphen_cons c s :
  Py.remove "-" (String c s) =
  if Ascii.eqb "-" c then Py.remove "-" s else String c (Py.remove "-" s).
Proof.
  unfold Py.remove. cbn [Py.remove_go String.prefix].
  destruct (ascii_dec "-" c) as [Heq|Hne].
  - subst c. destruct s; reflexivity.
  - apply Ascii.eqb_neq in Hne. rewrite Hne. reflexivity.
Qed.

Lemma remove_hyphen_app (a b : string) :
  Py.remove "-" (a +:+ b) = Py.remove "-" a +:+ Py.remove "-" b.
Proof.
  induction a as [|c a IH]; [reflexivity|].
  change (String c a +:+ b) with (String c (a +:+ b)).
  rewrite !remove_hyphen_cons, IH. destruct (Ascii.eqb "-" c); reflexivity.
Qed.

Lemma strip_braces_none (s : string) :
  string_all (fun c => negb (Py.is_brace c)) s = true -> Py.strip_braces s = s.
Proof.
  intros H. unfold Py.strip_braces.
  assert (Hl : Py.lstrip_braces s = s).
  { destruct s as [|c s]; [reflexivity|]. simpl in *.
    apply andb_true_iff in H as [Hc _]. apply negb_true_iff in Hc.
    rewrite Hc. reflexivity. }
  rewrite Hl. clear Hl.
  induction s as [|c s IH]; [reflexivity|].
  simpl in *. apply andb_true_iff in H as [Hc Hs]. apply negb_true_iff in Hc.
  rewrite (IH Hs). destruct s; [rewrite Hc|]; reflexivity.
Qed.

(** Grouping 32 characters 8-4-4-4-12 and gluing the groups gives the
    characters back. *)
Lemma groups_glue (s : string) :
  String.length s = 32%nat ->
  String.substring 0 8 s +:+ String.substring 8 4 s +:+ String.substring 12 4 s +:+
  String.substring 16 4 s +:+ String.substring 20 12 s = s.
Proof.
  intros H.
  do 32 (destruct s as [|? s]; [discriminate H|]).
  destruct s; [reflexivity | discriminate H].
Qed.

End StringFacts.

Example encrypt_phone_scenario :
  encrypt_phone "+8613800000000" = "Kzg2MTM4MDAwMDAwMDA=".
Proof. reflexivity. Qed.

Example UUID_str_scenario :
  Py.UUID_str 0x123e4567e89b12d3a456426614174000%N = "123e4567-e89b-12d3-a456-426614174000".
Proof. reflexivity. Qed.

Example UUID_of_str_forms :
  Py.UUID_of_str "123E4567-E89B-12D3-A456-426614174000" = Some 0x123e4567e89b12d3a456426614174000%N /\
  Py.UUID_of_str "urn:uuid:{123e4567-e89b-12d3-a456-426614174000}"
    = Some 0x123e4567e89b12d3a456426614174000%N /\
  Py.UUID_of_str "123e4567e89b12d3a456426614174000" = Some 0x123e4567e89b12d3a456426614174000%N /\
  Py.UUID_of_str "not-a-uuid" = None /\
  Py.UUID_of_str "" = None.
Proof. repeat split. Qed.

(** [UUID(str(u)) == u] for every UUID value. *)
Lemma UUID_of_str_str (u : Py.UUID) :
  Py.UUID_wf u -> Py.UUID_of_str (Py.UUID_str u) = Some u.
Proof.
  intros Hu. unfold Py.UUID_of_str, Py.UUID_str.
  set (hex := Py.hex_of 32 u).
  assert (Hhex : string_all is_lower_hex hex = true) by apply hex_of_lower.
  assert (Hlen : String.length hex = 32%nat) by apply length_hex_of.
  set (s := (String.substring 0 8 hex +:+ _)%string).
  assert (Hs : string_all (fun c => is_lower_hex c || Ascii.eqb c "-") s = true).
  { subst s. rewrite !string_all_app, !andb_true_iff.
    repeat split; try reflexivity;
      (eapply string_all_impl; [|apply string_all_substring, Hhex]);
      intros c ->; reflexivity. }
  assert (Hno : forall c0, is_lower_hex c0 = false -> Ascii.eqb c0 "-" = false ->
                string_all (fun c => negb (Ascii.eqb c0 c)) s = true).
  { intros c0 H1 H2. eapply string_all_impl; [|exact Hs].
    intros c Hc. apply negb_true_iff, Ascii.eqb_neq. intros <-.
    rewrite H1, H2 in Hc. discriminate. }
  rewrite (remove_absent "u" "rn:" s) by (apply Hno; reflexivity).
  rewrite (remove_absent "u" "uid:" s) by (apply Hno; reflexivity).
  rewrite strip_braces_none.
  2:{ eapply string_all_impl; [|exact Hs]. intros c Hc.
      apply negb_true_iff. unfold Py.is_brace. apply orb_false_iff.
      split; apply Ascii.eqb_neq; intros ->; discriminate Hc. }
  assert (Hrm : forall p, string_all is_lower_hex p = true -> Py.remove "-" p = p).
  { intros p Hp. apply (remove_absent "-" "" p).
    eapply string_all_impl; [|exact Hp]. intros c Hc.
    apply negb_true_iff, Ascii.eqb_neq. intros <-. discriminate Hc. }
  assert (Hflat : Py.remove "-" s = hex).
  { subst s. rewrite !remove_hyphen_app.
    change (Py.remove "-" "-") with EmptyString.
    rewrite !Hrm by (apply string_all_substring, Hhex).
    repeat change (EmptyString +:+ ?x) with x.
    apply groups_glue, Hlen. }
  rewrite Hflat.
  rewrite len_no_continuation.
  2:{ eapply string_all_impl; [|exact Hhex]. intros c Hc.
      apply (lower_hex_cases c (fun c => negb (Py.is_continuation c)) Hc).
      reflexivity. }
  rewrite Hlen. change (Z.of_nat 32 =? 32) with true. cbn match.
  assert (Hint : Py.int_of_str 16 hex = Some (Z.of_N u)).
  { subst hex. rewrite int_of_str_hex_of. do 2 f_equal. apply N.mod_small.
    unfold Py.UUID_wf in Hu. change (16 ^ N.of_nat 32)%N with (2 ^ 128)%N. exact Hu. }
  rewrite Hint.
  assert (Hrange : (0 <=? Z.of_N u) && (Z.of_N u <? 2 ^ 128) = true).
  { unfold Py.UUID_wf in Hu. apply andb_true_iff. split; [apply Z.leb_le; lia|].
    apply Z.ltb_lt. change (2 ^ 128) with (Z.of_N (2 ^ 128)). lia. }
  rewrite Hrange, N2Z.id. reflexivity.
Qed.

(** ** The ORM session *)

Lemma db_add_all_run (ps : list Pending) (env : Env) : forall st,
  db_add_all ps env st =
  (Ok tt, {| store := store st; txn := txn st; pending := pending st ++ ps;
             stmts := stmts st; reads := reads st |}).
Proof.
  induction ps as [|p ps IH]; intros st.
  - destruct st. cbn. rewrite app_nil_r. reflexivity.
  - cbn [db_add_all]. unfold bind, db_add. rewrite IH. cbn.
    rewrite <- app_assoc. reflexivity.
Qed.

(** What a run of [sync_upload] on a fresh session amounts to: one flush of
    the staged objects, then COMMIT, or the rollback and the 500 response. *)
Lemma sync_upload_run (body : SyncRequest.t) (uid : Py.UUID) (env : Env) (d : Database) :
  sync_upload body uid env (SessionLocal d) =
  let failed e k seq :=
    (Raise (HTTPException HTTP_500_INTERNAL_SERVER_ERROR
              (sync_failed_prefix +:+ Exception_str env e) []),
     {| store := {| tables := tables d; action_id_seq := seq |};
        txn := None; pending := []; stmts := k; reads := O |}) in
  match flush env (staged body uid) O (action_id_seq d) (tables d) with
  | (Raise e, k, seq, _) => failed e k seq
  | (Ok _, k, seq, t) =>
      if lost env k then failed (DBAPIError ConnectionLost) (S k) seq
      else
        (Ok {| SyncResponse.status := "ok";
               SyncResponse.synced_count :=
                 Z.of_nat (length (SyncRequest.actions body)) |},
         {| store := {| tables := t; action_id_seq := seq |};
            txn := None; pending := []; stmts := S k; reads := O |})
  end.
Proof.
  unfold sync_upload, try_except, sync_upload_try, bind.
  unfold db_add at 1. cbn [SessionLocal store txn pending stmts reads app].
  rewrite db_add_all_run. cbn [store txn pending stmts reads].
  unfold db_commit. cbn [store txn pending stmts reads].
  change (flush env _ O (action_id_seq d) (tables d))
    with (flush env (staged body uid) O (action_id_seq d) (tables d)).
  destruct (flush env (staged body uid) O (action_id_seq d) (tables d))
    as [[[[[]|e] k] seq] t]; cbn.
  - destruct (lost env k); reflexivity.
  - reflexivity.
Qed.

(** *** Statements that succeed *)

Ltac step_checks H :=
  repeat
    (match type of H with
     | obind (check ?b _) _ = Ok _ =>
         let E := fresh "Hck" in
         destruct b eqn:E; cbn [obind check] in H; [|discriminate H]
     | obind (required _ ?v) _ = Ok _ =>
         let E := fresh "Hrq" in
         destruct v eqn:E; cbn [obind required] in H; [|discriminate H]
     end).

Lemma insert_sync_session_logs_ok env o t t' :
  insert_sync_session_logs env o t = Ok t' ->
  exists sid uid mode,
    SyncSessionLogs.Obj.session_id o = Some sid /\
    SyncSessionLogs.Obj.uid o = Some uid /\
    SyncSessionLogs.Obj.mode o = Some mode /\
    (sid ∉ SyncSessionLogs.session_id <$> sync_session_logs t) /\
    (uid ∈ Users.uid <$> users t) /\
    t' = {| users := users t;
            sync_session_logs := sync_session_logs t ++
              [ {| SyncSessionLogs.session_id := sid;
                   SyncSessionLogs.uid := uid;
                   SyncSessionLogs.mode := mode;
                   SyncSessionLogs.deleted_count :=
                     default 0 (SyncSessionLogs.Obj.deleted_count o);
                   SyncSessionLogs.saved_bytes :=
                     default 0 (SyncSessionLogs.Obj.saved_bytes o);
                   SyncSessionLogs.start_time := SyncSessionLogs.Obj.start_time o;
                   SyncSessionLogs.device_id := SyncSessionLogs.Obj.device_id o;
                   SyncSessionLogs.created_at :=
                     default (db_now env) (SyncSessionLogs.Obj.created_at o) |} ];
            sync_photo_actions := sync_photo_actions t |}.
Proof.
  unfold insert_sync_session_logs. cbv zeta. intros H.
  step_checks H.
  apply bool_decide_eq_true in Hck4, Hck5.
  injection H as <-. eauto 10.
Qed.

Lemma insert_sync_photo_actions_row_ok env serial o t t' :
  insert_sync_photo_actions_row env serial o t = Ok t' ->
  exists uid md5 ty,
    SyncPhotoActions.Obj.uid o = Some uid /\
    SyncPhotoActions.Obj.photo_md5 o = Some md5 /\
    SyncPhotoActions.Obj.action_type o = Some ty /\
    t' = {| users := users t;
            sync_session_logs := sync_session_logs t;
            sync_photo_actions := sync_photo_actions t ++
              [ {| SyncPhotoActions.action_id :=
                     default serial (SyncPhotoActions.Obj.action_id o);
                   SyncPhotoActions.uid := uid;
                   SyncPhotoActions.photo_md5 := bpchar 32 md5;
                   SyncPhotoActions.action_type := ty;
                   SyncPhotoActions.action_source :=
                     default "ANDROID" (SyncPhotoActions.Obj.action_source o);
                   SyncPhotoActions.created_at :=
                     default (db_now env) (SyncPhotoActions.Obj.created_at o) |} ] |}.
Proof.
  unfold insert_sync_photo_actions_row. cbv zeta. intros H.
  step_checks H.
  injection H as <-. eauto 10.
Qed.

Lemma insert_users_ok env o t t' :
  insert_users env o t = Ok t' ->
  exists phone,
    Users.Obj.phone_number o = Some phone /\
    (phone ∉ Users.phone_number <$> users t) /\
    (default (uuid4 env) (Users.Obj.uid o) ∉ Users.uid <$> users t) /\
    t' = {| users := users t ++
              [ {| Users.uid := default (uuid4 env) (Users.Obj.uid o);
                   Users.phone_number := phone;
                   Users.nickname := Users.Obj.nickname o;
                   Users.avatar_url := Users.Obj.avatar_url o;
                   Users.is_pro := default false (Users.Obj.is_pro o);
                   Users.pro_expire_at := Users.Obj.pro_expire_at o;
                   Users.current_energy := default 50 (Users.Obj.current_energy o);
                   Users.total_saved_bytes :=
                     default 0 (Users.Obj.total_saved_bytes o);
                   Users.total_deleted_count :=
                     default 0 (Users.Obj.total_deleted_count o);
                   Users.last_login_at := Users.Obj.last_login_at o;
                   Users.created_at := default (db_now env) (Users.Obj.created_at o) |} ];
            sync_session_logs := sync_session_logs t;
            sync_photo_actions := sync_photo_actions t |}.
Proof.
  unfold insert_users. cbv zeta. intros H.
  step_checks H.
  apply bool_decide_eq_true in Hck4, Hck5.
  injection H as <-. eauto 10.
Qed.

(** A row of exactly 32 characters is stored without padding. *)
Lemma bpchar_exact (s : string) : Py.len s = 32 -> bpchar 32 s = s.
Proof.
  intros H. unfold bpchar. rewrite H.
  change (blanks (Z.to_nat (32 - 32))) with EmptyString. clear H.
  induction s as [|c s IH]; [reflexivity|].
  change (String c s +:+ "") with (String c (s +:+ "")). f_equal. exact IH.
Qed.

(** *** The statements of a flush *)

Lemma run_app env (ss1 ss2 : list Statement) : forall k seq t,
  run env (ss1 ++ ss2) k seq t =
  match run env ss1 k seq t with
  | (Ok _, k', seq', t') => run env ss2 k' seq' t'
  | failed => failed
  end.
Proof.
  induction ss1 as [|s ss1 IH]; intros k seq t; [reflexivity|].
  cbn [app run]. destruct (has_nul_param s); [reflexivity|].
  destruct (lost env k); [reflexivity|].
  destruct (exec env s seq t) as [seq1 [t1|e]]; [apply IH|reflexivity].
Qed.

Lemma pages_go_concat {A} (n : nat) : forall l : list A,
  (length l <= n)%nat -> concat (pages_go n l) = l.
Proof.
  induction n as [|n IH]; intros l Hl.
  - destruct l; [reflexivity|cbn in Hl; lia].
  - destruct l as [|x l]; [reflexivity|].
    cbn [pages_go concat]. rewrite IH; [apply take_drop|].
    rewrite length_drop. cbn [length] in *. unfold page_size. lia.
Qed.

(** The pages of a list are the list, cut up. *)
Lemma pages_concat {A} (l : list A) : concat (pages l) = l.
Proof. apply pages_go_concat. reflexivity. Qed.

(** The statements of an upload: the pages of action rows, then the session
    row. *)
Lemma unit_of_work_staged (body : SyncRequest.t) (uid : Py.UUID) :
  unit_of_work (staged body uid) =
  (InsertSyncPhotoActions <$> pages (staged_action uid <$> SyncRequest.actions body))
  ++ [InsertSyncSessionLogs (staged_session body uid)].
Proof.
  unfold staged, unit_of_work. cbn [omap list_omap].
  set (os := staged_action uid <$> SyncRequest.actions body). clearbody os.
  assert (H1 : forall l : list SyncPhotoActions.Obj.t,
             omap (fun p => match p with
                            | DirtyUsersLastLogin u t => Some (UpdateUsersLastLogin u t)
                            | _ => None
                            end) (NewSyncPhotoActions <$> l) = [])
    by (induction l; cbn; auto).
  assert (H2 : forall l : list SyncPhotoActions.Obj.t,
             omap (fun p => match p with NewUsers o => Some (InsertUsers o) | _ => None end)
                  (NewSyncPhotoActions <$> l) = [])
    by (induction l; cbn; auto).
  assert (H3 : forall l : list SyncPhotoActions.Obj.t,
             omap (fun p => match p with NewSyncPhotoActions o => Some o | _ => None end)
                  (NewSyncPhotoActions <$> l) = l)
    by (induction l as [|o l IH]; [reflexivity|]; cbn; cbn in IH; rewrite IH; reflexivity).
  assert (H4 : forall l : list SyncPhotoActions.Obj.t,
             omap (fun p => match p with
                            | NewSyncSessionLogs o => Some (InsertSyncSessionLogs o)
                            | _ => None
                            end) (NewSyncPhotoActions <$> l) = [])
    by (induction l; cbn; auto).
  rewrite H1, H2, H3, H4. reflexivity.
Qed.

Lemma insert_rows_app env (os1 os2 : list SyncPhotoActions.Obj.t) : forall seq t,
  insert_sync_photo_actions_rows env (os1 ++ os2) seq t =
  match insert_sync_photo_actions_rows env os1 seq t with
  | (seq', Ok t') => insert_sync_photo_actions_rows env os2 seq' t'
  | failed => failed
  end.
Proof.
  induction os1 as [|o os1 IH]; intros seq t; [reflexivity|].
  cbn [app insert_sync_photo_actions_rows]. cbv zeta.
  destruct (insert_sync_photo_actions_row env _ o t); [apply IH|reflexivity].
Qed.

(** The rows of a statement leave the two other tables alone. *)
Lemma insert_rows_tables env (os : list SyncPhotoActions.Obj.t) : forall seq t seq' t',
  insert_sync_photo_actions_rows env os seq t = (seq', Ok t') ->
  users t' = users t /\ sync_session_logs t' = sync_session_logs t.
Proof.
  induction os as [|o os IH]; intros seq t seq' t' H.
  - injection H as _ <-. split; reflexivity.
  - cbn [insert_sync_photo_actions_rows] in H. cbv zeta in H.
    destruct (insert_sync_photo_actions_row env _ o t) as [t1|e] eqn:Hrow; [|discriminate H].
    apply insert_sync_photo_actions_row_ok in Hrow as (? & ? & ? & _ & _ & _ & ->).
    apply IH in H as [-> ->]. split; reflexivity.
Qed.

Lemma references_user_ext (t t' : Tables) (os : list SyncPhotoActions.Obj.t) :
  users t' = users t -> forallb (references_user t') os = forallb (references_user t) os.
Proof. intros H. unfold references_user. rewrite H. reflexivity. Qed.

(** The multi-row INSERT that goes through: its rows pass one by one, and
    the users they refer to are stored. *)
Lemma insert_sync_photo_actions_ok env (os : list SyncPhotoActions.Obj.t) seq t seq' t' :
  insert_sync_photo_actions env os seq t = (seq', Ok t') <->
  insert_sync_photo_actions_rows env os seq t = (seq', Ok t') /\
  forallb (references_user t) os = true.
Proof.
  unfold insert_sync_photo_actions.
  destruct (insert_sync_photo_actions_rows env os seq t) as [seq1 [t1|e]] eqn:Hrows.
  - destruct (insert_rows_tables _ _ _ _ _ _ Hrows) as [Hu _].
    rewrite (references_user_ext t t1 os Hu).
    destruct (forallb (references_user t) os); cbn; split.
    + intros [= <- <-]. auto.
    + intros [[= <- <-] _]. reflexivity.
    + discriminate.
    + intros [_ ?]. discriminate.
  - split; [discriminate|]. intros [? _]. discriminate.
Qed.

(** The pages of a batch that all go through are the rows of the batch,
    inserted in order. *)
Lemma run_pages env (pgs : list (list SyncPhotoActions.Obj.t)) : forall k seq t k' seq' t',
  run env (InsertSyncPhotoActions <$> pgs) k seq t = (Ok tt, k', seq', t') ->
  insert_sync_photo_actions_rows env (concat pgs) seq t = (seq', Ok t') /\
  forallb (references_user t) (concat pgs) = true /\
  existsb action_has_nul (concat pgs) = false.
Proof.
  induction pgs as [|pg pgs IH]; intros k seq t k' seq' t' H.
  - injection H as _ <- <-. repeat split.
  - cbn [fmap list_fmap run] in H.
    destruct (has_nul_param (InsertSyncPhotoActions pg)) eqn:Hnul; [discriminate H|].
    destruct (lost env k); [discriminate H|].
    cbn [exec] in H.
    destruct (insert_sync_photo_actions env pg seq t) as [seq1 [t1|e]] eqn:Hpg;
      [|discriminate H].
    apply insert_sync_photo_actions_ok in Hpg as [Hrows Hfk].
    apply IH in H as (Hrest & Hfk' & Hnul').
    destruct (insert_rows_tables _ _ _ _ _ _ Hrows) as [Hu _].
    rewrite (references_user_ext t t1 _ Hu) in Hfk'.
    cbn [concat]. rewrite insert_rows_app, Hrows, forallb_app, existsb_app.
    cbn [has_nul_param] in Hnul. rewrite Hfk, Hfk', Hnul, Hnul'. auto.
Qed.

Lemma run_pages_ok env (pgs : list (list SyncPhotoActions.Obj.t)) : forall k seq t seq' t',
  conn_lost_at env = None ->
  insert_sync_photo_actions_rows env (concat pgs) seq t = (seq', Ok t') ->
  forallb (references_user t) (concat pgs) = true ->
  existsb action_has_nul (concat pgs) = false ->
  run env (InsertSyncPhotoActions <$> pgs) k seq t
  = (Ok tt, (k + length pgs)%nat, seq', t').
Proof.
  intros k seq t seq' t' Hconn. revert k seq t.
  induction pgs as [|pg pgs IH]; intros k seq t Hrows Hfk Hnul.
  - injection Hrows as <- <-. cbn. rewrite Nat.add_0_r. reflexivity.
  - cbn [concat] in Hrows, Hfk, Hnul.
    rewrite insert_rows_app in Hrows. rewrite forallb_app in Hfk.
    rewrite existsb_app in Hnul.
    apply andb_true_iff in Hfk as [Hfk Hfk']. apply orb_false_iff in Hnul as [Hnul Hnul'].
    destruct (insert_sync_photo_actions_rows env pg seq t) as [seq1 [t1|e]] eqn:Hpg;
      [|discriminate Hrows].
    destruct (insert_rows_tables _ _ _ _ _ _ Hpg) as [Hu _].
    cbn [fmap list_fmap run has_nul_param]. rewrite Hnul.
    unfold lost. rewrite Hconn, bool_decide_eq_false_2 by discriminate.
    cbn [exec].
    rewrite (proj2 (insert_sync_photo_actions_ok env pg seq t seq1 t1) (conj Hpg Hfk)).
    rewrite <- (references_user_ext t t1 _ Hu) in Hfk'.
    fold (lost env). rewrite (IH (S k) seq1 t1 Hrows Hfk' Hnul').
    cbn [length]. do 3 f_equal. lia.
Qed.

(** The rows of the staged action objects of a batch: when every row
    passes, one row per action is appended, in order, and nothing else is
    touched. *)
Lemma insert_rows_ok env uid (acts : list PhotoActionSchema.t) :
  forall seq t seq' t',
    insert_sync_photo_actions_rows env (staged_action uid <$> acts) seq t = (seq', Ok t') ->
    users t' = users t /\
    sync_session_logs t' = sync_session_logs t /\
    exists rows,
      sync_photo_actions t' = sync_photo_actions t ++ rows /\
      Forall2 (fun a r =>
                 SyncPhotoActions.uid r = uid /\
                 SyncPhotoActions.photo_md5 r = bpchar 32 (PhotoActionSchema.md5 a) /\
                 SyncPhotoActions.action_type r = PhotoActionSchema.action_type a /\
                 SyncPhotoActions.action_source r = PhotoActionSchema.action_source a)
              acts rows.
Proof.
  induction acts as [|a acts IH]; intros seq t seq' t' H.
  - cbn in H. injection H as _ <-.
    repeat split. exists []. rewrite app_nil_r. split; constructor.
  - cbn [fmap list_fmap insert_sync_photo_actions_rows] in H. cbv zeta in H.
    destruct (insert_sync_photo_actions_row env _ (staged_action uid a) t)
      as [t1|e] eqn:Hins; [|discriminate H].
    apply insert_sync_photo_actions_row_ok in Hins
      as (uid' & md5 & ty & Hu & Hm & Hty & ->).
    cbn in Hu, Hm, Hty. injection Hu as <-. injection Hm as <-. injection Hty as <-.
    apply IH in H as (Husers & Hlogs & rows & Hrows & Hall).
    cbn in Husers, Hlogs, Hrows.
    repeat split; [assumption..|].
    eexists (_ :: rows). split.
    + rewrite Hrows, <- app_assoc. reflexivity.
    + constructor; [|exact Hall]. cbn. auto.
Qed.

Lemma fold_left_add_shift (l : list Z) : forall a, fold_left Z.add l a = a + fold_left Z.add l 0.
Proof.
  induction l as [|x l IH]; intros a; cbn [fold_left]; [lia|].
  rewrite (IH (a + x)), (IH (0 + x)). lia.
Qed.

(** The generator expression of [sync_upload] counts the delete actions. *)
Lemma py_sum_count_deletes (actions : list PhotoActionSchema.t) :
  py_sum ((fun _ => 1) <$> filter (fun a => PhotoActionSchema.action_type a = 1) actions)
  = count_deletes actions.
Proof.
  unfold py_sum. induction actions as [|a l IH]; [reflexivity|].
  rewrite filter_cons. cbn [count_deletes].
  destruct (decide (PhotoActionSchema.action_type a = 1)) as [Ha|Ha].
  - rewrite Ha. cbn. rewrite fold_left_add_shift, IH. reflexivity.
  - apply Z.eqb_neq in Ha. rewrite Ha, IH. reflexivity.
Qed.

Lemma staged_inserts body uid : forallb is_insert (unit_of_work (staged body uid)) = true.
Proof.
  rewrite unit_of_work_staged, forallb_app. apply andb_true_iff. split; [|reflexivity].
  induction (pages _); cbn; auto.
Qed.

(** Without an UPDATE among its statements, a failing flush raises a driver
    error, or the driver's refusal of a NUL character. *)
Lemma run_raises_driver env (ss : list Statement) :
  forallb is_insert ss = true ->
  forall k seq t e k' seq' t',
    run env ss k seq t = (Raise e, k', seq', t') ->
    (exists pe, e = DBAPIError pe) \/ e = nul_error.
Proof.
  induction ss as [|s ss IH]; intros Hins k seq t e k' seq' t' H; [discriminate H|].
  cbn in Hins. apply andb_true_iff in Hins as [Hs Hss].
  cbn [run] in H. destruct (has_nul_param s).
  { injection H as <- _ _ _. auto. }
  destruct (lost env k).
  { injection H as <- _ _ _. eauto. }
  destruct (exec env s seq t) as [seq1 [t1|e1]] eqn:Hex.
  - eapply IH; eauto.
  - injection H as <- _ _ _. left.
    destruct s as [u at_|o|os|o]; try discriminate Hs; cbn in Hex.
    + destruct (insert_users env o t); [discriminate Hex|].
      injection Hex as _ <-. eauto.
    + destruct (insert_sync_photo_actions env os seq t) as [? [?|?]];
        [discriminate Hex|]. injection Hex as _ <-. eauto.
    + destruct (insert_sync_session_logs env o t); [discriminate Hex|].
      injection Hex as _ <-. eauto.
Qed.

(** The flush of a staged batch that goes through: the rows of the actions
    pass one by one, the user they refer to is stored, no string holds a NUL
    character, and the session row is inserted after them. *)
Lemma flush_staged_inv env body uid k seq t k' seq' t' :
  flush env (staged body uid) k seq t = (Ok tt, k', seq', t') ->
  exists t1,
    insert_sync_photo_actions_rows env (staged_action uid <$> SyncRequest.actions body) seq t
      = (seq', Ok t1) /\
    forallb (references_user t) (staged_action uid <$> SyncRequest.actions body) = true /\
    existsb action_has_nul (staged_action uid <$> SyncRequest.actions body) = false /\
    has_nul_param (InsertSyncSessionLogs (staged_session body uid)) = false /\
    insert_sync_session_logs env (staged_session body uid) t1 = Ok t'.
Proof.
  unfold flush. rewrite unit_of_work_staged, run_app.
  destruct (run env (InsertSyncPhotoActions <$> _) k seq t)
    as [[[[[]|e] k1] seq1] t1] eqn:Hpages; [|discriminate].
  apply run_pages in Hpages. rewrite pages_concat in Hpages.
  destruct Hpages as (Hrows & Hfk & Hnul).
  cbn [run]. destruct (has_nul_param _) eqn:Hnul'; [discriminate|].
  destruct (lost env k1); [discriminate|].
  cbn [exec].
  destruct (insert_sync_session_logs env _ t1) as [t2|e] eqn:Hins; [|discriminate].
  intros [= <- <- <-]. exists t1. auto.
Qed.

(** When the flush of a staged batch succeeds, its working copy is the
    tables it started from plus the session row plus one row per action. *)
Lemma flush_staged_ok env body uid seq t k seq' t' :
  flush env (staged body uid) O seq t = (Ok tt, k, seq', t') ->
  users t' = users t /\
  (exists row,
     sync_session_logs t' = sync_session_logs t ++ [row] /\
     SyncSessionLogs.session_id row = SyncRequest.session_id body /\
     SyncSessionLogs.uid row = uid /\
     SyncSessionLogs.mode row = SyncRequest.mode body /\
     SyncSessionLogs.deleted_count row = count_deletes (SyncRequest.actions body) /\
     SyncSessionLogs.saved_bytes row = 0 /\
     SyncSessionLogs.created_at row = db_now env /\
     (SyncRequest.session_id body ∉ SyncSessionLogs.session_id <$> sync_session_logs t) /\
     (uid ∈ Users.uid <$> users t)) /\
  (exists rows,
     sync_photo_actions t' = sync_photo_actions t ++ rows /\
     Forall2 (fun a r =>
                SyncPhotoActions.uid r = uid /\
                SyncPhotoActions.photo_md5 r = bpchar 32 (PhotoActionSchema.md5 a) /\
                SyncPhotoActions.action_type r = PhotoActionSchema.action_type a /\
                SyncPhotoActions.action_source r = PhotoActionSchema.action_source a)
             (SyncRequest.actions body) rows).
Proof.
  intros H. apply flush_staged_inv in H as (t1 & Hrows & _ & _ & _ & Hins).
  apply insert_rows_ok in Hrows as (Husers & Hlogs & rows & Hrows & Hall).
  apply insert_sync_session_logs_ok in Hins
    as (sid & u & m & Hsid & Hu & Hm & Hfresh & Hfk & ->).
  cbn in Hsid, Hu, Hm. injection Hsid as <-. injection Hu as <-. injection Hm as <-.
  rewrite Hlogs in Hfresh. rewrite Husers in Hfk. cbn.
  split; [assumption|]. split.
  - eexists. split; [rewrite Hlogs; reflexivity|]. cbn.
    rewrite py_sum_count_deletes. auto 10.
  - exists rows. auto.
Qed.

(** The statements of a login: the UPDATE of the row it touched, or the
    INSERT of the row it created. *)
Lemma flush_dirty_user env (uid : Py.UUID) (at_ : datetime) k seq t :
  flush env [DirtyUsersLastLogin uid at_] k seq t
  = run env [UpdateUsersLastLogin uid at_] k seq t.
Proof. reflexivity. Qed.

Lemma flush_new_user env (o : Users.Obj.t) k seq t :
  flush env [NewUsers o] k seq t = run env [InsertUsers o] k seq t.
Proof. reflexivity. Qed.
(** ** The sync-upload transaction *)

Lemma Forall2_impl_forallb {A B} (P R : A -> B -> Prop) (q : A -> bool) l k :
  Forall2 P l k -> forallb q l = true ->
  (forall x y, P x y -> q x = true -> R x y) -> Forall2 R l k.
Proof.
  intros H. induction H as [|x y l k Hxy _ IH]; intros Hq Himp; [constructor|].
  cbn in Hq. apply andb_true_iff in Hq as [Hx Hl].
  constructor; auto.
Qed.

(** C1. Every run of [sync_upload], on the fresh session a request gets, is
    all or nothing. When it fails, whatever the cause (a constraint violation,
    a lost connection, a session id already used), the committed tables are
    exactly those before the call (no session row and no action row of the
    batch), the session is rolled back, and the caller gets one HTTP 500
    error. When it succeeds, the session row and all the action rows are
    there. No outcome persists a part of the batch. *)
Theorem sync_upload_all_or_nothing (env : Env) (d : Database)
    (body : SyncRequest.t) (uid : Py.UUID) :
  match sync_upload body uid env (SessionLocal d) with
  | (Raise exc, st') =>
      tables (store st') = tables d /\ txn st' = None /\ pending st' = [] /\
      exists detail, exc = HTTPException HTTP_500_INTERNAL_SERVER_ERROR detail []
  | (Ok _, st') =>
      exists row rows,
        sync_session_logs (tables (store st')) = sync_session_logs (tables d) ++ [row] /\
        sync_photo_actions (tables (store st')) = sync_photo_actions (tables d) ++ rows /\
        length rows = length (SyncRequest.actions body)
  end.
Proof.
  rewrite sync_upload_run. cbv zeta.
  destruct (flush env (staged body uid) O (action_id_seq d) (tables d))
    as [[[[[]|e] k] seq] t] eqn:Hflush.
  - destruct (lost env k).
    + cbn. eauto 10.
    + cbn. apply flush_staged_ok in Hflush
        as (_ & (row & Hrow & _) & (rows & Hrows & Hall)).
      exists row, rows. repeat split; try assumption.
      symmetry. eapply Forall2_length, Hall.
  - cbn. eauto 10.
Qed.

(** The three causes the spec names, on the scenario data: the rollback after
    a repeated session id, after the connection drops between the INSERT of
    the action rows and the INSERT of the session row, and after a
    foreign-key violation (a batch without actions uploaded for a user id
    that has no row). *)
Example rollback_on_repeated_session_id :
  let '(r, st') := sync_upload Scenario.batch (uuid4 Scenario.env) Scenario.env
                     (SessionLocal Scenario.db2) in
  r = Raise (HTTPException 500
        (sync_failed_prefix +:+
         Exception_str Scenario.env (DBAPIError (UniqueViolation "sync_session_logs_pkey")))
        [])
  /\ tables (store st') = tables Scenario.db2.
Proof. vm_compute. split; reflexivity. Qed.

Example rollback_on_lost_connection :
  let '(r, st') := sync_upload Scenario.batch (uuid4 Scenario.env) (Scenario.env_lost 1)
                     (SessionLocal Scenario.db1) in
  r = Raise (HTTPException 500
        (sync_failed_prefix +:+ Exception_str Scenario.env (DBAPIError ConnectionLost)) [])
  /\ tables (store st') = tables Scenario.db1.
Proof. vm_compute. split; reflexivity. Qed.

Example rollback_on_unknown_user :
  let uid := uuid4 Scenario.env' in
  let '(r, st') := sync_upload Scenario.batch0 uid Scenario.env
                     (SessionLocal Scenario.db1) in
  r = Raise (HTTPException 500
        (sync_failed_prefix +:+
         Exception_str Scenario.env (DBAPIError (ForeignKeyViolation "sync_session_logs_uid_fkey")))
        [])
  /\ tables (store st') = tables Scenario.db1.
Proof. vm_compute. split; reflexivity. Qed.

(** C2. A successful [sync_upload] of a validated batch of [N] actions
    returns [synced_count = N], leaves the users alone, appends exactly one
    session row (the batch's session id, the authenticated user, the mode) and
    exactly [N] action rows, the i-th carrying the user id and the
    fingerprint, action type and source of the i-th input action. *)
Theorem sync_upload_inserts (env : Env) (d : Database) (body : SyncRequest.t)
    (uid : Py.UUID) (resp : SyncResponse.t) (st' : State) :
  SyncRequest.valid body = true ->
  sync_upload body uid env (SessionLocal d) = (Ok resp, st') ->
  SyncResponse.synced_count resp = Z.of_nat (length (SyncRequest.actions body)) /\
  users (tables (store st')) = users (tables d) /\
  (exists row,
     sync_session_logs (tables (store st')) = sync_session_logs (tables d) ++ [row] /\
     SyncSessionLogs.session_id row = SyncRequest.session_id body /\
     SyncSessionLogs.uid row = uid /\
     SyncSessionLogs.mode row = SyncRequest.mode body) /\
  (exists rows,
     sync_photo_actions (tables (store st')) = sync_photo_actions (tables d) ++ rows /\
     length rows = length (SyncRequest.actions body) /\
     Forall2 (carries uid) (SyncRequest.actions body) rows).
Proof.
  intros Hvalid. rewrite sync_upload_run. cbv zeta.
  destruct (flush env (staged body uid) O (action_id_seq d) (tables d))
    as [[[[[]|e] k] seq] t] eqn:Hflush; [|discriminate].
  destruct (lost env k); [discriminate|].
  intros H. injection H as <- <-. cbn.
  apply flush_staged_ok in Hflush
    as (Husers & (row & Hrow & Hsid & Hu & Hm & _) & (rows & Hrows & Hall)).
  split; [reflexivity|]. split; [assumption|]. split; [eauto 10|].
  exists rows. split; [assumption|].
  split; [symmetry; eapply Forall2_length, Hall|].
  unfold SyncRequest.valid in Hvalid.
  apply andb_true_iff in Hvalid as [_ Hacts].
  eapply Forall2_impl_forallb; [exact Hall|exact Hacts|]. cbn.
  intros a r (Hu' & Hmd5 & Hty & Hsrc) Ha.
  unfold carries. repeat split; try assumption.
  rewrite Hmd5. apply bpchar_exact.
  unfold PhotoActionSchema.valid in Ha.
  apply andb_true_iff in Ha as [Hlen _]. apply Z.eqb_eq. exact Hlen.
Qed.

Lemma sync_upload_inserts_witness :
  SyncRequest.valid Scenario.batch = true /\
  sync_upload Scenario.batch (uuid4 Scenario.env) Scenario.env (SessionLocal Scenario.db1)
    = (Ok Scenario.resp2, Scenario.st2) /\
  SyncResponse.synced_count Scenario.resp2
    = Z.of_nat (length (SyncRequest.actions Scenario.batch)) /\
  exists rows,
    sync_photo_actions (tables (store Scenario.st2))
      = sync_photo_actions (tables Scenario.db1) ++ rows /\
    Forall2 (carries (uuid4 Scenario.env)) (SyncRequest.actions Scenario.batch) rows.
Proof.
  assert (Hv : SyncRequest.valid Scenario.batch = true) by reflexivity.
  assert (Hrun : sync_upload Scenario.batch (uuid4 Scenario.env) Scenario.env
                   (SessionLocal Scenario.db1) = (Ok Scenario.resp2, Scenario.st2))
    by (vm_compute; reflexivity).
  destruct (sync_upload_inserts _ _ _ _ _ _ Hv Hrun)
    as (Hn & _ & _ & (rows & Hrows & _ & Hall)).
  split; [exact Hv|]. split; [exact Hrun|]. split; [exact Hn|].
  exists rows. split; [exact Hrows | exact Hall].
Defined.

(** C3. After a successful upload of a validated batch, the session row
    stored under the batch's session id has as [deleted_count] the number of
    actions of the batch whose type is the delete code [1], be none, some or
    all of them deletes. *)
Theorem deleted_count_counts_deletes (env : Env) (d : Database)
    (body : SyncRequest.t) (uid : Py.UUID) (resp : SyncResponse.t) (st' : State) :
  SyncRequest.valid body = true ->
  sync_upload body uid env (SessionLocal d) = (Ok resp, st') ->
  exists row,
    sync_session_logs (tables (store st')) = sync_session_logs (tables d) ++ [row] /\
    SyncSessionLogs.session_id row = SyncRequest.session_id body /\
    SyncSessionLogs.deleted_count row = count_deletes (SyncRequest.actions body).
Proof.
  intros _. rewrite sync_upload_run. cbv zeta.
  destruct (flush env (staged body uid) O (action_id_seq d) (tables d))
    as [[[[[]|e] k] seq] t] eqn:Hflush; [|discriminate].
  destruct (lost env k); [discriminate|].
  intros H. injection H as <- <-. cbn.
  apply flush_staged_ok in Hflush as (_ & (row & Hrow & Hsid & _ & _ & Hdel & _) & _).
  eauto.
Qed.

Lemma deleted_count_counts_deletes_witness :
  SyncRequest.valid Scenario.batch = true /\
  sync_upload Scenario.batch (uuid4 Scenario.env) Scenario.env (SessionLocal Scenario.db1)
    = (Ok Scenario.resp2, Scenario.st2) /\
  exists row,
    sync_session_logs (tables (store Scenario.st2)) = [row] /\
    SyncSessionLogs.session_id row = "s1" /\
    SyncSessionLogs.deleted_count row = 1.
Proof.
  assert (Hrun : sync_upload Scenario.batch (uuid4 Scenario.env) Scenario.env
                   (SessionLocal Scenario.db1) = (Ok Scenario.resp2, Scenario.st2))
    by (vm_compute; reflexivity).
  assert (Hv : SyncRequest.valid Scenario.batch = true) by reflexivity.
  split; [exact Hv|]. split; [exact Hrun|].
  destruct (deleted_count_counts_deletes _ _ _ _ _ _ Hv Hrun)
    as (row & Hrow & Hsid & Hdel).
  exists row. auto.
Defined.

(** The staged session object has the count whether or not the upload goes
    through. *)
Lemma staged_deleted_count (body : SyncRequest.t) (uid : Py.UUID) :
  exists o rest,
    staged body uid = NewSyncSessionLogs o :: rest /\
    SyncSessionLogs.Obj.deleted_count o = Some (count_deletes (SyncRequest.actions body)).
Proof.
  unfold staged. do 2 eexists. split; [reflexivity|].
  cbn. rewrite py_sum_count_deletes. reflexivity.
Qed.

(** The count for no delete, for deletes only and for a mix. *)
Example count_deletes_mixes :
  let a ty := {| PhotoActionSchema.md5 := Scenario.md5_a;
                 PhotoActionSchema.action_type := ty;
                 PhotoActionSchema.action_source := "ANDROID" |} in
  count_deletes [a 0; a 2; a 0] = 0 /\
  count_deletes [a 1; a 1; a 1] = 3 /\
  count_deletes [a 1; a 0; a 2; a 1] = 2 /\
  count_deletes [] = 0.
Proof. repeat split. Qed.

(** A successful upload leaves its session id among the committed ones. *)
Lemma upload_commits_session_id (env : Env) (d : Database) (body : SyncRequest.t)
    (uid : Py.UUID) (resp : SyncResponse.t) (st' : State) :
  sync_upload body uid env (SessionLocal d) = (Ok resp, st') ->
  SyncRequest.session_id body ∈ session_ids (store st').
Proof.
  rewrite sync_upload_run. cbv zeta.
  destruct (flush env (staged body uid) O (action_id_seq d) (tables d))
    as [[[[[]|e] k] seq] t] eqn:Hflush; [|discriminate].
  destruct (lost env k); [discriminate|].
  intros H. injection H as _ <-. unfold session_ids. cbn.
  apply flush_staged_ok in Hflush as (_ & (row & Hrow & Hsid & _) & _).
  rewrite Hrow, fmap_app. apply elem_of_app. right.
  cbn. rewrite Hsid. apply list_elem_of_here.
Qed.




(** The [try] block on a fresh session, in terms of the flush. *)
Lemma sync_upload_try_run (body : SyncRequest.t) (uid : Py.UUID) (env : Env) (d : Database) :
  fst (sync_upload_try body uid env (SessionLocal d)) =
  match flush env (staged body uid) O (action_id_seq d) (tables d) with
  | (Raise e, _, _, _) => Raise e
  | (Ok _, k, _, _) =>
      if lost env k then Raise (DBAPIError ConnectionLost)
      else Ok {| SyncResponse.status := "ok";
                 SyncResponse.synced_count :=
                   Z.of_nat (length (SyncRequest.actions body)) |}
  end.
Proof.
  unfold sync_upload_try, bind.
  unfold db_add at 1. cbn [SessionLocal store txn pending stmts reads app].
  rewrite db_add_all_run. cbn [store txn pending stmts reads].
  unfold db_commit. cbn [store txn pending stmts reads].
  change (flush env _ O (action_id_seq d) (tables d))
    with (flush env (staged body uid) O (action_id_seq d) (tables d)).
  destruct (flush env (staged body uid) O (action_id_seq d) (tables d))
    as [[[[[]|e] k] seq] t]; cbn.
  - destruct (lost env k); reflexivity.
  - reflexivity.
Qed.

(** C7, as the spec states it, fails: the detail of the 500 error returned
    for a repeated session id is the prefix followed by [str(e)] of the
    error the persistence layer raised for the INSERT, the violation of the
    primary key: the text of that error is in the response in full. *)
Lemma sync_failed_detail_leaks_driver_text :
  let e := DBAPIError (UniqueViolation "sync_session_logs_pkey") in
  let raw := Exception_str Scenario.env e in
  exists detail,
    fst (sync_upload Scenario.batch (uuid4 Scenario.env) Scenario.env
           (SessionLocal Scenario.db2))
      = Raise (HTTPException HTTP_500_INTERNAL_SERVER_ERROR detail []) /\
    fst (sync_upload_try Scenario.batch (uuid4 Scenario.env) Scenario.env
           (SessionLocal Scenario.db2))
      = Raise e /\
    detail = sync_failed_prefix +:+ raw /\
    contains raw detail = true.
Proof.
  eexists. split; [vm_compute; reflexivity|]. repeat split; vm_compute; reflexivity.
Qed.

(** C7, amended. Every failure of [sync_upload] is reported as an HTTP 500
    error without headers whose detail is exactly the fixed prefix followed
    by [str(e)] of the exception [e] that the [try] block raised. That
    exception comes from the persistence layer while a statement is
    executed: it is the ORM's error wrapping the driver's, or the
    [ValueError] with which the driver refuses a string that holds a NUL
    character, and then the detail ends with that message. *)
Theorem sync_failed_detail (env : Env) (d : Database) (body : SyncRequest.t)
    (uid : Py.UUID) (exc : Exception) (st' : State) :
  sync_upload body uid env (SessionLocal d) = (Raise exc, st') ->
  exists e,
    fst (sync_upload_try body uid env (SessionLocal d)) = Raise e /\
    exc = HTTPException HTTP_500_INTERNAL_SERVER_ERROR
            (sync_failed_prefix +:+ Exception_str env e) [] /\
    ((exists pe, e = DBAPIError pe) \/
     (e = nul_error /\
      Exception_str env e = "A string literal cannot contain NUL (0x00) characters.")).
Proof.
  rewrite sync_upload_try_run, sync_upload_run. cbv zeta.
  destruct (flush env (staged body uid) O (action_id_seq d) (tables d))
    as [[[[[]|e] k] seq] t] eqn:Hflush.
  - destruct (lost env k); [|discriminate].
    intros H. injection H as <- _. eauto 10.
  - intros H. injection H as <- _.
    exists e. split; [reflexivity|]. split; [reflexivity|].
    destruct (run_raises_driver env _ (staged_inserts body uid) _ _ _ _ _ _ _ Hflush)
      as [[pe ->] | ->]; [eauto|].
    right. split; reflexivity.
Qed.

Lemma sync_failed_detail_witness :
  let e := DBAPIError ConnectionLost in
  sync_upload Scenario.batch (uuid4 Scenario.env) (Scenario.env_lost 1)
      (SessionLocal Scenario.db1)
    = (Raise (HTTPException 500
                (sync_failed_prefix +:+ Exception_str (Scenario.env_lost 1) e) []),
       snd (sync_upload Scenario.batch (uuid4 Scenario.env) (Scenario.env_lost 1)
              (SessionLocal Scenario.db1))) /\
  exists e,
    fst (sync_upload_try Scenario.batch (uuid4 Scenario.env) (Scenario.env_lost 1)
           (SessionLocal Scenario.db1)) = Raise e /\
    exists pe, e = DBAPIError pe.
Proof.
  assert (Hrun : sync_upload Scenario.batch (uuid4 Scenario.env) (Scenario.env_lost 1)
                   (SessionLocal Scenario.db1)
    = (Raise (HTTPException 500
                (sync_failed_prefix +:+
                 Exception_str (Scenario.env_lost 1) (DBAPIError ConnectionLost)) []),
       snd (sync_upload Scenario.batch (uuid4 Scenario.env) (Scenario.env_lost 1)
              (SessionLocal Scenario.db1)))) by (vm_compute; reflexivity).
  split; [exact Hrun|].
  destruct (sync_failed_detail _ _ _ _ _ _ Hrun) as (e & He & _ & [Hpe | [Hnul _]]).
  - exists e. split; [exact He | exact Hpe].
  - exfalso. rewrite Hnul in He. vm_compute in He. discriminate He.
Defined.

(** A batch with a NUL character in a fingerprint: the driver refuses the
    parameter, and the response carries its message. *)
Example rollback_on_nul_character :
  let nul := String (ascii_of_nat 0) "" in
  let body := {| SyncRequest.session_id := "s9";
                 SyncRequest.mode := 0;
                 SyncRequest.actions :=
                   [ {| PhotoActionSchema.md5 := nul +:+ "0123456789abcdef0123456789abcde";
                        PhotoActionSchema.action_type := 1;
                        PhotoActionSchema.action_source := "ANDROID" |} ] |} in
  let '(r, st') := sync_upload body (uuid4 Scenario.env) Scenario.env
                     (SessionLocal Scenario.db1) in
  SyncRequest.valid body = true /\
  r = Raise (HTTPException 500
        (sync_failed_prefix +:+ "A string literal cannot contain NUL (0x00) characters.") [])
  /\ tables (store st') = tables Scenario.db1.
Proof. vm_compute. repeat split; reflexivity. Qed.
(** ** Tokens *)

Section IssuedToken.
Variables (env : Env) (now : datetime) (sub : string) (expires_delta : option timedelta).

Local Abbreviation expire := (now + lifetime env expires_delta).
Local Abbreviation claims := (issued_claims env now sub expires_delta).
Local Abbreviation payload := (issued_payload env now sub expires_delta).

Lemma issued_payload_exp : payload !! "exp" = Some (JInt (timegm expire)).
Proof.
  unfold issued_payload, issued_claims.
  rewrite map_lookup_imap, lookup_insert_eq. reflexivity.
Qed.

Lemma issued_payload_sub : payload !! "sub" = Some (JStr sub).
Proof.
  unfold issued_payload, issued_claims.
  rewrite map_lookup_imap, lookup_insert_ne by discriminate.
  rewrite lookup_singleton_eq. reflexivity.
Qed.

Lemma issued_payload_other k : k <> "exp" -> k <> "sub" -> payload !! k = None.
Proof.
  intros H1 H2. unfold issued_payload, issued_claims.
  rewrite map_lookup_imap, lookup_insert_ne by congruence.
  rewrite lookup_singleton_ne by congruence. reflexivity.
Qed.

Lemma issued_serialisable : Jose.serialisable claims = true.
Proof.
  unfold Jose.serialisable, issued_claims. apply bool_decide_eq_true.
  apply map_Forall_insert_2; [eexists; reflexivity|].
  apply map_Forall_singleton. eexists. reflexivity.
Qed.

(** The validators only look at the expiry of an issued token. *)
Lemma issued_validate_claims (now_s : Z) :
  Jose.validate_claims payload now_s =
  if timegm expire <? now_s then Raise (JWTError "Signature has expired.") else Ok tt.
Proof.
  unfold Jose.validate_claims.
  rewrite issued_payload_exp, issued_payload_sub.
  rewrite !issued_payload_other by discriminate.
  cbn [Jose.int_claim Jose.is_str obind].
  destruct (timegm expire <? now_s); reflexivity.
Qed.

End IssuedToken.

(** The expiry [create_access_token] computes: the clock reading plus the
    lifetime, when that is a date [datetime] holds. *)
Lemma create_access_token_expire (env : Env) (now : datetime)
    (data : gmap string pyval) (expires_delta : option timedelta) :
  is_datetime now = true ->
  create_access_token env now data expires_delta =
  if is_datetime (now + lifetime env expires_delta) then
    Jose.encode env (<["exp" := PDatetime (now + lifetime env expires_delta)]> data)
      (SECRET_KEY (settings env)) (ALGORITHM (settings env))
  else Raise OverflowError.
Proof.
  intros Hnow. unfold create_access_token, lifetime. cbv zeta.
  destruct (timedelta_truthy expires_delta) as [d|]; cbn [default from_option obind id].
  { unfold datetime_add. destruct (is_datetime (now + d)); reflexivity. }
  unfold timedelta_of_minutes.
  destruct (is_timedelta _) eqn:Hd; cbn [obind].
  { unfold datetime_add. destruct (is_datetime (now + _)); reflexivity. }
  assert (Hout : is_datetime
                   (now + timedelta_minutes (ACCESS_TOKEN_EXPIRE_MINUTES (settings env)))
                 = false).
  { unfold is_datetime, is_timedelta, datetime_min, datetime_max, timedelta_min,
      timedelta_max in *.
    apply andb_true_iff in Hnow as [H1 H2]. apply Z.leb_le in H1, H2.
    apply andb_false_iff in Hd. apply andb_false_iff.
    destruct Hd as [Hd|Hd]; apply Z.leb_gt in Hd; [left|right]; apply Z.leb_gt; lia. }
  rewrite Hout. reflexivity.
Qed.

(** The token [create_access_token] returns for a subject. *)
Lemma create_access_token_run (env : Env) (now : datetime) (sub : string)
    (expires_delta : option timedelta) sign :
  ALGORITHM (settings env) <> "" ->
  signer env (ALGORITHM (settings env)) (SECRET_KEY (settings env)) = Some sign ->
  expiry_in_range env now expires_delta = true ->
  create_access_token env now {[ "sub" := PStr sub ]} expires_delta
  = Ok (issued_token env now sub expires_delta sign).
Proof.
  intros Halg Hsign Hrange. apply andb_true_iff in Hrange as [Hnow Hexp].
  rewrite create_access_token_expire, Hexp by exact Hnow.
  unfold Jose.encode.
  rewrite bool_decide_eq_false_2 by exact Halg.
  rewrite Hsign.
  fold (issued_claims env now sub expires_delta).
  rewrite issued_serialisable. reflexivity.
Qed.

(** Outside that range no token is issued: the addition overflows. *)
Lemma create_access_token_overflow (env : Env) (now : datetime)
    (data : gmap string pyval) (expires_delta : option timedelta) :
  is_datetime now = true ->
  is_datetime (now + lifetime env expires_delta) = false ->
  create_access_token env now data expires_delta = Raise OverflowError.
Proof.
  intros Hnow Hexp. rewrite create_access_token_expire, Hexp by exact Hnow. reflexivity.
Qed.

(** A token that was issued carries the clock reading plus the lifetime. *)
Lemma create_access_token_Ok (env : Env) (now : datetime)
    (data : gmap string pyval) (expires_delta : option timedelta) (tok : Token) :
  create_access_token env now data expires_delta = Ok tok ->
  Jose.encode env (<["exp" := PDatetime (now + lifetime env expires_delta)]> data)
    (SECRET_KEY (settings env)) (ALGORITHM (settings env)) = Ok tok.
Proof.
  unfold create_access_token, lifetime. cbv zeta.
  destruct (timedelta_truthy expires_delta) as [d|]; cbn [default from_option obind id].
  { unfold datetime_add. destruct (is_datetime (now + d)); [auto|discriminate]. }
  unfold timedelta_of_minutes.
  destruct (is_timedelta _); cbn [obind]; [|discriminate].
  unfold datetime_add. destruct (is_datetime (now + _)); [auto|discriminate].
Qed.

Lemma create_access_token_issued (env : Env) (now : datetime) (sub : string)
    (expires_delta : option timedelta) sign (tok : Token) :
  ALGORITHM (settings env) <> "" ->
  signer env (ALGORITHM (settings env)) (SECRET_KEY (settings env)) = Some sign ->
  create_access_token env now {[ "sub" := PStr sub ]} expires_delta = Ok tok ->
  tok = issued_token env now sub expires_delta sign.
Proof.
  intros Halg Hsign Htok. apply create_access_token_Ok in Htok.
  unfold Jose.encode in Htok.
  rewrite bool_decide_eq_false_2 in Htok by exact Halg.
  rewrite Hsign in Htok.
  fold (issued_claims env now sub expires_delta) in Htok.
  rewrite issued_serialisable in Htok. injection Htok as <-. reflexivity.
Qed.

Lemma header_alg (algorithm : string) :
  Jose.header algorithm !! "alg" = Some (JStr algorithm).
Proof.
  unfold Jose.header. rewrite lookup_insert_ne by discriminate.
  apply lookup_singleton_eq.
Qed.

(** Verification of an issued token, at clock reading [t]. *)
Lemma get_current_user_issued (env : Env) (now : datetime) (uid : Py.UUID)
    (expires_delta : option timedelta) (t : datetime)
    (sign : segment -> segment -> string) :
  Py.UUID_wf uid ->
  ALGORITHM (settings env) <> "" ->
  signer env (ALGORITHM (settings env)) (SECRET_KEY (settings env)) = Some sign ->
  get_current_user env t (issued_token env now (Py.UUID_str uid) expires_delta sign)
  = if timegm (now + lifetime env expires_delta) <? timegm t
    then Raise credentials_exception else Ok uid.
Proof.
  intros Hwf Halg Hsign.
  unfold get_current_user, issued_token, Jose.decode. cbv zeta.
  rewrite header_alg.
  rewrite bool_decide_eq_false_2 by exact Halg.
  rewrite bool_decide_eq_false_2 by (intros Hn; apply Hn, list_elem_of_here).
  rewrite Hsign.
  rewrite bool_decide_eq_true_2 by reflexivity.
  rewrite issued_validate_claims.
  destruct (timegm (now + lifetime env expires_delta) <? timegm t); [reflexivity|].
  cbn [obind]. rewrite issued_payload_sub, (UUID_of_str_str uid Hwf). reflexivity.
Qed.

(** C5, as the spec states it, fails at the boundary: a token issued with a
    lifetime of 60 seconds at second 1700000000 embeds the expiry 1700000060,
    and is still accepted at that very second and until the second is over. *)
Lemma token_accepted_at_expiry :
  let uid := uuid4 Scenario.env in
  exists tok,
    create_access_token Scenario.env 1700000000000000
      {[ "sub" := PStr (Py.UUID_str uid) ]} (Some (timedelta_seconds 60)) = Ok tok /\
    token_exp tok = Some 1700000060 /\
    get_current_user Scenario.env 1700000060000000 tok = Ok uid /\
    get_current_user Scenario.env 1700000060999999 tok = Ok uid /\
    get_current_user Scenario.env 1700000061000000 tok = Raise credentials_exception.
Proof.
  eexists. split; [vm_compute; reflexivity|].
  repeat split; vm_compute; reflexivity.
Qed.

(** C5, amended. With a configuration the codec accepts, a token is issued
    for every user id, with the lifetime passed or, when none (or a zero
    one) is passed, the configured number of minutes, provided the clock
    reading plus that lifetime is a date [datetime] holds. It embeds the
    second in which that lifetime ends. Verification returns the user id at
    every clock reading up to the end of that second, and fails with the 401
    credentials error at every reading after it. *)
Theorem issued_token_valid_through_expiry (env : Env) (now : datetime)
    (uid : Py.UUID) (expires_delta : option timedelta) :
  usable env ->
  Py.UUID_wf uid ->
  expiry_in_range env now expires_delta = true ->
  exists tok,
    create_access_token env now {[ "sub" := PStr (Py.UUID_str uid) ]} expires_delta
      = Ok tok /\
    token_exp tok = Some (timegm (now + lifetime env expires_delta)) /\
    forall t : datetime,
      (timegm t <= timegm (now + lifetime env expires_delta) ->
       get_current_user env t tok = Ok uid) /\
      (timegm (now + lifetime env expires_delta) < timegm t ->
       get_current_user env t tok = Raise credentials_exception).
Proof.
  intros [Halg [sign Hsign]] Hwf Hrange.
  eexists. split; [apply create_access_token_run; eassumption|].
  split.
  - unfold token_exp, issued_token. cbn [token_claims mbind option_bind].
    rewrite issued_payload_exp. reflexivity.
  - intros t.
    rewrite (get_current_user_issued env now uid expires_delta t sign Hwf Halg Hsign).
    split; intros Ht.
    + apply Z.ltb_ge in Ht. rewrite Ht. reflexivity.
    + apply Z.ltb_lt in Ht. rewrite Ht. reflexivity.
Qed.

Lemma issued_token_valid_through_expiry_witness :
  usable Scenario.env /\
  Py.UUID_wf (uuid4 Scenario.env) /\
  expiry_in_range Scenario.env 1700000000000000 None = true /\
  exists tok,
    create_access_token Scenario.env 1700000000000000
      {[ "sub" := PStr (Py.UUID_str (uuid4 Scenario.env)) ]} None = Ok tok /\
    token_exp tok = Some (1700000000 + 1440 * 60) /\
    get_current_user Scenario.env 1700086400999999 tok = Ok (uuid4 Scenario.env) /\
    get_current_user Scenario.env 1700086401000000 tok = Raise credentials_exception.
Proof.
  assert (Hus : usable Scenario.env).
  { split; [discriminate|]. eexists. reflexivity. }
  assert (Hwf : Py.UUID_wf (uuid4 Scenario.env)) by reflexivity.
  assert (Hrange : expiry_in_range Scenario.env 1700000000000000 None = true)
    by reflexivity.
  split; [exact Hus|]. split; [exact Hwf|]. split; [exact Hrange|].
  destruct (issued_token_valid_through_expiry Scenario.env 1700000000000000
              (uuid4 Scenario.env) None Hus Hwf Hrange) as (tok & Hrun & Hexp & Hver).
  exists tok. split; [exact Hrun|]. split; [exact Hexp|]. split.
  - apply (Hver 1700086400999999). vm_compute. discriminate.
  - apply (Hver 1700086401000000). vm_compute. reflexivity.
Defined.

(** ** The authentication gate *)

Lemma obind_Ok {E A B} (m : outcome E A) (f : A -> outcome E B) (b : B) :
  obind m f = Ok b -> exists a, m = Ok a /\ f a = Ok b.
Proof. destruct m as [a|e]; [eauto|discriminate]. Qed.





(** A token the codec accepts: a header with an algorithm among those
    allowed, a payload that is a JSON object, the signature the keyed hash
    gives for them, and claims that pass the validators. *)
Lemma decode_Ok (env : Env) (tok : Token) (key : string) (algorithms : list string)
    (now : datetime) (claims : gmap string json) :
  Jose.decode env tok key algorithms now = Ok claims ->
  exists h alg sign,
    tok = JWS (Loaded (JObj h)) (Loaded (JObj claims))
              (Some (sign (Loaded (JObj h)) (Loaded (JObj claims)))) /\
    h !! "alg" = Some (JStr alg) /\ alg <> "" /\ alg ∈ algorithms /\
    signer env alg key = Some sign /\
    Jose.validate_claims claims (timegm now) = Ok tt.
Proof.
  unfold Jose.decode. intros H.
  destruct tok as [raw|[raw|raw|raw|[| | | | | |h]] p sig]; try discriminate H.
  destruct p as [raw|raw|raw|v], sig as [sig|]; try discriminate H;
    (destruct (h !! "alg") as [[| | | |alg| |]|] eqn:Halg;
     [try (destruct (Jose.truthy _); discriminate H)..|discriminate H]);
    (destruct (bool_decide (alg = "")) eqn:Hne; [discriminate H|]);
    (destruct (bool_decide (alg ∉ algorithms)) eqn:Hin; [discriminate H|]);
    (destruct (signer env alg key) as [sign|] eqn:Hsign; [|discriminate H]);
    (destruct (bool_decide (sign _ _ = sig)) eqn:Hsig; [|discriminate H]);
    try discriminate H.
  destruct v as [| | | | | |claims']; try discriminate H.
  apply obind_Ok in H as ([] & Hval & [= ->]).
  apply bool_decide_eq_false in Hne, Hin. apply bool_decide_eq_true in Hsig.
  exists h, alg, sign. rewrite Hsig.
  repeat split; try assumption.
  destruct (decide (alg ∈ algorithms)); [assumption|contradiction].
Qed.







(** The six causes of the spec, one request each: all are refused with 401;
    the first two get the extractor's response, the other four the
    credentials error. *)
Example gate_six_causes :
  let t := 1700000030000000 in
  authenticate Scenario.env t None = Raise not_authenticated_exception /\
  authenticate Scenario.env t
    (Some {| scheme := "Basic"; param := Scenario.issued |})
    = Raise not_authenticated_exception /\
  authenticate Scenario.env t (Scenario.bearer Scenario.tampered)
    = Raise credentials_exception /\
  authenticate Scenario.env 1700000061000000 (Scenario.bearer Scenario.issued)
    = Raise credentials_exception /\
  authenticate Scenario.env t (Scenario.bearer Scenario.no_subject)
    = Raise credentials_exception /\
  authenticate Scenario.env t (Scenario.bearer Scenario.bad_subject)
    = Raise credentials_exception /\
  authenticate Scenario.env t (Scenario.bearer Scenario.issued)
    = Ok (uuid4 Scenario.env).
Proof. repeat split; vm_compute; reflexivity. Qed.

(** The exceptions that get past the handler, one request each: a header
    nested too deeply, whoever sent it, and a token with the server's
    signature whose expiry is [null]. *)
Example gate_uncaught_errors :
  let t := 1700000030000000 in
  authenticate Scenario.env t (Scenario.bearer Scenario.deep_header) = Raise RecursionError /\
  uncaught Scenario.deep_header RecursionError /\
  authenticate Scenario.env t (Scenario.bearer Scenario.null_expiry)
    = Raise (Jose.int_type_error "NoneType") /\
  uncaught Scenario.null_expiry (Jose.int_type_error "NoneType").
Proof.
  repeat split; try (vm_compute; reflexivity).
  - constructor.
  - eapply (uncaught_time _ _ _ "exp" JNull); [set_solver|reflexivity|reflexivity].
Qed.
(** ** Login *)

(** C9. A login whose code is not the expected ["1234"] fails with the HTTP
    400 error before anything else happens: the state after the call is the
    state before it, so no user row is created, whether or not the phone is
    known. *)
Theorem login_wrong_code_rejected (env : Env) (st : State) (body : LoginRequest.t) :
  LoginRequest.code body <> "1234" ->
  login body env st = (Raise invalid_code_exception, st) /\
  invalid_code_exception = HTTPException 400 "验证码错误，请重新输入" [].
Proof.
  intros Hcode. unfold login.
  rewrite bool_decide_eq_true_2 by exact Hcode. split; reflexivity.
Qed.

Lemma login_wrong_code_rejected_witness :
  LoginRequest.code Scenario.bad_login <> "1234" /\
  login Scenario.bad_login Scenario.env (SessionLocal Scenario.empty_db)
    = (Raise (HTTPException 400 "验证码错误，请重新输入" []), SessionLocal Scenario.empty_db) /\
  users (tables (store (snd (login Scenario.bad_login Scenario.env
                               (SessionLocal Scenario.empty_db))))) = [].
Proof.
  assert (Hcode : LoginRequest.code Scenario.bad_login <> "1234") by discriminate.
  split; [exact Hcode|].
  destruct (login_wrong_code_rejected Scenario.env (SessionLocal Scenario.empty_db)
              Scenario.bad_login Hcode) as [Hrun Hexc].
  rewrite Hrun. split; [rewrite Hexc|]; reflexivity.
Defined.

Lemma find_phone_fresh (phone : string) (l : list Users.row) :
  (phone ∉ Users.phone_number <$> l) ->
  List.find (fun r => bool_decide (Users.phone_number r = phone)) l = None.
Proof.
  induction l as [|r l IH]; [reflexivity|]. cbn. intros Hnin.
  apply not_elem_of_cons in Hnin as [Hne Hnin].
  rewrite bool_decide_eq_false_2 by congruence. auto.
Qed.

Lemma find_uid_appended (r : Users.row) (l : list Users.row) (uid : Py.UUID) :
  Users.uid r = uid ->
  (uid ∉ Users.uid <$> l) ->
  List.find (fun r' => bool_decide (Users.uid r' = uid)) (l ++ [r]) = Some r.
Proof.
  intros Hr. induction l as [|r0 l IH]; cbn.
  - intros _. rewrite bool_decide_eq_true_2 by exact Hr. reflexivity.
  - intros Hnin. apply not_elem_of_cons in Hnin as [Hne Hnin].
    rewrite bool_decide_eq_false_2 by congruence. auto.
Qed.

(** C10. Whatever the outcome of a login, a user row it has added to the
    table has the encrypted phone of the request, a fresh UUID,
    [is_pro = false], [current_energy = 50], [total_saved_bytes = 0],
    [total_deleted_count = 0], no nickname, avatar or membership expiry,
    [last_login_at] the clock reading the request took and [created_at] the
    database's time. A login that succeeds for a phone not seen before has
    added such a row, and its response names that user, not pro. *)
Theorem first_login_defaults (env : Env) (d : Database) (body : LoginRequest.t)
    (r : outcome Exception LoginResponse.t) (st' : State) :
  login body env (SessionLocal d) = (r, st') ->
  (forall row,
     users (tables (store st')) = users (tables d) ++ [row] ->
     new_user_defaults env (LoginRequest.phone body) row) /\
  ((encrypt_phone (LoginRequest.phone body) ∉ phones d) ->
   forall resp, r = Ok resp ->
   exists row,
     users (tables (store st')) = users (tables d) ++ [row] /\
     UserResponse.uid (LoginResponse.user resp) = Users.uid row /\
     UserResponse.is_pro (LoginResponse.user resp) = false).
Proof.
  assert (Hlen : forall (l l' : list Users.row) row,
            length l' = length l -> l' = l ++ [row] -> False).
  { intros l l' row Hl ->. rewrite length_app in Hl. cbn in Hl. lia. }
  unfold login.
  destruct (bool_decide (LoginRequest.code body ≠ "1234")).
  { unfold raise. intros [= <- <-]. cbn. split; [|discriminate].
    intros row Hrow. exfalso. eapply Hlen; [|exact Hrow]. reflexivity. }
  cbv zeta. set (phone := encrypt_phone (LoginRequest.phone body)) in *.
  unfold bind at 1. unfold login_lookup, db_query_users_by_phone_first, db_select.
  cbn [SessionLocal txn stmts store pending reads].
  destruct (lost env 0).
  { intros [= <- <-]. cbn. split; [|discriminate].
    intros row Hrow. exfalso. eapply Hlen; [|exact Hrow]. reflexivity. }
  destruct (List.find _ (users (tables d))) as [u|] eqn:Hfind.
  - (* a known phone: the row is touched, none is added *)
    intros Hrun. split.
    + intros row Hrow. exfalso. eapply Hlen; [|exact Hrow].
      revert Hrun. unfold login_resume, bind, datetime_now, db_add, db_commit.
      cbn [txn stmts store pending reads app]. rewrite flush_dirty_user.
      cbn [run exec has_nul_param].
      destruct (lost env 1); [intros [= <- <-]; reflexivity|].
      unfold update_users_last_login.
      destruct (bool_decide (Users.uid u ∈ Users.uid <$> users (tables d)));
        [|intros [= <- <-]; reflexivity].
      destruct (lost env 2); [intros [= <- <-]; reflexivity|].
      unfold db_refresh_users, db_select.
      cbn [txn stmts store pending reads tables users].
      destruct (lost env 3); [intros [= <- <-]; cbn; apply length_fmap|].
      match goal with
      | |- context [List.find ?f (?g <$> ?l)] => destruct (List.find f (g <$> l))
      end; cbv beta iota; [|intros [= <- <-]; cbn; apply length_fmap].
      unfold ask, lift, ret. cbv beta iota. cbn [reads].
      match goal with
      | |- context [create_access_token env ?t ?data None] =>
          destruct (create_access_token env t data None)
      end; intros [= <- <-]; cbn; apply length_fmap.
    + intros Hfresh. rewrite (find_phone_fresh phone _ Hfresh) in Hfind. discriminate.
  - (* a phone not seen before *)
    unfold login_resume, bind, datetime_now, db_add, db_commit, ask.
    cbn [txn stmts store pending reads app]. rewrite flush_new_user.
    cbn [run exec].
    assert (Hsame : forall e st0,
              tables (store st0) = tables d ->
              (forall row, users (tables (store st0)) = users (tables d) ++ [row] ->
                           new_user_defaults env (LoginRequest.phone body) row) /\
              ((phone ∉ phones d) -> forall resp, @Raise Exception LoginResponse.t e = Ok resp ->
               exists row, users (tables (store st0)) = users (tables d) ++ [row] /\
                 UserResponse.uid (LoginResponse.user resp) = Users.uid row /\
                 UserResponse.is_pro (LoginResponse.user resp) = false)).
    { intros e st0 Heq. rewrite Heq. split; [|discriminate].
      intros row Hrow. exfalso. eapply Hlen; [|exact Hrow]. reflexivity. }
    destruct (has_nul_param _); [intros [= <- <-]; apply Hsame; reflexivity|].
    destruct (lost env 1); [intros [= <- <-]; apply Hsame; reflexivity|].
    destruct (insert_users env (Users_init phone (clock env 0)) (tables d))
      as [t1|e] eqn:Hins; [|intros [= <- <-]; apply Hsame; reflexivity].
    destruct (lost env 2); [intros [= <- <-]; apply Hsame; reflexivity|].
    apply insert_users_ok in Hins as (ph & Hph & _ & Huid & ->).
    cbn in Hph, Huid. injection Hph as <-.
    assert (Hnew : forall st0 row0,
              users (tables (store st0)) = users (tables d) ++ [row0] ->
              new_user_defaults env (LoginRequest.phone body) row0 ->
              forall row, users (tables (store st0)) = users (tables d) ++ [row] ->
                          new_user_defaults env (LoginRequest.phone body) row).
    { intros st0 row0 H0 Hd row Hrow. rewrite H0 in Hrow.
      apply app_inj_tail in Hrow as [_ <-]. exact Hd. }
    unfold db_refresh_users, db_select.
    cbn [txn stmts store pending reads tables users Users_init Users.Obj.uid default
         from_option id].
    match goal with
    | |- context [users (tables d) ++ [?r]] => set (row0 := r)
    end.
    assert (Hd0 : new_user_defaults env (LoginRequest.phone body) row0).
    { repeat split. }
    destruct (lost env 3).
    { intros [= <- <-]. split; [eapply Hnew; [reflexivity|exact Hd0]|discriminate]. }
    rewrite (find_uid_appended row0 (users (tables d)) (uuid4 env) eq_refl Huid).
    unfold lift, ret.
    match goal with
    | |- context [create_access_token env ?t ?data None] =>
        destruct (create_access_token env t data None) as [tok|e]
    end; intros [= <- <-].
    + split; [eapply Hnew; [reflexivity|exact Hd0]|].
      intros _ resp [= <-]. exists row0. repeat split.
    + split; [eapply Hnew; [reflexivity|exact Hd0]|discriminate].
Qed.

Lemma first_login_defaults_witness :
  login Scenario.good_login Scenario.env (SessionLocal Scenario.empty_db)
    = login Scenario.good_login Scenario.env (SessionLocal Scenario.empty_db) /\
  (encrypt_phone (LoginRequest.phone Scenario.good_login) ∉ phones Scenario.empty_db) /\
  exists row,
    users (tables Scenario.db1) = [row] /\
    new_user_defaults Scenario.env (LoginRequest.phone Scenario.good_login) row.
Proof.
  assert (Hfresh : encrypt_phone (LoginRequest.phone Scenario.good_login)
                     ∉ phones Scenario.empty_db).
  { vm_compute. apply not_elem_of_nil. }
  split; [reflexivity|]. split; [exact Hfresh|].
  destruct (login Scenario.good_login Scenario.env (SessionLocal Scenario.empty_db))
    as [[resp|e] st'] eqn:Hrun; [|vm_compute in Hrun; discriminate Hrun].
  destruct (first_login_defaults _ _ _ _ _ Hrun) as [Hrows Hnew].
  destruct (Hnew Hfresh resp eq_refl) as (row & Hrow & _).
  exists row. unfold Scenario.db1. rewrite Hrun. cbn [snd].
  split; [exact Hrow|]. apply Hrows. exact Hrow.
Defined.

(** ** Uniqueness of the phone under concurrent logins *)

Lemma exec_unique_phones env s seq t seq' t' :
  exec env s seq t = (seq', Ok t') -> unique_phones t -> unique_phones t'.
Proof.
  unfold unique_phones. intros Hex Hu.
  destruct s as [uid at_|o|os|o]; cbn in Hex.
  - unfold update_users_last_login in Hex.
    destruct (bool_decide (uid ∈ Users.uid <$> users t)); [|discriminate Hex].
    injection Hex as _ <-. cbn.
    rewrite <- list_fmap_compose.
    erewrite list_fmap_ext; [exact Hu|].
    intros i r _. cbn. destruct (bool_decide (Users.uid r = uid)); reflexivity.
  - destruct (insert_users env o t) as [t1|] eqn:Hins; [|discriminate Hex].
    injection Hex as _ <-.
    apply insert_users_ok in Hins as (phone & _ & Hfresh & _ & ->). cbn.
    rewrite fmap_app. apply NoDup_app. split; [exact Hu|]. split.
    + intros x Hx Hx'. cbn in Hx'. apply list_elem_of_singleton in Hx'. congruence.
    + cbn. apply NoDup_singleton.
  - destruct (insert_sync_photo_actions env os seq t) as [seq1 [t1|]] eqn:Hins;
      [|discriminate Hex].
    injection Hex as _ <-.
    apply insert_sync_photo_actions_ok in Hins as [Hrows _].
    apply insert_rows_tables in Hrows as [-> _]. exact Hu.
  - destruct (insert_sync_session_logs env o t) as [t1|] eqn:Hins; [|discriminate Hex].
    injection Hex as _ <-.
    apply insert_sync_session_logs_ok in Hins as (? & ? & ? & _ & _ & _ & _ & _ & ->).
    exact Hu.
Qed.

Lemma flush_unique_phones env (ps : list Pending) : forall k seq t k' seq' t',
  flush env ps k seq t = (Ok tt, k', seq', t') -> unique_phones t -> unique_phones t'.
Proof.
  unfold flush. induction (unit_of_work ps) as [|s ss IH]; intros k seq t k' seq' t' H Hu.
  - injection H as _ _ <-. exact Hu.
  - cbn [run] in H. destruct (has_nul_param s); [discriminate H|].
    destruct (lost env k); [discriminate H|].
    destruct (exec env s seq t) as [seq1 [t1|e]] eqn:Hex; [|discriminate H].
    eapply IH; [exact H|]. eapply exec_unique_phones; eassumption.
Qed.

Section Preservation.
Context (I : Tables -> Prop).

Lemma preserves_ret {A} (a : A) : preserves I (ret a).
Proof. intros env st H. exact H. Qed.

Lemma preserves_raise {A} e : preserves I (@raise A e).
Proof. intros env st H. exact H. Qed.

Lemma preserves_lift {A} (r : outcome Exception A) : preserves I (lift r).
Proof. intros env st H. exact H. Qed.

Lemma preserves_ask : preserves I ask.
Proof. intros env st H. exact H. Qed.

Lemma preserves_datetime_now : preserves I datetime_now.
Proof. intros env st H. exact H. Qed.

Lemma preserves_db_add p : preserves I (db_add p).
Proof. intros env st H. exact H. Qed.

Lemma preserves_db_rollback : preserves I db_rollback.
Proof. intros env st H. exact H. Qed.

Lemma preserves_db_select {A} (f : Tables -> outcome Exception A) :
  preserves I (db_select f).
Proof.
  intros env st H. unfold db_select.
  destruct (txn st); [exact H|]. destruct (lost env (stmts st)); exact H.
Qed.

Lemma preserves_bind {A B} (m : M A) (f : A -> M B) :
  preserves I m -> (forall a, preserves I (f a)) -> preserves I (bind m f).
Proof.
  intros Hm Hf env st H. unfold bind.
  specialize (Hm env st H).
  destruct (m env st) as [[a|e] st1]; cbn in Hm |- *; [|exact Hm].
  apply Hf, Hm.
Qed.

Lemma preserves_try_except {A} (m : M A) (h : Exception -> M A) :
  preserves I m -> (forall e, preserves I (h e)) -> preserves I (try_except m h).
Proof.
  intros Hm Hh env st H. unfold try_except.
  specialize (Hm env st H).
  destruct (m env st) as [[a|e] st1]; cbn in Hm |- *; [exact Hm|].
  apply Hh, Hm.
Qed.

Lemma preserves_db_add_all ps : preserves I (db_add_all ps).
Proof.
  intros env st H. rewrite db_add_all_run. exact H.
Qed.

End Preservation.

Lemma preserves_db_commit : preserves unique_phones db_commit.
Proof.
  intros env st H. unfold db_commit.
  destruct (txn st); [exact H|].
  destruct (flush env (pending st) (stmts st) (action_id_seq (store st))
              (tables (store st))) as [[[[[]|e] k] seq] t] eqn:Hf; [|exact H].
  destruct (lost env k); [exact H|].
  cbn. eapply flush_unique_phones; eassumption.
Qed.

Lemma login_resume_preserves enc user : preserves unique_phones (login_resume enc user).
Proof.
  unfold login_resume.
  repeat first
    [ apply preserves_bind; [|intros ?]
    | apply preserves_ret | apply preserves_lift | apply preserves_ask
    | apply preserves_datetime_now | apply preserves_db_add
    | apply preserves_db_commit | apply preserves_db_select
    | destruct user ].
Qed.

Lemma login_preserves body : preserves unique_phones (login body).
Proof.
  unfold login. destruct (bool_decide _); [apply preserves_raise|].
  apply preserves_bind; [apply preserves_db_select|].
  intros user. apply login_resume_preserves.
Qed.

Lemma sync_upload_preserves body uid : preserves unique_phones (sync_upload body uid).
Proof.
  unfold sync_upload, sync_upload_try.
  apply preserves_try_except.
  - repeat first
      [ apply preserves_bind; [|intros ?]
      | apply preserves_ret | apply preserves_db_add | apply preserves_db_add_all
      | apply preserves_db_commit ].
  - intros e. apply preserves_bind; [apply preserves_db_rollback|].
    intros _. apply preserves_bind; [apply preserves_ask|].
    intros env. apply preserves_raise.
Qed.

(** C8, as the spec states it, fails: when two first logins of one phone
    race, the request that lost the race does not fall back to a lookup of the
    row the other one created. Its INSERT violates the unique constraint on
    the phone, the error leaves [login] uncaught, and the caller gets no
    token. (There is one row for the phone at the end, the winner's.) *)
Lemma racing_login_is_not_retried :
  Scenario.a_looked_up = (Ok None, snd Scenario.a_looked_up) /\
  (exists resp, fst Scenario.b_done = Ok resp /\
     UserResponse.uid (LoginResponse.user resp) = uuid4 Scenario.env') /\
  fst Scenario.a_resumed = Raise (DBAPIError (UniqueViolation "users_phone_number_key")) /\
  Users.uid <$> users (tables (store (snd Scenario.a_resumed))) = [uuid4 Scenario.env'].
Proof.
  split; [vm_compute; reflexivity|]. split.
  - eexists. split; vm_compute; reflexivity.
  - split; vm_compute; reflexivity.
Qed.

(** C8, amended. At most one user row exists for a phone, at every point of
    every interleaving: each step of [login] keeps the phone values of the
    users table distinct, in whatever state of the database it resumes and
    whatever its earlier lookup returned. This rests on the unique constraint
    alone. A login that found no row and resumes after another request has
    committed the phone does not retry as a lookup: it fails and the tables
    stay as the other request left them. When the connection is up, the
    phone value fits its column and holds no NUL character and the UUID
    drawn for the row is not in use, what the caller gets is the violation of
    the unique constraint on the phone, which the INSERT raised and the
    handler let through. *)
Theorem phone_unique_under_racing_logins (env : Env) (st : State) (enc : string)
    (user : option Users.row) :
  unique_phones (tables (store st)) ->
  unique_phones (tables (store (snd (login_resume enc user env st)))) /\
  (user = None -> enc ∈ phones (store st) -> txn st = None -> pending st = [] ->
   tables (store (snd (login_resume enc user env st))) = tables (store st) /\
   (exists e, fst (login_resume enc user env st) = Raise e) /\
   (lost env (stmts st) = false ->
    fits 255 enc = true -> Py.has_nul enc = false ->
    (uuid4 env ∉ Users.uid <$> users (tables (store st))) ->
    fst (login_resume enc user env st)
    = Raise (DBAPIError (UniqueViolation "users_phone_number_key")))).
Proof.
  intros Hu. split; [apply login_resume_preserves, Hu|].
  intros -> Hin Htxn Hpend.
  unfold login_resume, bind, datetime_now, db_add, db_commit.
  cbn [txn stmts store pending reads]. rewrite Htxn, Hpend.
  cbn [app]. rewrite flush_new_user. cbn [run].
  destruct (has_nul_param _) eqn:Hnul.
  { cbn. split; [reflexivity|]. split; [eauto|].
    intros _ _ Hnn _. cbn in Hnul. rewrite Hnn in Hnul. discriminate Hnul. }
  destruct (lost env (stmts st)).
  { cbn. split; [reflexivity|]. split; [eauto|]. discriminate. }
  cbn [exec].
  destruct (insert_users env (Users_init enc (clock env (reads st))) (tables (store st)))
    as [t1|e] eqn:Hins.
  { apply insert_users_ok in Hins as (phone & Hphone & Hfresh & _).
    cbn in Hphone. injection Hphone as <-. contradiction. }
  cbn. split; [reflexivity|]. split; [eauto|].
  intros _ Hfit _ Huid. revert Hins.
  unfold insert_users. cbv zeta.
  cbn [Users_init Users.Obj.phone_number Users.Obj.nickname Users.Obj.uid
       Users.Obj.current_energy Users.Obj.total_saved_bytes
       Users.Obj.total_deleted_count default from_option id fits_opt].
  rewrite Hfit. cbn [check obind required in_integer in_bigint].
  rewrite (bool_decide_eq_true_2 _ Huid).
  rewrite (bool_decide_eq_false_2 _ (fun Hn => Hn Hin)).
  cbn. intros [= <-]. reflexivity.
Qed.

Lemma phone_unique_under_racing_logins_witness :
  let st := resume_on (store (snd Scenario.b_done)) (snd Scenario.a_looked_up) in
  unique_phones (tables (store st)) /\
  (Scenario.enc ∈ phones (store st)) /\
  unique_phones (tables (store (snd Scenario.a_resumed))) /\
  tables (store (snd Scenario.a_resumed)) = tables (store st) /\
  fst Scenario.a_resumed = Raise (DBAPIError (UniqueViolation "users_phone_number_key")).
Proof.
  cbv zeta.
  set (st := resume_on (store (snd Scenario.b_done)) (snd Scenario.a_looked_up)).
  assert (Hu : unique_phones (tables (store st))).
  { vm_compute. apply NoDup_singleton. }
  assert (Hin : Scenario.enc ∈ phones (store st)).
  { vm_compute. apply list_elem_of_here. }
  assert (Hfresh : uuid4 Scenario.env ∉ Users.uid <$> users (tables (store st))).
  { vm_compute. intros H. apply list_elem_of_singleton in H. discriminate H. }
  destruct (phone_unique_under_racing_logins Scenario.env st Scenario.enc None Hu)
    as [Hu' Hrace].
  destruct (Hrace eq_refl Hin eq_refl eq_refl) as (Htables & _ & Hraise).
  split; [exact Hu|]. split; [exact Hin|]. split; [exact Hu'|]. split; [exact Htables|].
  apply Hraise; [reflexivity|reflexivity|reflexivity|exact Hfresh].
Defined.
(** * Further properties of the code *)

(** ** The phone cipher of [app/core/security.py] *)

(* ---- lemmas ---- *)
Lemma forallb_N_below (f : N -> bool) (n : nat) :
  forallb f (N_below n) = true -> forall x, (x < N.of_nat n)%N -> f x = true.
Proof.
  intros H x Hx. rewrite List.forallb_forall in H. apply H.
  unfold N_below. apply in_map_iff. exists (N.to_nat x). split; [lia|].
  apply in_seq. lia.
Qed.

Lemma list_ind3 {A} (P : list A -> Prop) :
  P [] -> (forall a, P [a]) -> (forall a b, P [a; b]) ->
  (forall a b c l, P l -> P (a :: b :: c :: l)) -> forall l, P l.
Proof.
  intros H0 H1 H2 H3 l.
  enough (H : P l /\ (forall a, P (a :: l)) /\ (forall a b, P (a :: b :: l))) by apply H.
  induction l as [|x l (IH0 & IH1 & IH2)]; [auto|].
  split; [apply IH1|]. split; [intros a; apply IH2|].
  intros a b. apply H3, IH0.
Qed.

Lemma table_b64_char (d : N) :
  (d < 64)%N -> Binascii.table_a2b_base64 (Py.b64_char d) = Some d.
Proof.
  intros Hd.
  apply (forallb_N_below
           (fun d => bool_decide (Binascii.table_a2b_base64 (Py.b64_char d) = Some d)) 64)
    in Hd; [|vm_compute; reflexivity].
  apply bool_decide_eq_true in Hd. exact Hd.
Qed.

Lemma b64_char_not_pad (d : N) : (d < 64)%N -> Ascii.eqb (Py.b64_char d) "=" = false.
Proof.
  intros Hd.
  apply (forallb_N_below (fun d => negb (Ascii.eqb (Py.b64_char d) "=")) 64) in Hd;
    [|vm_compute; reflexivity].
  apply negb_true_iff in Hd. exact Hd.
Qed.

Lemma decode_byte1 (a h : N) : (a < 256)%N -> (h < 16)%N ->
  Binascii.uchar (N.lor (N.shiftl (a / 4) 2) (N.shiftr (a mod 4 * 16 + h) 4)) = a.
Proof.
  intros Ha Hh.
  pose (f a := forallb (fun h =>
     (Binascii.uchar (N.lor (N.shiftl (a / 4) 2) (N.shiftr (a mod 4 * 16 + h) 4)) =? a)%N)
     (N_below 16)).
  assert (H : f a = true).
  { apply (forallb_N_below f 256); [vm_compute; reflexivity|exact Ha]. }
  apply N.eqb_eq. exact (forallb_N_below _ 16 H h Hh).
Qed.

Lemma decode_byte2 (x b y : N) : (x < 4)%N -> (b < 256)%N -> (y < 4)%N ->
  Binascii.uchar (N.lor (N.shiftl (N.land (x * 16 + b / 16) 0x0f) 4)
                        (N.shiftr (b mod 16 * 4 + y) 2)) = b.
Proof.
  intros Hx Hb Hy.
  pose (f b := forallb (fun x => forallb (fun y =>
     (Binascii.uchar (N.lor (N.shiftl (N.land (x * 16 + b / 16) 0x0f) 4)
                            (N.shiftr (b mod 16 * 4 + y) 2)) =? b)%N)
     (N_below 4)) (N_below 4)).
  assert (H : f b = true).
  { apply (forallb_N_below f 256); [vm_compute; reflexivity|exact Hb]. }
  apply N.eqb_eq.
  exact (forallb_N_below _ 4 (forallb_N_below _ 4 H x Hx) y Hy).
Qed.

Lemma decode_byte3 (x c : N) : (x < 16)%N -> (c < 256)%N ->
  Binascii.uchar (N.lor (N.shiftl (N.land (x * 4 + c / 64) 0x03) 6) (c mod 64)) = c.
Proof.
  intros Hx Hc.
  pose (f c := forallb (fun x =>
     (Binascii.uchar (N.lor (N.shiftl (N.land (x * 4 + c / 64) 0x03) 6) (c mod 64)) =? c)%N)
     (N_below 16)).
  assert (H : f c = true).
  { apply (forallb_N_below f 256); [vm_compute; reflexivity|exact Hc]. }
  apply N.eqb_eq. exact (forallb_N_below _ 16 H x Hx).
Qed.

Lemma a2b_step (d q l p : N) acc rest : (d < 64)%N ->
  Binascii.a2b_base64_go q l p acc (String (Py.b64_char d) rest) =
  if (q =? 0)%N then Binascii.a2b_base64_go 1 d 0 acc rest
  else if (q =? 1)%N then
    Binascii.a2b_base64_go 2 (N.land d 0x0f) 0
      (acc ++ [Binascii.uchar (N.lor (N.shiftl l 2) (N.shiftr d 4))]) rest
  else if (q =? 2)%N then
    Binascii.a2b_base64_go 3 (N.land d 0x03) 0
      (acc ++ [Binascii.uchar (N.lor (N.shiftl l 4) (N.shiftr d 2))]) rest
  else
    Binascii.a2b_base64_go 0 0 0 (acc ++ [Binascii.uchar (N.lor (N.shiftl l 6) d)]) rest.
Proof.
  intros Hd. cbn [Binascii.a2b_base64_go].
  rewrite (b64_char_not_pad d Hd), (table_b64_char d Hd). reflexivity.
Qed.

Lemma sextets (a b c : N) : (a < 256)%N -> (b < 256)%N -> (c < 256)%N ->
  (a / 4 < 64 /\ a mod 4 * 16 + b / 16 < 64 /\ b mod 16 * 4 + c / 64 < 64 /\ c mod 64 < 64
   /\ a mod 4 < 4 /\ b / 16 < 16 /\ c / 64 < 4 /\ b mod 16 < 16)%N.
Proof.
  intros Ha Hb Hc.
  pose proof (N.Div0.div_lt_upper_bound a 4 64).
  pose proof (N.Div0.div_lt_upper_bound b 16 16).
  pose proof (N.Div0.div_lt_upper_bound c 64 4).
  pose proof (N.mod_upper_bound a 4).
  pose proof (N.mod_upper_bound b 16).
  pose proof (N.mod_upper_bound c 64).
  lia.
Qed.

Lemma a2b_b64encode_go (l : list N) :
  Forall (fun a => a < 256)%N l ->
  forall acc, Binascii.a2b_base64_go 0 0 0 acc (Py.b64encode_go l) = Ok (acc ++ l).
Proof.
  induction l as [|a|a b|a b c l IH] using list_ind3; intros Hl acc.
  - cbn. rewrite app_nil_r. reflexivity.
  - apply Forall_cons in Hl as [Ha _].
    destruct (sextets a 0 0 Ha) as (H1 & H2 & _ & _ & H5 & _); [lia..|].
    change (0 / 16)%N with 0%N in H2.
    cbn [Py.b64encode_go].
    rewrite (a2b_step _ _ _ _ _ _ H1). cbn [N.eqb].
    replace (a mod 4 * 16)%N with (a mod 4 * 16 + 0)%N by lia.
    rewrite (a2b_step _ _ _ _ _ _ H2). cbn [N.eqb Pos.eqb].
    rewrite decode_byte1 by (assumption || lia).
    reflexivity.
  - apply Forall_cons in Hl as [Ha Hl]. apply Forall_cons in Hl as [Hb _].
    destruct (sextets a b 0 Ha Hb) as (H1 & H2 & H3 & _ & H5 & H6 & _ & H8); [lia|].
    change (0 / 64)%N with 0%N in H3.
    cbn [Py.b64encode_go].
    rewrite (a2b_step _ _ _ _ _ _ H1). cbn [N.eqb].
    rewrite (a2b_step _ _ _ _ _ _ H2). cbn [N.eqb Pos.eqb].
    replace (b mod 16 * 4)%N with (b mod 16 * 4 + 0)%N by lia.
    rewrite (a2b_step _ _ _ _ _ _ H3). cbn [N.eqb Pos.eqb].
    rewrite decode_byte1 by assumption.
    rewrite decode_byte2 by (assumption || lia).
    rewrite <- app_assoc. reflexivity.
  - apply Forall_cons in Hl as [Ha Hl]. apply Forall_cons in Hl as [Hb Hl].
    apply Forall_cons in Hl as [Hc Hl].
    destruct (sextets a b c Ha Hb Hc) as (H1 & H2 & H3 & H4 & H5 & H6 & H7 & H8).
    cbn [Py.b64encode_go].
    rewrite (a2b_step _ _ _ _ _ _ H1). cbn [N.eqb].
    rewrite (a2b_step _ _ _ _ _ _ H2). cbn [N.eqb Pos.eqb].
    rewrite (a2b_step _ _ _ _ _ _ H3). cbn [N.eqb Pos.eqb].
    rewrite (a2b_step _ _ _ _ _ _ H4). cbn [N.eqb Pos.eqb].
    rewrite decode_byte1, decode_byte2, decode_byte3 by assumption.
    rewrite (IH Hl). rewrite <- !app_assoc. reflexivity.
Qed.

Lemma N_of_ascii_bytes (b : string) :
  Forall (fun a => a < 256)%N (map N_of_ascii (list_ascii_of_string b)).
Proof.
  induction b as [|c b IH]; cbn; constructor; [apply N_ascii_bounded|exact IH].
Qed.

Lemma bytes_of_string_of_bytes (b : string) :
  string_of_list_ascii (map ascii_of_N (map N_of_ascii (list_ascii_of_string b))) = b.
Proof.
  induction b as [|c b IH]; [reflexivity|].
  cbn. rewrite ascii_N_embedding, IH. reflexivity.
Qed.

(** [b64decode(b64encode(b)) == b] *)
Lemma b64decode_b64encode (b : string) : Binascii.b64decode (Py.b64encode b) = Ok b.
Proof.
  unfold Binascii.b64decode, Binascii.a2b_base64, Py.b64encode.
  rewrite a2b_b64encode_go by apply N_of_ascii_bytes.
  cbn [app]. rewrite bytes_of_string_of_bytes. reflexivity.
Qed.

Lemma encrypt_phone_inj_aux (p q : string) : encrypt_phone p = encrypt_phone q -> p = q.
Proof.
  unfold encrypt_phone, Py.decode_utf8, Py.encode_utf8. intros H.
  pose proof (b64decode_b64encode p) as Hp. rewrite H, b64decode_b64encode in Hp.
  congruence.
Qed.

Lemma decrypt_encrypt_aux (phone : string) :
  decrypt_phone (encrypt_phone phone) = bytes_decode_utf8 phone.
Proof.
  unfold decrypt_phone, encrypt_phone, Py.decode_utf8, Py.encode_utf8.
  rewrite b64decode_b64encode. reflexivity.
Qed.

Lemma is_b64_b64_char (d : N) : (d < 64)%N -> is_b64 (Py.b64_char d) = true.
Proof.
  intros Hd. unfold is_b64. rewrite (table_b64_char d Hd).
  rewrite bool_decide_eq_true_2 by eauto. reflexivity.
Qed.

Lemma b64encode_go_shape (l : list N) :
  Forall (fun a => a < 256)%N l ->
  Z.of_nat (String.length (Py.b64encode_go l)) = 4 * ((Z.of_nat (length l) + 2) / 3) /\
  string_all is_b64 (Py.b64encode_go l) = true.
Proof.
  induction l as [|a|a b|a b c l IH] using list_ind3; intros Hl.
  - split; reflexivity.
  - apply Forall_cons in Hl as [Ha _].
    destruct (sextets a 0 0 Ha) as (H1 & H2 & _); [lia..|].
    change (0 / 16)%N with 0%N in H2. rewrite N.add_0_r in H2.
    split; [reflexivity|].
    cbn [Py.b64encode_go string_all]. rewrite !is_b64_b64_char by assumption. reflexivity.
  - apply Forall_cons in Hl as [Ha Hl]. apply Forall_cons in Hl as [Hb _].
    destruct (sextets a b 0 Ha Hb) as (H1 & H2 & H3 & _); [lia|].
    change (0 / 64)%N with 0%N in H3. rewrite N.add_0_r in H3.
    split; [reflexivity|].
    cbn [Py.b64encode_go string_all]. rewrite !is_b64_b64_char by assumption. reflexivity.
  - apply Forall_cons in Hl as [Ha Hl]. apply Forall_cons in Hl as [Hb Hl].
    apply Forall_cons in Hl as [Hc Hl].
    destruct (sextets a b c Ha Hb Hc) as (H1 & H2 & H3 & H4 & _).
    destruct (IH Hl) as [IHlen IHall].
    split.
    + cbn [Py.b64encode_go String.length length].
      replace (Z.of_nat (S (S (S (length l)))) + 2) with (Z.of_nat (length l) + 2 + 1 * 3) by lia.
      rewrite Z.div_add by lia. lia.
    + cbn [Py.b64encode_go string_all]. rewrite !is_b64_b64_char by assumption. exact IHall.
Qed.

Lemma ascii_cases (p q : ascii -> bool) :
  forallb (fun n => implb (p (ascii_of_N n)) (q (ascii_of_N n))) (N_below 256) = true ->
  forall c, p c = true -> q c = true.
Proof.
  intros H c Hc.
  pose proof (forallb_N_below _ 256 H _ (N_ascii_bounded c)) as Hn. cbn beta in Hn.
  rewrite ascii_N_embedding, Hc in Hn. exact Hn.
Qed.

Lemma length_map_bytes (b : string) :
  length (map N_of_ascii (list_ascii_of_string b)) = String.length b.
Proof. induction b; cbn; congruence. Qed.

(** The shape of an encrypted phone. *)
Lemma encrypt_phone_shape_aux (phone : string) :
  Py.len (encrypt_phone phone) = 4 * ((Z.of_nat (String.length phone) + 2) / 3) /\
  string_all is_b64 (encrypt_phone phone) = true /\
  Py.has_nul (encrypt_phone phone) = false.
Proof.
  unfold encrypt_phone, Py.decode_utf8, Py.encode_utf8, Py.b64encode.
  destruct (b64encode_go_shape _ (N_of_ascii_bytes phone)) as [Hlen Hall].
  rewrite length_map_bytes in Hlen.
  set (e := Py.b64encode_go _) in *.
  split; [|split; [exact Hall|]].
  - rewrite len_no_continuation; [exact Hlen|].
    eapply string_all_impl; [|exact Hall]. intros c Hc.
    revert c Hc. apply ascii_cases. vm_compute. reflexivity.
  - clear Hlen. induction e as [|c e IH]; [reflexivity|].
    cbn [string_all Py.has_nul] in *. apply andb_true_iff in Hall as [Hc He].
    rewrite (IH He), orb_false_r.
    apply negb_true_iff. revert Hc.
    apply (ascii_cases is_b64 (fun c => negb (Ascii.eqb c "000"))).
    vm_compute. reflexivity.
Qed.

Lemma encrypt_phone_fits (phone : string) :
  fits 255 (encrypt_phone phone) = bool_decide (String.length phone <= 189)%nat.
Proof.
  unfold fits. destruct (encrypt_phone_shape_aux phone) as (-> & _).
  destruct (decide (String.length phone <= 189)%nat) as [H|H].
  - rewrite bool_decide_eq_true_2 by exact H. apply Z.leb_le.
    assert ((Z.of_nat (String.length phone) + 2) / 3 < 64); [|lia].
    apply Z.div_lt_upper_bound; lia.
  - rewrite bool_decide_eq_false_2 by exact H. apply Z.leb_gt.
    assert (64 <= (Z.of_nat (String.length phone) + 2) / 3); [|lia].
    apply Z.div_le_lower_bound; lia.
Qed.


(** X1. [decrypt_phone] undoes [encrypt_phone]: for every phone (a [str],
    that is well-formed UTF-8 in this representation) decrypting its
    encrypted value succeeds and gives the phone back. *)
Theorem decrypt_after_encrypt (phone : string) :
  utf8_valid phone = true -> decrypt_phone (encrypt_phone phone) = Ok phone.
Proof.
  intros Hv. rewrite decrypt_encrypt_aux. unfold bytes_decode_utf8. rewrite Hv. reflexivity.
Qed.

Lemma decrypt_after_encrypt_witness :
  utf8_valid "+8613800000000" = true /\
  decrypt_phone (encrypt_phone "+8613800000000") = Ok "+8613800000000".
Proof.
  split; [reflexivity|]. apply (decrypt_after_encrypt "+8613800000000"). reflexivity.
Defined.

(** X2. [encrypt_phone] tells phones apart: two different phones never have
    the same encrypted value. *)
Theorem encrypt_phone_injective (p q : string) :
  p <> q -> encrypt_phone p <> encrypt_phone q.
Proof. intros Hne Heq. apply Hne, encrypt_phone_inj_aux, Heq. Qed.

Lemma encrypt_phone_injective_witness :
  "+8613800000000" <> "+8613900000000" /\
  encrypt_phone "+8613800000000" <> encrypt_phone "+8613900000000".
Proof.
  assert (H : "+8613800000000" <> "+8613900000000") by discriminate.
  split; [exact H|]. exact (encrypt_phone_injective _ _ H).
Defined.

(** X3. The encrypted value of a phone of [n] bytes (in UTF-8) has
    [4 * ceil(n / 3)] characters, each of the Base64 alphabet or the padding
    character, so it holds no NUL; it fits the column [phone_number], a
    [VARCHAR(255)], exactly when [n <= 189]. *)
Theorem encrypt_phone_shape (phone : string) :
  Py.len (encrypt_phone phone) = 4 * ((Z.of_nat (String.length phone) + 2) / 3) /\
  string_all is_b64 (encrypt_phone phone) = true /\
  Py.has_nul (encrypt_phone phone) = false /\
  fits 255 (encrypt_phone phone) = bool_decide (String.length phone <= 189)%nat.
Proof.
  destruct (encrypt_phone_shape_aux phone) as (H1 & H2 & H3).
  repeat split; try assumption. apply encrypt_phone_fits.
Qed.


(** ** Issuing and verifying tokens, continued *)

Lemma usable_scenario : usable Scenario.env.
Proof. split; [discriminate|]. eexists. reflexivity. Qed.

Lemma serialisable_exp (data : gmap string pyval) (t : datetime) :
  Jose.serialisable (<["exp" := PDatetime t]> data) = Jose.serialisable data.
Proof.
  unfold Jose.serialisable. apply bool_decide_ext. split.
  - intros H k v Hk. destruct (decide (k = "exp")) as [->|Hne].
    + destruct v; cbn; eauto.
    + apply (H k v). rewrite lookup_insert_ne by congruence. exact Hk.
  - intros H. apply map_Forall_insert_2; [eexists; reflexivity|exact H].
Qed.

(** X5. With a configuration the codec accepts and a clock reading that is
    a date, [create_access_token] does one of three things. When the clock
    reading plus the lifetime is a date [datetime] holds and [data] is JSON
    serialisable, it returns a token signed under the configured algorithm
    and key: its [exp] is the second in which the lifetime ends, whatever
    [exp] the data brought, and every other claim is the entry of [data] as
    the codec serialises it. When [data] is not serialisable (a [datetime]
    under a key other than [exp], [iat] and [nbf]) it raises the codec's
    [TypeError]. When the expiry is no date, it raises [OverflowError]. *)
Theorem create_access_token_claims (env : Env) (now : datetime)
    (data : gmap string pyval) (expires_delta : option timedelta) :
  usable env ->
  is_datetime now = true ->
  (is_datetime (now + lifetime env expires_delta) = true ->
   (Jose.serialisable data = true ->
    exists sign payload,
      signer env (ALGORITHM (settings env)) (SECRET_KEY (settings env)) = Some sign /\
      create_access_token env now data expires_delta
        = Ok (JWS (Loaded (JObj (Jose.header (ALGORITHM (settings env)))))
                  (Loaded (JObj payload))
                  (Some (sign (Loaded (JObj (Jose.header (ALGORITHM (settings env)))))
                              (Loaded (JObj payload))))) /\
      payload !! "exp" = Some (JInt (timegm (now + lifetime env expires_delta))) /\
      forall k, k <> "exp" -> payload !! k = data !! k ≫= Jose.to_json k) /\
   (Jose.serialisable data = false ->
    create_access_token env now data expires_delta
      = Raise (TypeError "Object of type datetime is not JSON serializable"))) /\
  (is_datetime (now + lifetime env expires_delta) = false ->
   create_access_token env now data expires_delta = Raise OverflowError).
Proof.
  intros [Halg [sign Hsign]] Hnow.
  rewrite create_access_token_expire by exact Hnow.
  split; intros Hexp; rewrite Hexp; [|reflexivity].
  unfold Jose.encode.
  rewrite bool_decide_eq_false_2 by exact Halg.
  rewrite Hsign, serialisable_exp.
  split; intros Hser; rewrite Hser; [|reflexivity].
  exists sign. eexists. split; [reflexivity|]. split; [reflexivity|]. split.
  - rewrite map_lookup_imap, lookup_insert_eq. reflexivity.
  - intros k Hk. rewrite map_lookup_imap, lookup_insert_ne by congruence. reflexivity.
Qed.

Lemma create_access_token_claims_witness :
  usable Scenario.env /\
  is_datetime 1700000000000000 = true /\
  is_datetime (1700000000000000 + lifetime Scenario.env None) = true /\
  Jose.serialisable Scenario.data_with_exp = true /\
  exists tok,
    create_access_token Scenario.env 1700000000000000 Scenario.data_with_exp None = Ok tok /\
    token_exp tok = Some (1700000000 + 1440 * 60).
Proof.
  assert (Hser : Jose.serialisable Scenario.data_with_exp = true)
    by (vm_compute; reflexivity).
  assert (Hnow : is_datetime 1700000000000000 = true) by reflexivity.
  assert (Hexp : is_datetime (1700000000000000 + lifetime Scenario.env None) = true)
    by reflexivity.
  split; [exact usable_scenario|]. split; [exact Hnow|]. split; [exact Hexp|].
  split; [exact Hser|].
  destruct (create_access_token_claims Scenario.env 1700000000000000
              Scenario.data_with_exp None usable_scenario Hnow) as [Hok _].
  destruct (Hok Hexp) as [Hok' _].
  destruct (Hok' Hser) as (sign & payload & _ & Hrun & Hexp' & _).
  eexists. split; [exact Hrun|].
  unfold token_exp. cbn [token_claims mbind option_bind]. rewrite Hexp'. reflexivity.
Defined.

(** A lifetime beyond the last date [datetime] holds: no token. *)
Example create_access_token_overflows :
  let d := 253402300800000000 - 1700000000000000 in
  is_timedelta d = true /\
  create_access_token Scenario.env 1700000000000000
    {[ "sub" := PStr (Py.UUID_str (uuid4 Scenario.env)) ]} (Some d) = Raise OverflowError.
Proof. split; vm_compute; reflexivity. Qed.

Lemma timegm_mono (a b : datetime) : a <= b -> timegm a <= timegm b.
Proof. intros H. unfold timegm. apply Z.div_le_mono; lia. Qed.

Lemma timegm_second_back (now d : datetime) : d <= -1000000 -> timegm (now + d) < timegm now.
Proof.
  intros Hd. unfold timegm.
  assert ((now + d) / 1000000 <= (now + -1 * 1000000) / 1000000)
    by (apply Z.div_le_mono; lia).
  rewrite Z.div_add in H by lia. lia.
Qed.

(** X6. The edge values of [expires_delta], for a clock reading that is a
    date. A zero lifetime is falsy: the call is the call without a lifetime,
    and, when the configured number of minutes after the clock reading is
    a date [datetime] holds, the token is accepted until those minutes are
    over. A negative lifetime of a second or more that leads to a date gives
    a token that is expired from the start: [get_current_user] raises the
    credentials error at the issuing time and at every later time. *)
Theorem expires_delta_zero_or_negative (env : Env) (now : datetime) (uid : Py.UUID) :
  usable env ->
  Py.UUID_wf uid ->
  is_datetime now = true ->
  let data : gmap string pyval := {[ "sub" := PStr (Py.UUID_str uid) ]} in
  create_access_token env now data (Some 0) = create_access_token env now data None /\
  (is_datetime (now + timedelta_minutes (ACCESS_TOKEN_EXPIRE_MINUTES (settings env))) = true ->
   exists tok,
     create_access_token env now data (Some 0) = Ok tok /\
     forall t, timegm t <= timegm (now + timedelta_minutes
                                           (ACCESS_TOKEN_EXPIRE_MINUTES (settings env))) ->
               get_current_user env t tok = Ok uid) /\
  (forall d, d <= -1000000 -> is_datetime (now + d) = true ->
     exists tok,
       create_access_token env now data (Some d) = Ok tok /\
       forall t, now <= t -> get_current_user env t tok = Raise credentials_exception).
Proof.
  intros [Halg [sign Hsign]] Hwf Hnow data. subst data.
  split; [reflexivity|]. split.
  - intros Hexp.
    assert (Hrange : expiry_in_range env now (Some 0) = true).
    { unfold expiry_in_range. rewrite Hnow. exact Hexp. }
    eexists. split; [apply create_access_token_run; eassumption|].
    intros t Ht.
    rewrite (get_current_user_issued env now uid (Some 0) t sign Hwf Halg Hsign).
    change (lifetime env (Some 0))
      with (timedelta_minutes (ACCESS_TOKEN_EXPIRE_MINUTES (settings env))).
    apply Z.ltb_ge in Ht. rewrite Ht. reflexivity.
  - intros d Hd Hexp.
    assert (Hl : lifetime env (Some d) = d).
    { unfold lifetime, timedelta_truthy.
      destruct (d =? 0) eqn:E; [apply Z.eqb_eq in E; lia|reflexivity]. }
    assert (Hrange : expiry_in_range env now (Some d) = true).
    { unfold expiry_in_range. rewrite Hnow, Hl. exact Hexp. }
    eexists. split; [apply create_access_token_run; eassumption|].
    intros t Ht.
    rewrite (get_current_user_issued env now uid (Some d) t sign Hwf Halg Hsign).
    rewrite Hl.
    assert (Hlt : timegm (now + d) < timegm t).
    { pose proof (timegm_second_back now d Hd). pose proof (timegm_mono now t Ht). lia. }
    apply Z.ltb_lt in Hlt. rewrite Hlt. reflexivity.
Qed.

Lemma expires_delta_zero_or_negative_witness :
  usable Scenario.env /\
  Py.UUID_wf (uuid4 Scenario.env) /\
  is_datetime 1700000000000000 = true /\
  exists tok,
    create_access_token Scenario.env 1700000000000000
      {[ "sub" := PStr (Py.UUID_str (uuid4 Scenario.env)) ]} (Some (timedelta_seconds (-60)))
      = Ok tok /\
    get_current_user Scenario.env 1700000000000000 tok = Raise credentials_exception.
Proof.
  assert (Hwf : Py.UUID_wf (uuid4 Scenario.env)) by reflexivity.
  assert (Hnow : is_datetime 1700000000000000 = true) by reflexivity.
  split; [exact usable_scenario|]. split; [exact Hwf|]. split; [exact Hnow|].
  destruct (expires_delta_zero_or_negative Scenario.env 1700000000000000
              (uuid4 Scenario.env) usable_scenario Hwf Hnow) as (_ & _ & Hneg).
  destruct (Hneg (timedelta_seconds (-60))) as (tok & Hrun & Hrej);
    [vm_compute; discriminate|reflexivity|].
  exists tok. split; [exact Hrun|]. apply Hrej. lia.
Defined.

(** What [int()] makes of a claim does not depend on the validator. *)
Lemma int_claim_Ok (msg : string) (v : json) (n : Z) :
  Jose.int_claim msg v = Ok n -> claim_int v = Some n.
Proof.
  unfold claim_int.
  destruct v as [|b|z|[s|s| |s m x]|s|l|m]; cbn; try discriminate;
    try (intros [= <-]; reflexivity).
  destruct (Py.int_of_str 10 s); [|discriminate]. intros [= <-]. reflexivity.
Qed.

(** Claims that pass the validators: [int()] makes an integer of each of
    the three times that is there, the expiry is not before the clock
    reading and the start not after it; there is no audience and no hash of
    an access token. *)
Lemma validated_times (claims : gmap string json) (now_s : Z) :
  Jose.validate_claims claims now_s = Ok tt ->
  (forall v, claims !! "iat" = Some v -> exists iat, claim_int v = Some iat) /\
  (forall v, claims !! "nbf" = Some v -> exists nbf, claim_int v = Some nbf /\ nbf <= now_s) /\
  (forall v, claims !! "exp" = Some v -> exists exp, claim_int v = Some exp /\ now_s <= exp) /\
  claims !! "aud" = None /\
  claims !! "at_hash" = None.
Proof.
  unfold Jose.validate_claims. intros H.
  apply obind_Ok in H as (? & Hiat & H).
  apply obind_Ok in H as (? & Hnbf & H).
  apply obind_Ok in H as (? & Hexp & H).
  apply obind_Ok in H as (? & Haud & H).
  do 2 (apply obind_Ok in H as (? & _ & H)).
  repeat split.
  - intros v Hv. rewrite Hv in Hiat.
    apply obind_Ok in Hiat as (iat & Hint & _). apply int_claim_Ok in Hint. eauto.
  - intros v Hv. rewrite Hv in Hnbf.
    apply obind_Ok in Hnbf as (nbf & Hint & Hcmp). apply int_claim_Ok in Hint.
    destruct (now_s <? nbf) eqn:E; [discriminate Hcmp|]. apply Z.ltb_ge in E. eauto.
  - intros v Hv. rewrite Hv in Hexp.
    apply obind_Ok in Hexp as (exp & Hint & Hcmp). apply int_claim_Ok in Hint.
    destruct (exp <? now_s) eqn:E; [discriminate Hcmp|]. apply Z.ltb_ge in E. eauto.
  - destruct (claims !! "aud") as [v|]; [|reflexivity].
    destruct (match v with JStr _ => true | JList l => forallb Jose.is_str l | _ => false end);
      discriminate Haud.
  - destruct (claims !! "at_hash"); [discriminate H|reflexivity].
Qed.

Lemma UUID_of_str_wf (s : string) (u : Py.UUID) : Py.UUID_of_str s = Some u -> Py.UUID_wf u.
Proof.
  unfold Py.UUID_of_str. cbv zeta.
  destruct (Py.len _ =? 32); [|discriminate].
  destruct (Py.int_of_str 16 _) as [n|]; [|discriminate].
  destruct ((0 <=? n) && (n <? 2 ^ 128)) eqn:E; [|discriminate].
  intros [= <-]. apply andb_true_iff in E as [E1 E2].
  apply Z.leb_le in E1. apply Z.ltb_lt in E2.
  unfold Py.UUID_wf. change (2 ^ 128)%N with (Z.to_N (2 ^ 128)).
  apply Z2N.inj_lt; lia.
Qed.

(** X7. [get_current_user] returns a user id only for a credential of three
    segments whose header and payload are JSON objects, the header naming
    the configured algorithm, never the empty one, with the signature the
    configured key gives them. The payload's [sub] is a string that [UUID]
    reads as that id, a UUID value below [2^128]. Each of [iat], [nbf] and
    [exp] that the payload holds is a value [int()] makes an integer of (an
    integer, a boolean, a finite float, a decimal literal); [exp] is not
    before the second of the clock reading and [nbf] not after it. The
    payload has no [aud] and no [at_hash]. *)
Theorem get_current_user_sound (env : Env) (now : datetime) (tok : Token) (uid : Py.UUID) :
  get_current_user env now tok = Ok uid ->
  exists h claims sign s,
    tok = JWS (Loaded (JObj h)) (Loaded (JObj claims))
              (Some (sign (Loaded (JObj h)) (Loaded (JObj claims)))) /\
    h !! "alg" = Some (JStr (ALGORITHM (settings env))) /\
    ALGORITHM (settings env) <> "" /\
    signer env (ALGORITHM (settings env)) (SECRET_KEY (settings env)) = Some sign /\
    claims !! "sub" = Some (JStr s) /\
    Py.UUID_of_str s = Some uid /\
    Py.UUID_wf uid /\
    (forall v, claims !! "iat" = Some v -> exists iat, claim_int v = Some iat) /\
    (forall v, claims !! "nbf" = Some v ->
               exists nbf, claim_int v = Some nbf /\ nbf <= timegm now) /\
    (forall v, claims !! "exp" = Some v ->
               exists exp, claim_int v = Some exp /\ timegm now <= exp) /\
    claims !! "aud" = None /\
    claims !! "at_hash" = None.
Proof.
  unfold get_current_user.
  destruct (Jose.decode env tok (SECRET_KEY (settings env))
              [ALGORITHM (settings env)] now) as [claims|e] eqn:Hdec.
  - apply decode_Ok in Hdec as (h & alg & sign & -> & Halg & Hne & Hin & Hsign & Hval).
    apply list_elem_of_singleton in Hin. subst alg.
    destruct (claims !! "sub") as [[| | | |s| |]|] eqn:Hsub; try discriminate.
    destruct (Py.UUID_of_str s) as [u|] eqn:Hu; [|discriminate].
    intros [= <-].
    destruct (validated_times _ _ Hval) as (Hiat & Hnbf & Hexp & Haud & Hat).
    exists h, claims, sign, s. repeat split; try assumption.
    eapply UUID_of_str_wf, Hu.
  - destruct e; discriminate.
Qed.

Lemma get_current_user_sound_witness :
  get_current_user Scenario.env 1700000030000000 Scenario.issued = Ok (uuid4 Scenario.env) /\
  exists claims s,
    token_claims Scenario.issued = Some claims /\
    claims !! "sub" = Some (JStr s) /\
    Py.UUID_of_str s = Some (uuid4 Scenario.env).
Proof.
  assert (Hrun : get_current_user Scenario.env 1700000030000000 Scenario.issued
                 = Ok (uuid4 Scenario.env)) by (vm_compute; reflexivity).
  split; [exact Hrun|].
  destruct (get_current_user_sound _ _ _ _ Hrun)
    as (h & claims & sign & s & Htok & _ & _ & _ & Hsub & Hu & _).
  exists claims, s. rewrite Htok. split; [reflexivity|]. split; [exact Hsub|exact Hu].
Defined.

(** Credentials the gate accepts although no [login] writes them so: a
    subject in upper case with the prefix [urn:uuid:] and braces, and an
    expiry that is a decimal literal with a blank and underscores. *)
Example get_current_user_lenient :
  let h := Loaded (JObj (Jose.header "HS256")) in
  let p := Loaded (JObj {[ "sub" := JStr "urn:uuid:{123E4567-E89B-12D3-A456-426614174000}";
                           "exp" := JStr " 1_700_000_060" ]}) in
  let tok := JWS h p (Some (Scenario.toy_sign "HS256" (SECRET_KEY default_settings) h p)) in
  get_current_user Scenario.env 1700000030000000 tok = Ok (uuid4 Scenario.env) /\
  get_current_user Scenario.env 1700000061000000 tok = Raise credentials_exception.
Proof. split; vm_compute; reflexivity. Qed.

(** X8. [UUID(str(u)) == u] for every UUID value [u]: the subject that
    [login] writes into a token is read back by [get_current_user] as the
    same id. Whatever string [UUID] accepts, the result is a UUID value, and
    its canonical text is accepted again with the same result; the canonical
    text has 36 characters. *)
Theorem UUID_str_round_trip (u : Py.UUID) :
  (Py.UUID_wf u -> Py.UUID_of_str (Py.UUID_str u) = Some u) /\
  (forall s, Py.UUID_of_str s = Some u ->
     Py.UUID_wf u /\ Py.UUID_of_str (Py.UUID_str u) = Some u) /\
  String.length (Py.UUID_str u) = 36%nat.
Proof.
  split; [apply UUID_of_str_str|]. split.
  - intros s Hs. pose proof (UUID_of_str_wf s u Hs) as Hwf.
    split; [exact Hwf|apply UUID_of_str_str, Hwf].
  - unfold Py.UUID_str. cbv zeta.
    pose proof (length_hex_of 32 u) as Hlen.
    set (hex := Py.hex_of 32 u) in *.
    do 32 (destruct hex as [|? hex]; [discriminate Hlen|]).
    destruct hex; [reflexivity|discriminate Hlen].
Qed.

Lemma UUID_str_round_trip_witness :
  Py.UUID_wf (uuid4 Scenario.env) /\
  Py.UUID_of_str (Py.UUID_str (uuid4 Scenario.env)) = Some (uuid4 Scenario.env) /\
  Py.UUID_of_str "{123E4567-E89B-12D3-A456-426614174000}" = Some (uuid4 Scenario.env) /\
  Py.UUID_str (uuid4 Scenario.env) = "123e4567-e89b-12d3-a456-426614174000".
Proof.
  assert (Hwf : Py.UUID_wf (uuid4 Scenario.env)) by reflexivity.
  assert (Hp : Py.UUID_of_str "{123E4567-E89B-12D3-A456-426614174000}"
               = Some (uuid4 Scenario.env)) by (vm_compute; reflexivity).
  destruct (UUID_str_round_trip (uuid4 Scenario.env)) as (Hrt & Hcanon & _).
  split; [exact Hwf|]. split; [exact (Hrt Hwf)|]. split; [exact Hp|].
  reflexivity.
Defined.

(** Strings [UUID] accepts besides the canonical text, because [int] reads
    the 32 characters that are left as a base-16 literal: with the prefix
    [0x], between blanks, with a sign and an underscore. A minus sign is
    removed with the hyphens. *)
Example UUID_of_str_lenient :
  Py.UUID_of_str "0x123e4567e89b12d3a4564266141740"
    = Some 0x123e4567e89b12d3a4564266141740%N /\
  Py.UUID_of_str " 123e4567e89b12d3a4564266141740 "
    = Some 0x123e4567e89b12d3a4564266141740%N /\
  Py.UUID_of_str "+123e4567e89b12d_3a4564266141740"
    = Some 0x123e4567e89b12d3a4564266141740%N /\
  Py.UUID_of_str "0X_123e4567e89b12d3a456426614174"
    = Some 0x123e4567e89b12d3a456426614174%N /\
  Py.UUID_of_str "-0000000000000000000000000000000" = None /\
  Py.UUID_of_str "123e4567__e89b12d3a4564266141740" = None.
Proof. repeat split; vm_compute; reflexivity. Qed.
(** ** Requests, sessions and the constraints of the schema *)

Lemma database_eta (d : Database) :
  {| tables := tables d; action_id_seq := action_id_seq d |} = d.
Proof. destruct d; reflexivity. Qed.

Lemma get_db_run {A} (route : M A) env d :
  get_db route env d = (fst (route env (SessionLocal d)), store (snd (route env (SessionLocal d)))).
Proof. unfold get_db. destruct (route env (SessionLocal d)); reflexivity. Qed.

Lemma code_checked (body : LoginRequest.t) :
  bool_decide (LoginRequest.code body ≠ "1234") = false -> LoginRequest.code body = "1234".
Proof.
  intros H. apply bool_decide_eq_false in H.
  destruct (decide (LoginRequest.code body = "1234")); [assumption|contradiction].
Qed.

Lemma login_ok_inv (body : LoginRequest.t) (env : Env) (d : Database)
    (resp : LoginResponse.t) (st' : State) :
  login body env (SessionLocal d) = (Ok resp, st') ->
  LoginRequest.code body = "1234" /\
  exists t1 uid row,
    store st' = {| tables := t1; action_id_seq := action_id_seq d |} /\
    match List.find (fun r => bool_decide
                       (Users.phone_number r = encrypt_phone (LoginRequest.phone body)))
                    (users (tables d)) with
    | None =>
        insert_users env (Users_init (encrypt_phone (LoginRequest.phone body)) (clock env 0))
                     (tables d) = Ok t1 /\ uid = uuid4 env
    | Some u =>
        update_users_last_login (Users.uid u) (clock env 0) (tables d) = Some t1 /\
        uid = Users.uid u
    end /\
    List.find (fun r => bool_decide (Users.uid r = uid)) (users t1) = Some row /\
    create_access_token env (clock env 1)
      {[ "sub" := PStr (Py.UUID_str (Users.uid row)) ]} None
      = Ok (LoginResponse.token resp) /\
    LoginResponse.user resp
      = {| UserResponse.uid := Users.uid row; UserResponse.is_pro := Users.is_pro row |}.
Proof.
  unfold login.
  destruct (bool_decide (LoginRequest.code body ≠ "1234")) eqn:Hcode; [discriminate|].
  apply code_checked in Hcode. intros Hrun. split; [exact Hcode|].
  revert Hrun. cbv zeta. set (phone := encrypt_phone (LoginRequest.phone body)).
  unfold bind at 1. unfold login_lookup, db_query_users_by_phone_first, db_select.
  cbn [SessionLocal txn stmts store pending reads].
  destruct (lost env 0); [discriminate|].
  destruct (List.find _ (users (tables d))) as [u|] eqn:Hfind.
  - unfold login_resume, bind, datetime_now, db_add, db_commit.
    cbn [txn stmts store pending reads app]. rewrite flush_dirty_user.
    cbn [run exec has_nul_param].
    destruct (lost env 1); [discriminate|].
    destruct (update_users_last_login (Users.uid u) (clock env 0) (tables d))
      as [t1|] eqn:Hupd; [|discriminate].
    destruct (lost env 2); [discriminate|].
    unfold db_refresh_users, db_select.
    cbn [txn stmts store pending reads tables users].
    destruct (lost env 3); [discriminate|].
    destruct (List.find _ (users t1)) as [row|] eqn:Hrow; [|discriminate].
    unfold ask, lift, ret. cbv beta iota. cbn [reads].
    match goal with
    | |- context [create_access_token env ?t ?data None] =>
        destruct (create_access_token env t data None) as [tok|e] eqn:Htok
    end; [|discriminate].
    intros [= <- <-]. exists t1, (Users.uid u), row. cbn. auto.
  - unfold login_resume, bind, datetime_now, db_add, db_commit, ask.
    cbn [txn stmts store pending reads app]. rewrite flush_new_user.
    cbn [run exec].
    destruct (has_nul_param _); [discriminate|].
    destruct (lost env 1); [discriminate|].
    destruct (insert_users env (Users_init phone (clock env 0)) (tables d))
      as [t1|e] eqn:Hins; [|discriminate].
    destruct (lost env 2); [discriminate|].
    unfold db_refresh_users, db_select.
    cbn [txn stmts store pending reads tables users Users_init Users.Obj.uid default
         from_option id].
    destruct (lost env 3); [discriminate|].
    destruct (List.find _ (users t1)) as [row|] eqn:Hrow; [|discriminate].
    unfold lift, ret. cbv beta iota. cbn [reads].
    match goal with
    | |- context [create_access_token env ?t ?data None] =>
        destruct (create_access_token env t data None) as [tok|e] eqn:Htok
    end; [|discriminate].
    intros [= <- <-]. exists t1, (uuid4 env), row. cbn. auto.
Qed.

(** What [login] leaves committed, whatever its outcome: the database it
    found, or that database after the one statement it flushed. *)
Lemma login_store (body : LoginRequest.t) (env : Env) (d : Database)
    (r : outcome Exception LoginResponse.t) (st' : State) :
  login body env (SessionLocal d) = (r, st') ->
  store st' = d \/
  exists t1,
    store st' = {| tables := t1; action_id_seq := action_id_seq d |} /\
    match List.find (fun r => bool_decide
                       (Users.phone_number r = encrypt_phone (LoginRequest.phone body)))
                    (users (tables d)) with
    | None =>
        insert_users env (Users_init (encrypt_phone (LoginRequest.phone body)) (clock env 0))
                     (tables d) = Ok t1
    | Some u => update_users_last_login (Users.uid u) (clock env 0) (tables d) = Some t1
    end.
Proof.
  unfold login.
  destruct (bool_decide (LoginRequest.code body ≠ "1234")); [intros [= <- <-]; left; reflexivity|].
  cbv zeta. set (phone := encrypt_phone (LoginRequest.phone body)).
  unfold bind at 1. unfold login_lookup, db_query_users_by_phone_first, db_select.
  cbn [SessionLocal txn stmts store pending reads].
  destruct (lost env 0); [intros [= <- <-]; left; reflexivity|].
  destruct (List.find _ (users (tables d))) as [u|] eqn:Hfind.
  - unfold login_resume, bind, datetime_now, db_add, db_commit.
    cbn [txn stmts store pending reads app]. rewrite flush_dirty_user.
    cbn [run exec has_nul_param].
    destruct (lost env 1); [intros [= <- <-]; left; cbn; apply database_eta|].
    destruct (update_users_last_login (Users.uid u) (clock env 0) (tables d))
      as [t1|] eqn:Hupd; [|intros [= <- <-]; left; cbn; apply database_eta].
    destruct (lost env 2); [intros [= <- <-]; left; cbn; apply database_eta|].
    unfold db_refresh_users, db_select.
    cbn [txn stmts store pending reads tables users].
    destruct (lost env 3); [intros [= <- <-]; right; exists t1; split; reflexivity|].
    destruct (List.find _ (users t1)) as [row|];
      [|intros [= <- <-]; right; exists t1; split; reflexivity].
    unfold ask, lift, ret. cbv beta iota. cbn [reads].
    match goal with
    | |- context [create_access_token env ?t ?data None] =>
        destruct (create_access_token env t data None) as [tok|e]
    end; intros [= <- <-]; right; exists t1; split; reflexivity.
  - unfold login_resume, bind, datetime_now, db_add, db_commit, ask.
    cbn [txn stmts store pending reads app]. rewrite flush_new_user.
    cbn [run exec].
    destruct (has_nul_param _); [intros [= <- <-]; left; cbn; apply database_eta|].
    destruct (lost env 1); [intros [= <- <-]; left; cbn; apply database_eta|].
    destruct (insert_users env (Users_init phone (clock env 0)) (tables d))
      as [t1|e] eqn:Hins; [|intros [= <- <-]; left; cbn; apply database_eta].
    destruct (lost env 2); [intros [= <- <-]; left; cbn; apply database_eta|].
    unfold db_refresh_users, db_select.
    cbn [txn stmts store pending reads tables users Users_init Users.Obj.uid default
         from_option id].
    destruct (lost env 3); [intros [= <- <-]; right; exists t1; split; reflexivity|].
    destruct (List.find _ (users t1)) as [row|];
      [|intros [= <- <-]; right; exists t1; split; reflexivity].
    unfold lift, ret. cbv beta iota. cbn [reads].
    match goal with
    | |- context [create_access_token env ?t ?data None] =>
        destruct (create_access_token env t data None) as [tok|e]
    end; intros [= <- <-]; right; exists t1; split; reflexivity.
Qed.

Lemma NoDup_snoc {A} (l : list A) (x : A) : NoDup l -> x ∉ l -> NoDup (l ++ [x]).
Proof.
  intros Hl Hx. apply NoDup_app. split; [exact Hl|]. split.
  - intros y Hy Hy'. apply list_elem_of_singleton in Hy'. subst y. contradiction.
  - apply NoDup_singleton.
Qed.

Lemma insert_sync_photo_actions_row_key env serial o t t' :
  insert_sync_photo_actions_row env serial o t = Ok t' ->
  default serial (SyncPhotoActions.Obj.action_id o)
    ∉ SyncPhotoActions.action_id <$> sync_photo_actions t.
Proof.
  unfold insert_sync_photo_actions_row. cbv zeta. intros H.
  step_checks H.
  apply bool_decide_eq_true in Hck3. exact Hck3.
Qed.

Lemma consistent_seq_mono t seq seq' :
  consistent {| tables := t; action_id_seq := seq |} -> seq <= seq' ->
  consistent {| tables := t; action_id_seq := seq' |}.
Proof.
  unfold consistent, uids, phones, session_ids, action_ids. cbn.
  intros (H1 & H2 & H3 & H4 & H5 & H6 & H7 & H8) Hle.
  repeat split; try assumption; [|lia].
  intros r Hr. specialize (H7 r Hr). lia.
Qed.

Lemma consistent_insert_users env o t t' seq :
  insert_users env o t = Ok t' ->
  consistent {| tables := t; action_id_seq := seq |} ->
  consistent {| tables := t'; action_id_seq := seq |}.
Proof.
  intros Hins. apply insert_users_ok in Hins as (phone & _ & Hphone & Huid & ->).
  unfold consistent, uids, phones, session_ids, action_ids. cbn.
  intros (H1 & H2 & H3 & H4 & H5 & H6 & H7 & H8).
  rewrite !fmap_app. cbn.
  repeat split; try assumption.
  - apply NoDup_snoc; assumption.
  - apply NoDup_snoc; assumption.
  - intros r Hr. apply elem_of_app. left. auto.
  - intros r Hr. apply elem_of_app. left. auto.
Qed.

Lemma update_keeps_keys uid at_ (l : list Users.row) :
  Users.uid <$> ((fun r => if bool_decide (Users.uid r = uid)
                           then Users.set_last_login_at at_ r else r) <$> l)
    = Users.uid <$> l /\
  Users.phone_number <$> ((fun r => if bool_decide (Users.uid r = uid)
                                    then Users.set_last_login_at at_ r else r) <$> l)
    = Users.phone_number <$> l.
Proof.
  rewrite <- !list_fmap_compose.
  split; apply list_fmap_ext; intros i r _; cbn;
    destruct (bool_decide (Users.uid r = uid)); reflexivity.
Qed.

Lemma consistent_update uid at_ t t' seq :
  update_users_last_login uid at_ t = Some t' ->
  consistent {| tables := t; action_id_seq := seq |} ->
  consistent {| tables := t'; action_id_seq := seq |}.
Proof.
  unfold update_users_last_login.
  destruct (bool_decide (uid ∈ Users.uid <$> users t)); [|discriminate].
  intros [= <-].
  unfold consistent, uids, phones, session_ids, action_ids. cbn.
  destruct (update_keeps_keys uid at_ (users t)) as [-> ->].
  auto.
Qed.

Lemma consistent_insert_session env o t t' seq :
  insert_sync_session_logs env o t = Ok t' ->
  consistent {| tables := t; action_id_seq := seq |} ->
  consistent {| tables := t'; action_id_seq := seq |}.
Proof.
  intros Hins.
  apply insert_sync_session_logs_ok in Hins as (sid & uid & mode & _ & _ & _ & Hsid & Hfk & ->).
  unfold consistent, uids, phones, session_ids, action_ids. cbn.
  intros (H1 & H2 & H3 & H4 & H5 & H6 & H7 & H8).
  rewrite !fmap_app. cbn.
  repeat split; try assumption.
  - apply NoDup_snoc; assumption.
  - intros r Hr. apply elem_of_app in Hr as [Hr|Hr]; [auto|].
    apply list_elem_of_singleton in Hr. subst r. exact Hfk.
Qed.

Lemma consistent_insert_row env o t t' seq :
  SyncPhotoActions.Obj.action_id o = None ->
  references_user t o = true ->
  insert_sync_photo_actions_row env (seq + 1) o t = Ok t' ->
  consistent {| tables := t; action_id_seq := seq |} ->
  consistent {| tables := t'; action_id_seq := seq + 1 |}.
Proof.
  intros Hnone Hfk Hins.
  pose proof (insert_sync_photo_actions_row_key _ _ _ _ _ Hins) as Hid.
  apply insert_sync_photo_actions_row_ok in Hins as (uid & md5 & ty & Hu & _ & _ & ->).
  unfold references_user in Hfk. rewrite Hu in Hfk. cbn in Hfk.
  apply bool_decide_eq_true in Hfk.
  rewrite Hnone in *. cbn [default from_option id] in *.
  unfold consistent, uids, phones, session_ids, action_ids. cbn.
  intros (H1 & H2 & H3 & H4 & H5 & H6 & H7 & H8).
  rewrite !fmap_app. cbn.
  repeat split; try assumption; [| | |lia].
  - apply NoDup_snoc; assumption.
  - intros r Hr. apply elem_of_app in Hr as [Hr|Hr]; [auto|].
    apply list_elem_of_singleton in Hr. subst r. exact Hfk.
  - intros r Hr. apply elem_of_app in Hr as [Hr|Hr].
    + specialize (H7 r Hr). lia.
    + apply list_elem_of_singleton in Hr. subst r. cbn. lia.
Qed.

(** The rows of a statement that all draw their id from the sequence and
    belong to stored users keep the declarations. *)
Lemma consistent_insert_rows env (os : list SyncPhotoActions.Obj.t) :
  forall seq t seq' t',
    forallb (fun o => bool_decide (SyncPhotoActions.Obj.action_id o = None)) os = true ->
    forallb (references_user t) os = true ->
    insert_sync_photo_actions_rows env os seq t = (seq', Ok t') ->
    consistent {| tables := t; action_id_seq := seq |} ->
    consistent {| tables := t'; action_id_seq := seq' |}.
Proof.
  induction os as [|o os IH]; intros seq t seq' t' Hnone Hfk H Hc.
  - injection H as <- <-. exact Hc.
  - cbn in Hnone, Hfk.
    apply andb_true_iff in Hnone as [Ho Hnone]. apply andb_true_iff in Hfk as [Hf Hfk].
    apply bool_decide_eq_true in Ho.
    cbn [insert_sync_photo_actions_rows] in H. rewrite Ho in H. cbv zeta in H.
    destruct (insert_sync_photo_actions_row env (seq + 1) o t) as [t1|e] eqn:Hrow;
      [|discriminate H].
    pose proof (consistent_insert_row _ _ _ _ _ Ho Hf Hrow Hc) as Hc1.
    apply insert_sync_photo_actions_row_ok in Hrow as (? & ? & ? & _ & _ & _ & Ht1).
    eapply IH; [exact Hnone| |exact H|exact Hc1].
    rewrite (references_user_ext t t1); [exact Hfk|]. subst t1. reflexivity.
Qed.

Lemma insert_rows_seq_mono env (os : list SyncPhotoActions.Obj.t) : forall seq t seq' r,
  insert_sync_photo_actions_rows env os seq t = (seq', r) -> seq <= seq'.
Proof.
  induction os as [|o os IH]; intros seq t seq' r H.
  - injection H as <- _. lia.
  - cbn [insert_sync_photo_actions_rows] in H. cbv zeta in H.
    destruct (insert_sync_photo_actions_row env _ o t) as [t1|e].
    + apply IH in H. destruct (SyncPhotoActions.Obj.action_id o); lia.
    + injection H as <- _. destruct (SyncPhotoActions.Obj.action_id o); lia.
Qed.

Lemma exec_seq_mono env s seq t seq' r : exec env s seq t = (seq', r) -> seq <= seq'.
Proof.
  destruct s as [uid at_|o|os|o]; cbn; intros H; try (injection H as <- _; lia).
  destruct (insert_sync_photo_actions env os seq t) as [seq1 r1] eqn:Hins.
  injection H as <- _. unfold insert_sync_photo_actions in Hins.
  destruct (insert_sync_photo_actions_rows env os seq t) as [seq2 [t2|e]] eqn:Hrows;
    injection Hins as <- _; eapply insert_rows_seq_mono; eassumption.
Qed.

(** The sequence never goes back. *)
Lemma flush_seq_mono env (ps : list Pending) : forall k seq t r k' seq' t',
  flush env ps k seq t = (r, k', seq', t') -> seq <= seq'.
Proof.
  unfold flush. induction (unit_of_work ps) as [|s ss IH]; intros k seq t r k' seq' t' H.
  - injection H as _ _ <- _. lia.
  - cbn [run] in H. destruct (has_nul_param s); [injection H as _ _ <- _; lia|].
    destruct (lost env k); [injection H as _ _ <- _; lia|].
    destruct (exec env s seq t) as [seq1 [t1|e]] eqn:Hex.
    + apply exec_seq_mono in Hex. apply IH in H. lia.
    + apply exec_seq_mono in Hex. injection H as _ _ <- _. exact Hex.
Qed.

Lemma staged_draws_serial body uid :
  forallb (fun o => bool_decide (SyncPhotoActions.Obj.action_id o = None))
          (staged_action uid <$> SyncRequest.actions body) = true.
Proof. induction (SyncRequest.actions body); cbn; auto. Qed.

(** The flush of a staged batch keeps the declarations. *)
Lemma flush_staged_consistent env body uid seq t k seq' t' :
  flush env (staged body uid) O seq t = (Ok tt, k, seq', t') ->
  consistent {| tables := t; action_id_seq := seq |} ->
  consistent {| tables := t'; action_id_seq := seq' |}.
Proof.
  intros H Hc. apply flush_staged_inv in H as (t1 & Hrows & Hfk & _ & _ & Hins).
  eapply consistent_insert_session; [exact Hins|].
  eapply consistent_insert_rows; [apply staged_draws_serial|exact Hfk|exact Hrows|exact Hc].
Qed.

Lemma sync_upload_consistent env d body uid :
  consistent d -> consistent (store (snd (sync_upload body uid env (SessionLocal d)))).
Proof.
  intros Hc. rewrite <- (database_eta d) in Hc.
  rewrite sync_upload_run. cbv zeta.
  destruct (flush env (staged body uid) O (action_id_seq d) (tables d))
    as [[[r k] seq] t] eqn:Hflush.
  pose proof (flush_seq_mono _ _ _ _ _ _ _ _ _ Hflush) as Hle.
  destruct r as [[]|e].
  - destruct (lost env k); cbn; [eapply consistent_seq_mono; eassumption|].
    eapply flush_staged_consistent; eassumption.
  - cbn. eapply consistent_seq_mono; eassumption.
Qed.

Lemma login_consistent env d body :
  consistent d -> consistent (store (snd (login body env (SessionLocal d)))).
Proof.
  intros Hc.
  destruct (login body env (SessionLocal d)) as [r st'] eqn:Hrun. cbn [snd].
  destruct (login_store _ _ _ _ _ Hrun) as [->|(t1 & -> & Hstep)]; [exact Hc|].
  rewrite <- (database_eta d) in Hc.
  destruct (List.find _ _) as [u|].
  - eapply consistent_update; eassumption.
  - eapply consistent_insert_users; eassumption.
Qed.

Lemma consistent_empty_db : consistent Scenario.empty_db.
Proof.
  unfold consistent. cbn.
  repeat split; try apply NoDup_nil_2; try (intros r Hr; inversion Hr). lia.
Qed.

Lemma consistent_db1 : consistent Scenario.db1.
Proof. apply login_consistent, consistent_empty_db. Qed.

(** X9. The declarations of the schema are invariants of the two routes. In
    every database reached from a consistent one by any sequence of login and
    upload requests, whatever their outcomes, the primary keys and the phone
    column hold no value twice, every session row and every action row
    belongs to a stored user, and the [action_id] sequence is ahead of the
    ids in use. *)
Theorem reachable_consistent (d0 d : Database) :
  reachable d0 d -> consistent d0 -> consistent d.
Proof.
  intros Hr Hc. induction Hr as [|env body d Hr IH|env now a body d Hr IH].
  - exact Hc.
  - unfold post_login. rewrite get_db_run. cbn [snd]. apply login_consistent, IH.
  - unfold post_sync_upload. destruct (authenticate env now a) as [uid|e]; [|exact IH].
    rewrite get_db_run. cbn [snd]. apply sync_upload_consistent, IH.
Qed.

Lemma reachable_consistent_witness :
  reachable Scenario.empty_db (snd Scenario.upload1) /\
  consistent Scenario.empty_db /\
  consistent (snd Scenario.upload1) /\
  length (sync_photo_actions (tables (snd Scenario.upload1))) = 2%nat.
Proof.
  assert (Hr : reachable Scenario.empty_db (snd Scenario.upload1)).
  { unfold Scenario.upload1, Scenario.login1.
    apply reachable_sync_upload, reachable_login, reachable_start. }
  split; [exact Hr|]. split; [exact consistent_empty_db|].
  split; [exact (reachable_consistent _ _ Hr consistent_empty_db)|].
  vm_compute. reflexivity.
Defined.

(** ** Login, continued *)

Lemma find_fmap {A} (p : A -> bool) (g : A -> A) (l : list A) :
  (forall r, p (g r) = p r) -> List.find p (g <$> l) = g <$> List.find p l.
Proof.
  intros Hg. induction l as [|r l IH]; [reflexivity|].
  cbn. rewrite Hg. destruct (p r); [reflexivity|exact IH].
Qed.

Lemma find_elem {A} (p : A -> bool) (l : list A) (x : A) :
  List.find p l = Some x -> x ∈ l /\ p x = true.
Proof.
  intros H. apply find_some in H as [Hin Hp]. split; [|exact Hp].
  apply list_elem_of_In. exact Hin.
Qed.

Lemma find_is_some {A} (p : A -> bool) (l : list A) (x : A) :
  x ∈ l -> p x = true -> is_Some (List.find p l).
Proof.
  intros Hin Hp. destruct (List.find p l) eqn:Hf; [eauto|].
  apply list_elem_of_In in Hin. rewrite (find_none _ _ Hf x Hin) in Hp. discriminate.
Qed.

Lemma find_unique {A B} `{EqDecision B} (key : A -> B) (l : list A) (u : A) :
  NoDup (key <$> l) -> u ∈ l ->
  List.find (fun r => bool_decide (key r = key u)) l = Some u.
Proof.
  induction l as [|r l IH]; intros Hnd Hin; [inversion Hin|].
  cbn in Hnd. apply NoDup_cons in Hnd as [Hr Hnd]. cbn.
  apply elem_of_cons in Hin as [->|Hin].
  - rewrite bool_decide_eq_true_2 by reflexivity. reflexivity.
  - rewrite bool_decide_eq_false_2; [auto|].
    intros Heq. apply Hr. rewrite Heq. apply list_elem_of_fmap_2. exact Hin.
Qed.

Lemma update_run (uid : Py.UUID) (at_ : datetime) (t t' : Tables) :
  update_users_last_login uid at_ t = Some t' ->
  users t' = touch uid at_ <$> users t /\
  sync_session_logs t' = sync_session_logs t /\
  sync_photo_actions t' = sync_photo_actions t.
Proof.
  unfold update_users_last_login.
  destruct (bool_decide (uid ∈ Users.uid <$> users t)); [|discriminate].
  intros [= <-]. repeat split.
Qed.

Lemma touch_uid uid at_ r : Users.uid (touch uid at_ r) = Users.uid r.
Proof. unfold touch. destruct (bool_decide _); reflexivity. Qed.

Lemma touch_phone uid at_ r : Users.phone_number (touch uid at_ r) = Users.phone_number r.
Proof. unfold touch. destruct (bool_decide _); reflexivity. Qed.

Lemma touch_is_pro uid at_ r : Users.is_pro (touch uid at_ r) = Users.is_pro r.
Proof. unfold touch. destruct (bool_decide _); reflexivity. Qed.

(** X10. The login of a stored user. When the phone of the request is that
    of the stored user [u] and the login succeeds, no row is added,
    [last_login_at] of the row of [u] becomes the clock reading the request
    took, every other row is as before, and the response names [u] with its
    [is_pro]. *)
Theorem login_known_phone (env : Env) (d : Database) (body : LoginRequest.t)
    (u : Users.row) (resp : LoginResponse.t) (st' : State) :
  consistent d ->
  u ∈ users (tables d) ->
  Users.phone_number u = encrypt_phone (LoginRequest.phone body) ->
  login body env (SessionLocal d) = (Ok resp, st') ->
  users (tables (store st')) =
    (fun r => if bool_decide (Users.uid r = Users.uid u)
              then Users.set_last_login_at (clock env 0) r else r) <$> users (tables d) /\
  length (users (tables (store st'))) = length (users (tables d)) /\
  LoginResponse.user resp
    = {| UserResponse.uid := Users.uid u; UserResponse.is_pro := Users.is_pro u |}.
Proof.
  intros (Huids & Hphones & _) Hin Hphone Hrun.
  apply login_ok_inv in Hrun as (_ & t1 & uid & row & Hstore & Hstep & Hrow & _ & Huser).
  rewrite <- Hphone in Hstep.
  rewrite (find_unique Users.phone_number _ u Hphones Hin) in Hstep.
  destruct Hstep as [Hupd ->].
  apply update_run in Hupd as (Husers & _).
  rewrite Hstore. cbn [tables]. rewrite Husers.
  split; [reflexivity|]. split; [apply length_fmap|].
  rewrite Husers in Hrow.
  rewrite find_fmap in Hrow
    by (intros r; cbn; rewrite touch_uid; reflexivity).
  rewrite (find_unique Users.uid _ u Huids Hin) in Hrow.
  injection Hrow as <-. rewrite Huser, touch_uid, touch_is_pro. reflexivity.
Qed.

Lemma login_known_phone_witness :
  exists u resp st',
    users (tables Scenario.db1) = [u] /\
    login Scenario.good_login Scenario.env' (SessionLocal Scenario.db1) = (Ok resp, st') /\
    LoginResponse.user resp
      = {| UserResponse.uid := uuid4 Scenario.env; UserResponse.is_pro := false |} /\
    length (users (tables (store st'))) = 1%nat.
Proof.
  destruct (users (tables Scenario.db1)) as [|u [|]] eqn:Hu;
    try (vm_compute in Hu; discriminate Hu).
  destruct (login Scenario.good_login Scenario.env' (SessionLocal Scenario.db1))
    as [[resp|e] st'] eqn:Hrun; [|vm_compute in Hrun; discriminate Hrun].
  assert (Hin : u ∈ users (tables Scenario.db1)) by (rewrite Hu; apply list_elem_of_here).
  pose proof Hu as Hrow. vm_compute in Hrow. injection Hrow as Hrow.
  assert (Hphone : Users.phone_number u = encrypt_phone (LoginRequest.phone Scenario.good_login))
    by (rewrite <- Hrow; vm_compute; reflexivity).
  destruct (login_known_phone Scenario.env' Scenario.db1 Scenario.good_login u resp st'
              consistent_db1 Hin Hphone Hrun) as (_ & Hlen & Huser).
  exists u, resp, st'. split; [reflexivity|]. split; [reflexivity|]. split.
  - rewrite Huser, <- Hrow. reflexivity.
  - rewrite Hlen, Hu. reflexivity.
Defined.

Lemma lost_never env k : conn_lost_at env = None -> lost env k = false.
Proof. intros H. unfold lost. rewrite H. apply bool_decide_eq_false_2. discriminate. Qed.

Lemma insert_users_fits env o t t' :
  insert_users env o t = Ok t' -> fits_opt 255 (Users.Obj.phone_number o) = true.
Proof.
  unfold insert_users. cbv zeta. intros H. step_checks H. reflexivity.
Qed.

Lemma insert_users_new env enc now t :
  fits 255 enc = true -> (enc ∉ Users.phone_number <$> users t) ->
  (uuid4 env ∉ Users.uid <$> users t) ->
  exists t', insert_users env (Users_init enc now) t = Ok t'.
Proof.
  intros Hfit Hphone Huid. unfold insert_users. cbv zeta.
  cbn [Users_init Users.Obj.uid Users.Obj.phone_number Users.Obj.nickname
       Users.Obj.avatar_url Users.Obj.is_pro Users.Obj.pro_expire_at
       Users.Obj.current_energy Users.Obj.total_saved_bytes
       Users.Obj.total_deleted_count Users.Obj.last_login_at Users.Obj.created_at
       default from_option id fits_opt].
  rewrite Hfit. cbn [obind check required in_integer in_bigint].
  change (in_integer 50) with true. change (in_bigint 0) with true.
  change (in_integer 0) with true. cbn [obind check required].
  rewrite (bool_decide_eq_true_2 _ Huid), (bool_decide_eq_true_2 _ Hphone).
  cbn [obind check]. eauto.
Qed.

Lemma insert_users_too_long env enc now t :
  fits 255 enc = false ->
  insert_users env (Users_init enc now) t
  = Raise (StringDataRightTruncation "character varying(255)").
Proof.
  intros Hfit. unfold insert_users. cbv zeta.
  cbn [Users_init Users.Obj.phone_number fits_opt]. rewrite Hfit. reflexivity.
Qed.

Lemma has_nul_param_new_user phone now :
  has_nul_param (InsertUsers (Users_init (encrypt_phone phone) now)) = false.
Proof.
  cbn. destruct (encrypt_phone_shape_aux phone) as (_ & _ & ->). reflexivity.
Qed.

(** X11. Exactly when a login succeeds. With the connection up, a
    configuration the codec accepts and a clock that reads a date when the
    token is issued, [login] returns a response if and only if the code is
    ["1234"], either the phone is stored already, or it is a phone of at most
    189 bytes and the generated UUID is not in use, and the configured
    number of minutes after that clock reading is a date [datetime] holds. *)
Theorem login_succeeds_iff (env : Env) (d : Database) (body : LoginRequest.t) :
  conn_lost_at env = None ->
  usable env ->
  is_datetime (clock env 1) = true ->
  (exists resp st', login body env (SessionLocal d) = (Ok resp, st')) <->
  LoginRequest.code body = "1234" /\
  ((encrypt_phone (LoginRequest.phone body) ∈ phones d) \/
   ((String.length (LoginRequest.phone body) <= 189)%nat /\ (uuid4 env ∉ uids d))) /\
  is_datetime (clock env 1 + lifetime env None) = true.
Proof.
  intros Hconn [Halg [sign Hsign]] Hnow. split.
  - intros (resp & st' & Hrun).
    apply login_ok_inv in Hrun as (Hcode & t1 & uid & row & _ & Hstep & _ & Htok & _).
    split; [exact Hcode|]. split; cycle 1.
    { rewrite create_access_token_expire in Htok by exact Hnow.
      destruct (is_datetime (clock env 1 + lifetime env None));
        [reflexivity|discriminate Htok]. }
    destruct (List.find _ _) as [u|] eqn:Hfind.
    + left. apply find_elem in Hfind as [Hin Hp]. apply bool_decide_eq_true in Hp.
      unfold phones. rewrite <- Hp. apply list_elem_of_fmap_2. exact Hin.
    + right. destruct Hstep as [Hins _].
      pose proof (insert_users_fits _ _ _ _ Hins) as Hfit.
      apply insert_users_ok in Hins as (phone & _ & _ & Huid & _).
      cbn in Hfit, Huid. rewrite encrypt_phone_fits in Hfit.
      apply bool_decide_eq_true in Hfit. auto.
  - intros (Hcode & Hcase & Hexp).
    assert (Hrange : expiry_in_range env (clock env 1) None = true).
    { unfold expiry_in_range. rewrite Hnow. exact Hexp. }
    unfold login.
    rewrite bool_decide_eq_false_2 by (intros Hne; apply Hne, Hcode).
    cbv zeta. set (phone := encrypt_phone (LoginRequest.phone body)) in *.
    unfold bind at 1. unfold login_lookup, db_query_users_by_phone_first, db_select.
    cbn [SessionLocal txn stmts store pending reads].
    rewrite (lost_never env 0 Hconn).
    destruct (List.find _ (users (tables d))) as [u|] eqn:Hfind.
    + apply find_elem in Hfind as [Hin _].
      unfold login_resume, bind, datetime_now, db_add, db_commit.
      cbn [txn stmts store pending reads app]. rewrite flush_dirty_user.
    cbn [run exec has_nul_param].
      rewrite (lost_never env 1 Hconn).
      unfold update_users_last_login.
      rewrite bool_decide_eq_true_2 by (apply list_elem_of_fmap_2; exact Hin).
      rewrite (lost_never env 2 Hconn).
      unfold db_refresh_users, db_select.
      cbn [txn stmts store pending reads tables users].
      rewrite (lost_never env 3 Hconn).
      destruct (find_is_some (fun r => bool_decide (Users.uid r = Users.uid u))
                  (touch (Users.uid u) (clock env 0) <$> users (tables d))
                  (touch (Users.uid u) (clock env 0) u)) as [row Hrow].
      { apply list_elem_of_fmap_2. exact Hin. }
      { rewrite touch_uid. apply bool_decide_eq_true_2. reflexivity. }
      unfold touch in Hrow. rewrite Hrow.
      unfold ask, lift, ret. cbv beta iota. cbn [reads].
      rewrite (create_access_token_run env _ _ None sign Halg Hsign Hrange). eauto.
    + destruct Hcase as [Hknown|[Hlen Huid]].
      { exfalso. unfold phones in Hknown. apply list_elem_of_fmap in Hknown as (u & Hu & Hin).
        destruct (find_is_some (fun r => bool_decide (Users.phone_number r = phone))
                    (users (tables d)) u Hin) as [? Hsome].
        - apply bool_decide_eq_true_2. symmetry. exact Hu.
        - rewrite Hfind in Hsome. discriminate. }
      assert (Hfresh : phone ∉ Users.phone_number <$> users (tables d)).
      { intros Hin. apply list_elem_of_fmap in Hin as (u & Hu & Hin).
        destruct (find_is_some (fun r => bool_decide (Users.phone_number r = phone))
                    (users (tables d)) u Hin) as [? Hsome].
        - apply bool_decide_eq_true_2. symmetry. exact Hu.
        - rewrite Hfind in Hsome. discriminate. }
      unfold login_resume, bind, datetime_now, db_add, db_commit, ask.
      cbn [txn stmts store pending reads app]. rewrite flush_new_user.
    cbn [run exec].
      subst phone. rewrite has_nul_param_new_user.
      rewrite (lost_never env 1 Hconn).
      destruct (insert_users_new env (encrypt_phone (LoginRequest.phone body))
                  (clock env 0) (tables d)) as [t1 Hins];
        [rewrite encrypt_phone_fits; apply bool_decide_eq_true_2; exact Hlen
        |exact Hfresh|exact Huid|].
      rewrite Hins. rewrite (lost_never env 2 Hconn).
      apply insert_users_ok in Hins as (ph & _ & _ & Huid' & ->).
      unfold db_refresh_users, db_select.
      cbn [txn stmts store pending reads tables users Users_init Users.Obj.uid default
           from_option id].
      rewrite (lost_never env 3 Hconn).
      rewrite find_uid_appended by (reflexivity || exact Huid).
      unfold lift, ret. cbv beta iota. cbn [reads Users.uid].
      rewrite (create_access_token_run env _ _ None sign Halg Hsign Hrange). eauto.
Qed.

Lemma login_succeeds_iff_witness :
  conn_lost_at Scenario.env = None /\
  usable Scenario.env /\
  is_datetime (clock Scenario.env 1) = true /\
  (encrypt_phone (LoginRequest.phone Scenario.good_login) ∉ phones Scenario.empty_db) /\
  exists resp st',
    login Scenario.good_login Scenario.env (SessionLocal Scenario.empty_db) = (Ok resp, st').
Proof.
  assert (Hfresh : encrypt_phone (LoginRequest.phone Scenario.good_login)
                     ∉ phones Scenario.empty_db) by apply not_elem_of_nil.
  split; [reflexivity|]. split; [exact usable_scenario|]. split; [reflexivity|].
  split; [exact Hfresh|].
  apply (login_succeeds_iff Scenario.env Scenario.empty_db Scenario.good_login
           eq_refl usable_scenario eq_refl).
  split; [reflexivity|]. split; [|reflexivity].
  right. split; [vm_compute; lia|apply not_elem_of_nil].
Defined.

(** X12. A new phone of more than 189 bytes cannot register: its encrypted
    value exceeds the [VARCHAR(255)] column (the request schema puts no upper
    bound on the phone), [login] raises and the database is left as it was.
    With the connection up the exception is the string truncation error of
    the INSERT, which [login] does not catch. *)
Theorem login_long_phone_refused (env : Env) (d : Database) (body : LoginRequest.t) :
  LoginRequest.code body = "1234" ->
  (189 < String.length (LoginRequest.phone body))%nat ->
  (encrypt_phone (LoginRequest.phone body) ∉ phones d) ->
  exists e st',
    login body env (SessionLocal d) = (Raise e, st') /\
    store st' = d /\
    (conn_lost_at env = None ->
     e = DBAPIError (StringDataRightTruncation "character varying(255)")).
Proof.
  intros Hcode Hlen Hfresh. unfold login.
  rewrite bool_decide_eq_false_2 by (intros Hne; apply Hne, Hcode).
  cbv zeta. unfold bind at 1.
  unfold login_lookup, db_query_users_by_phone_first, db_select.
  cbn [SessionLocal txn stmts store pending reads].
  unfold lost at 1. destruct (conn_lost_at env) as [k|] eqn:Hconn.
  - destruct (bool_decide (Some k = Some 0%nat)).
    { do 2 eexists. split; [reflexivity|]. split; [reflexivity|discriminate]. }
    rewrite (find_phone_fresh _ _ Hfresh).
    unfold login_resume, bind, datetime_now, db_add, db_commit, ask.
    cbn [txn stmts store pending reads app]. rewrite flush_new_user.
    cbn [run exec].
    rewrite has_nul_param_new_user.
    destruct (lost env 1).
    { do 2 eexists. split; [reflexivity|]. split; [apply database_eta|discriminate]. }
    rewrite insert_users_too_long
      by (rewrite encrypt_phone_fits; apply bool_decide_eq_false_2; lia).
    do 2 eexists. split; [reflexivity|]. split; [apply database_eta|discriminate].
  - rewrite bool_decide_eq_false_2 by discriminate.
    rewrite (find_phone_fresh _ _ Hfresh).
    unfold login_resume, bind, datetime_now, db_add, db_commit, ask.
    cbn [txn stmts store pending reads app]. rewrite flush_new_user.
    cbn [run exec].
    rewrite has_nul_param_new_user.
    rewrite (lost_never env 1 Hconn).
    rewrite insert_users_too_long
      by (rewrite encrypt_phone_fits; apply bool_decide_eq_false_2; lia).
    do 2 eexists. split; [reflexivity|]. split; [apply database_eta|reflexivity].
Qed.

Lemma login_long_phone_refused_witness :
  (189 < String.length (LoginRequest.phone Scenario.long_login))%nat /\
  exists st',
    login Scenario.long_login Scenario.env (SessionLocal Scenario.db1)
      = (Raise (DBAPIError (StringDataRightTruncation "character varying(255)")), st') /\
    store st' = Scenario.db1.
Proof.
  assert (Hlen : (189 < String.length (LoginRequest.phone Scenario.long_login))%nat)
    by (vm_compute; lia).
  assert (Hfresh : encrypt_phone (LoginRequest.phone Scenario.long_login)
                     ∉ phones Scenario.db1).
  { vm_compute. intros Hin. apply list_elem_of_singleton in Hin. discriminate Hin. }
  split; [exact Hlen|].
  destruct (login_long_phone_refused Scenario.env Scenario.db1 Scenario.long_login
              eq_refl Hlen Hfresh) as (e & st' & Hrun & Hstore & He).
  exists st'. rewrite <- (He eq_refl). split; [exact Hrun|exact Hstore].
Defined.

(** X13. What [login] leaves alone, whatever its outcome: the two sync
    tables and the sequence are as before, and the users table keeps its rows
    in place, each unchanged or with only [last_login_at] set to the request's
    clock reading, followed by at most one new row. *)
Theorem login_frame (env : Env) (d : Database) (body : LoginRequest.t)
    (r : outcome Exception LoginResponse.t) (st' : State) :
  login body env (SessionLocal d) = (r, st') ->
  sync_session_logs (tables (store st')) = sync_session_logs (tables d) /\
  sync_photo_actions (tables (store st')) = sync_photo_actions (tables d) /\
  action_id_seq (store st') = action_id_seq d /\
  exists kept new,
    users (tables (store st')) = kept ++ new /\
    (length new <= 1)%nat /\
    Forall2 (fun old r' => r' = old \/ r' = Users.set_last_login_at (clock env 0) old)
            (users (tables d)) kept.
Proof.
  intros Hrun.
  assert (Hsame : forall l : list Users.row,
            Forall2 (fun old r' => r' = old \/ r' = Users.set_last_login_at (clock env 0) old)
                    l l).
  { intros l. apply Forall2_same_length_lookup_2; [reflexivity|].
    intros i x y Hx Hy. left. congruence. }
  destruct (login_store _ _ _ _ _ Hrun) as [->|(t1 & -> & Hstep)].
  - repeat split. exists (users (tables d)), []. rewrite app_nil_r.
    split; [reflexivity|]. split; [cbn; lia|apply Hsame].
  - cbn [tables action_id_seq]. destruct (List.find _ _) as [u|].
    + apply update_run in Hstep as (-> & -> & ->). repeat split.
      exists (touch (Users.uid u) (clock env 0) <$> users (tables d)), [].
      rewrite app_nil_r. split; [reflexivity|]. split; [cbn; lia|].
      induction (users (tables d)) as [|r0 l IH]; constructor; [|exact IH].
      unfold touch. destruct (bool_decide _); auto.
    + apply insert_users_ok in Hstep as (ph & _ & _ & _ & ->). cbn. repeat split.
      eexists (users (tables d)), [_]. split; [reflexivity|]. split; [cbn; lia|apply Hsame].
Qed.

Lemma login_frame_witness :
  exists r st',
    login Scenario.good_login Scenario.env' (SessionLocal Scenario.db2) = (r, st') /\
    sync_session_logs (tables (store st')) = sync_session_logs (tables Scenario.db2) /\
    sync_photo_actions (tables (store st')) = sync_photo_actions (tables Scenario.db2).
Proof.
  destruct (login Scenario.good_login Scenario.env' (SessionLocal Scenario.db2))
    as [r st'] eqn:Hrun.
  destruct (login_frame _ _ _ _ _ Hrun) as (Hlogs & Hacts & _).
  exists r, st'. split; [reflexivity|]. split; [exact Hlogs|exact Hacts].
Defined.

Lemma post_login_inv body env d r d1 :
  post_login body env d = (r, d1) ->
  exists st', login body env (SessionLocal d) = (r, st') /\ d1 = store st'.
Proof.
  unfold post_login, get_db.
  destruct (login body env (SessionLocal d)) as [r0 st0]. cbn.
  intros [= <- <-]. eauto.
Qed.

Lemma find_snoc {A} (p : A -> bool) (l : list A) (x : A) :
  List.find p l = None -> p x = true -> List.find p (l ++ [x]) = Some x.
Proof.
  induction l as [|y l IH]; cbn; intros Hl Hx; [rewrite Hx; reflexivity|].
  destruct (p y); [discriminate|auto].
Qed.

(** After a successful login the phone is stored, on the row of the user the
    response names. *)
Lemma login_ok_stored body env d resp st' :
  login body env (SessionLocal d) = (Ok resp, st') ->
  exists u row,
    List.find (fun r => bool_decide
                 (Users.phone_number r = encrypt_phone (LoginRequest.phone body)))
              (users (tables (store st'))) = Some u /\
    List.find (fun r => bool_decide (Users.uid r = Users.uid u))
              (users (tables (store st'))) = Some row /\
    LoginResponse.user resp
      = {| UserResponse.uid := Users.uid row; UserResponse.is_pro := Users.is_pro row |}.
Proof.
  intros Hrun.
  apply login_ok_inv in Hrun as (_ & t1 & uid & row & -> & Hstep & Hrow & _ & Huser).
  cbn [tables].
  destruct (List.find _ (users (tables d))) as [u|] eqn:Hfind.
  - destruct Hstep as [Hupd ->]. apply update_run in Hupd as (Husers & _).
    exists (touch (Users.uid u) (clock env 0) u), row.
    rewrite touch_uid. split; [|auto].
    rewrite Husers, find_fmap by (intros r; cbn; rewrite touch_phone; reflexivity).
    rewrite Hfind. reflexivity.
  - destruct Hstep as [Hins ->].
    apply insert_users_ok in Hins as (ph & Hph & _ & _ & ->).
    cbn in Hph. injection Hph as <-. cbn [users] in *.
    eexists _, row. split; [apply find_snoc; [exact Hfind|]|split; [exact Hrow|exact Huser]].
    apply bool_decide_eq_true_2. reflexivity.
Qed.

Lemma get_current_user_env (env env' : Env) (now : datetime) (tok : Token) :
  settings env' = settings env -> signer env' = signer env ->
  get_current_user env' now tok = get_current_user env now tok.
Proof.
  intros Hs Hg. unfold get_current_user, Jose.decode. rewrite Hs, Hg. reflexivity.
Qed.

(** X14. The token of a login authenticates its user. In an environment
    with the same settings and signing primitive, at any time up to the
    second in which the configured lifetime ends (counted from the second
    clock reading of the login), the bearer header with the token of a
    successful login passes the gate as the user of the response; that user
    is stored, and an upload request with that header is [sync_upload] run
    for that user. *)
Theorem login_token_authenticates (env env' : Env) (d d1 : Database)
    (body : LoginRequest.t) (resp : LoginResponse.t) (now : datetime) :
  post_login body env d = (Ok resp, d1) ->
  usable env ->
  settings env' = settings env ->
  signer env' = signer env ->
  Py.UUID_wf (UserResponse.uid (LoginResponse.user resp)) ->
  timegm now <= timegm (clock env 1 + timedelta_minutes
                                        (ACCESS_TOKEN_EXPIRE_MINUTES (settings env))) ->
  let uid := UserResponse.uid (LoginResponse.user resp) in
  let bearer := Some {| scheme := "Bearer"; param := LoginResponse.token resp |} in
  authenticate env' now bearer = Ok uid /\
  (uid ∈ uids d1) /\
  forall upload : SyncRequest.t,
    post_sync_upload now bearer upload env' d1 = get_db (sync_upload upload uid) env' d1.
Proof.
  intros Hrun [Halg [sign Hsign]] Hs Hg Hwf Ht uid bearer. subst uid bearer.
  apply post_login_inv in Hrun as (st' & Hrun & ->).
  apply login_ok_inv in Hrun as (_ & t1 & uid0 & row & Hstore & _ & Hrow & Htok & Huser).
  rewrite Huser in *. cbn [UserResponse.uid] in *.
  assert (Hauth : authenticate env' now
                    (Some {| scheme := "Bearer"; param := LoginResponse.token resp |})
                  = Ok (Users.uid row)).
  { unfold authenticate, oauth2_scheme. cbn [scheme param].
    rewrite bool_decide_eq_true_2 by reflexivity.
    rewrite (get_current_user_env env env' now _ Hs Hg).
    rewrite (create_access_token_issued env _ _ None sign _ Halg Hsign Htok).
    rewrite (get_current_user_issued env (clock env 1) (Users.uid row) None now sign
               Hwf Halg Hsign).
    change (lifetime env None)
      with (timedelta_minutes (ACCESS_TOKEN_EXPIRE_MINUTES (settings env))).
    apply Z.ltb_ge in Ht. rewrite Ht. reflexivity. }
  split; [exact Hauth|]. split.
  - rewrite Hstore. unfold uids. cbn [tables].
    apply find_elem in Hrow as [Hin _]. apply list_elem_of_fmap_2. exact Hin.
  - intros upload. unfold post_sync_upload. rewrite Hauth. reflexivity.
Qed.

Lemma login_token_authenticates_witness :
  exists resp d1,
    post_login Scenario.good_login Scenario.env Scenario.empty_db = (Ok resp, d1) /\
    authenticate Scenario.env' 1700000100000000
      (Scenario.bearer (LoginResponse.token resp)) = Ok (uuid4 Scenario.env) /\
    post_sync_upload 1700000100000000 (Scenario.bearer (LoginResponse.token resp))
      Scenario.batch Scenario.env' d1
    = get_db (sync_upload Scenario.batch (uuid4 Scenario.env)) Scenario.env' d1.
Proof.
  destruct (post_login Scenario.good_login Scenario.env Scenario.empty_db)
    as [[resp|e] d1] eqn:H1; [|vm_compute in H1; discriminate H1].
  assert (Hu : UserResponse.uid (LoginResponse.user resp) = uuid4 Scenario.env).
  { pose proof H1 as H. vm_compute in H. injection H as <- _. reflexivity. }
  assert (Hwf : Py.UUID_wf (UserResponse.uid (LoginResponse.user resp)))
    by (rewrite Hu; reflexivity).
  assert (Ht : timegm 1700000100000000
               <= timegm (clock Scenario.env 1
                          + timedelta_minutes
                              (ACCESS_TOKEN_EXPIRE_MINUTES (settings Scenario.env))))
    by (vm_compute; discriminate).
  destruct (login_token_authenticates Scenario.env Scenario.env' _ _ _ _ _
              H1 usable_scenario eq_refl eq_refl Hwf Ht) as (Hauth & _ & Hroute).
  exists resp, d1. split; [reflexivity|].
  rewrite <- Hu. split; [exact Hauth|apply Hroute].
Defined.

(** ** Upload, continued *)

Lemma insert_sync_session_logs_values env o t t' :
  insert_sync_session_logs env o t = Ok t' ->
  fits_opt 64 (SyncSessionLogs.Obj.session_id o) = true /\
  from_option in_smallint true (SyncSessionLogs.Obj.mode o) = true /\
  in_integer (default 0 (SyncSessionLogs.Obj.deleted_count o)) = true.
Proof.
  unfold insert_sync_session_logs. cbv zeta. intros H. step_checks H. auto.
Qed.

Lemma insert_sync_photo_actions_row_values env serial o t t' :
  insert_sync_photo_actions_row env serial o t = Ok t' ->
  fits_opt 32 (SyncPhotoActions.Obj.photo_md5 o) = true /\
  from_option in_smallint true (SyncPhotoActions.Obj.action_type o) = true /\
  fits 10 (default "ANDROID" (SyncPhotoActions.Obj.action_source o)) = true.
Proof.
  unfold insert_sync_photo_actions_row. cbv zeta. intros H. step_checks H. auto.
Qed.

Lemma insert_rows_values env uid (acts : list PhotoActionSchema.t) :
  forall seq t seq' t',
    insert_sync_photo_actions_rows env (staged_action uid <$> acts) seq t = (seq', Ok t') ->
    existsb action_has_nul (staged_action uid <$> acts) = false ->
    forallb storable_action acts = true.
Proof.
  induction acts as [|a acts IH]; intros seq t seq' t' H Hnul; [reflexivity|].
  cbn [fmap list_fmap insert_sync_photo_actions_rows] in H. cbv zeta in H.
  destruct (insert_sync_photo_actions_row env _ (staged_action uid a) t)
    as [t1|e] eqn:Hins; [|discriminate H].
  apply insert_sync_photo_actions_row_values in Hins as (Hmd5 & Hty & Hsrc).
  cbn [fmap list_fmap existsb] in Hnul. apply orb_false_iff in Hnul as [Ha Hnul].
  unfold action_has_nul in Ha. cbn in Ha, Hmd5, Hty, Hsrc.
  apply orb_false_iff in Ha as [Hn1 Hn2].
  cbn [forallb]. rewrite (IH _ _ _ _ H Hnul), andb_true_r.
  unfold storable_action. rewrite Hmd5, Hn1, Hty, Hsrc, Hn2. reflexivity.
Qed.

Lemma flush_staged_values env body uid seq t k seq' t' :
  flush env (staged body uid) O seq t = (Ok tt, k, seq', t') -> storable body = true.
Proof.
  intros H. apply flush_staged_inv in H as (t1 & Hrows & _ & Hnul & Hnul' & Hins).
  apply insert_sync_session_logs_values in Hins as (Hsid & Hmode & Hcount).
  cbn in Hnul', Hsid, Hmode, Hcount. rewrite orb_false_r in Hnul'.
  rewrite py_sum_count_deletes in Hcount.
  pose proof (insert_rows_values _ _ _ _ _ _ _ Hrows Hnul) as Hacts.
  unfold storable. rewrite Hsid, Hnul', Hmode, Hcount, Hacts. reflexivity.
Qed.

(** X15. What a successful upload implies: every value of the batch fits
    its column and holds no NUL, the session id was not stored before, and
    the user id is that of a stored user. So an upload for a user id without
    a row, or with a mode or an action type outside [SMALLINT] (the request
    schema bounds neither), is refused. *)
Theorem upload_success_requires (env : Env) (d : Database) (body : SyncRequest.t)
    (uid : Py.UUID) (resp : SyncResponse.t) (st' : State) :
  sync_upload body uid env (SessionLocal d) = (Ok resp, st') ->
  storable body = true /\
  (SyncRequest.session_id body ∉ session_ids d) /\
  (uid ∈ uids d).
Proof.
  rewrite sync_upload_run. cbv zeta.
  destruct (flush env (staged body uid) O (action_id_seq d) (tables d))
    as [[[[[]|e] k] seq] t] eqn:Hflush; [|discriminate].
  intros _. split; [eapply flush_staged_values, Hflush|].
  apply flush_staged_ok in Hflush as (_ & (row & _ & _ & _ & _ & _ & _ & _ & Hfresh & Hfk) & _).
  split; assumption.
Qed.

Lemma upload_success_requires_witness :
  sync_upload Scenario.batch (uuid4 Scenario.env) Scenario.env (SessionLocal Scenario.db1)
    = (Ok Scenario.resp2, Scenario.st2) /\
  storable Scenario.batch = true /\
  (SyncRequest.session_id Scenario.batch ∉ session_ids Scenario.db1) /\
  (uuid4 Scenario.env ∈ uids Scenario.db1).
Proof.
  assert (Hrun : sync_upload Scenario.batch (uuid4 Scenario.env) Scenario.env
                   (SessionLocal Scenario.db1) = (Ok Scenario.resp2, Scenario.st2))
    by (vm_compute; reflexivity).
  split; [exact Hrun|]. exact (upload_success_requires _ _ _ _ _ _ Hrun).
Defined.

Lemma insert_sync_session_logs_new env sid uid mode count t :
  fits 64 sid = true -> in_smallint mode = true -> in_integer count = true ->
  (sid ∉ SyncSessionLogs.session_id <$> sync_session_logs t) ->
  (uid ∈ Users.uid <$> users t) ->
  exists row,
    insert_sync_session_logs env (SyncSessionLogs_init sid uid mode count) t
    = Ok {| users := users t; sync_session_logs := sync_session_logs t ++ [row];
            sync_photo_actions := sync_photo_actions t |}.
Proof.
  intros Hfit Hmode Hcount Hfresh Hfk.
  unfold insert_sync_session_logs. cbv zeta.
  cbn [SyncSessionLogs_init SyncSessionLogs.Obj.session_id SyncSessionLogs.Obj.uid
       SyncSessionLogs.Obj.mode SyncSessionLogs.Obj.deleted_count
       SyncSessionLogs.Obj.saved_bytes SyncSessionLogs.Obj.device_id
       SyncSessionLogs.Obj.created_at SyncSessionLogs.Obj.start_time
       default from_option fits_opt id].
  rewrite Hfit, Hmode, Hcount.
  cbn [obind check required in_bigint].
  change (in_bigint 0) with true. cbn [obind check required].
  rewrite (bool_decide_eq_true_2 _ Hfresh), (bool_decide_eq_true_2 _ Hfk).
  cbn [obind check]. eauto.
Qed.

Lemma insert_sync_photo_actions_row_new env serial uid (a : PhotoActionSchema.t) t :
  storable_action a = true -> in_bigint serial = true ->
  (serial ∉ SyncPhotoActions.action_id <$> sync_photo_actions t) ->
  exists row,
    SyncPhotoActions.action_id row = serial /\
    insert_sync_photo_actions_row env serial (staged_action uid a) t
    = Ok {| users := users t; sync_session_logs := sync_session_logs t;
            sync_photo_actions := sync_photo_actions t ++ [row] |}.
Proof.
  unfold storable_action. rewrite !andb_true_iff.
  intros ((((Hmd5 & _) & Hty) & Hsrc) & _) Hser Hfresh.
  unfold insert_sync_photo_actions_row. cbv zeta.
  cbn [staged_action SyncPhotoActions_init SyncPhotoActions.Obj.action_id
       SyncPhotoActions.Obj.uid
       SyncPhotoActions.Obj.photo_md5 SyncPhotoActions.Obj.action_type
       SyncPhotoActions.Obj.action_source SyncPhotoActions.Obj.created_at
       default from_option fits_opt id].
  rewrite Hser, Hmd5, Hty, Hsrc. cbn [obind check required].
  rewrite (bool_decide_eq_true_2 _ Hfresh).
  cbn [obind check]. eexists. split; [|reflexivity]. reflexivity.
Qed.

Lemma storable_actions_nul uid (acts : list PhotoActionSchema.t) :
  forallb storable_action acts = true ->
  existsb action_has_nul (staged_action uid <$> acts) = false.
Proof.
  induction acts as [|a acts IH]; [reflexivity|]. cbn [forallb fmap list_fmap existsb].
  intros H. apply andb_true_iff in H as [Ha H]. rewrite (IH H), orb_false_r.
  revert Ha. unfold storable_action. rewrite !andb_true_iff, !negb_true_iff.
  intros ((((_ & H1) & _) & _) & H2). unfold action_has_nul. cbn. rewrite H1, H2. reflexivity.
Qed.

Lemma staged_references_user uid (acts : list PhotoActionSchema.t) t :
  (uid ∈ Users.uid <$> users t) ->
  forallb (references_user t) (staged_action uid <$> acts) = true.
Proof.
  intros Hfk. induction acts as [|a acts IH]; [reflexivity|].
  cbn [fmap list_fmap forallb]. rewrite IH, andb_true_r.
  unfold references_user. cbn. apply bool_decide_eq_true_2. exact Hfk.
Qed.

Lemma insert_rows_succeeds env uid (acts : list PhotoActionSchema.t) :
  forallb storable_action acts = true ->
  forall seq t,
    (forall r, r ∈ sync_photo_actions t -> SyncPhotoActions.action_id r <= seq) ->
    0 <= seq -> seq + Z.of_nat (length acts) <= 9223372036854775807 ->
    exists t',
      insert_sync_photo_actions_rows env (staged_action uid <$> acts) seq t
      = (seq + Z.of_nat (length acts), Ok t').
Proof.
  induction acts as [|a acts IH]; intros Hst seq t Hids H0 Hmax.
  - exists t. cbn. rewrite Z.add_0_r. reflexivity.
  - cbn in Hst. apply andb_true_iff in Hst as [Ha Hst].
    cbn [fmap list_fmap insert_sync_photo_actions_rows]. cbv zeta.
    cbn [staged_action SyncPhotoActions_init SyncPhotoActions.Obj.action_id].
    cbn [length] in Hmax.
    destruct (insert_sync_photo_actions_row_new env (seq + 1) uid a t Ha)
      as (row & Hid & Hins).
    + unfold in_bigint. apply andb_true_iff. split; apply Z.leb_le; lia.
    + intros Hin. apply list_elem_of_fmap in Hin as (r & Hr & Hin).
      specialize (Hids r Hin). lia.
    + rewrite Hins.
      edestruct (IH Hst (seq + 1)) as [t' Ht']; cycle 3.
      * exists t'. rewrite Ht'. cbn [length]. f_equal. lia.
      * cbn. intros r Hr. apply elem_of_app in Hr as [Hr|Hr].
        -- specialize (Hids r Hr). lia.
        -- apply list_elem_of_singleton in Hr. subst r. lia.
      * lia.
      * lia.
Qed.

(** X16. When an upload goes through: with the connection up, on a
    consistent database whose sequence has room for the batch, a storable
    batch with a new session id, uploaded for a stored user, is accepted; the
    response counts the actions and the sequence advances by their number. *)
Theorem upload_succeeds (env : Env) (d : Database) (body : SyncRequest.t) (uid : Py.UUID) :
  conn_lost_at env = None ->
  consistent d ->
  action_id_seq d + Z.of_nat (length (SyncRequest.actions body)) <= 9223372036854775807 ->
  storable body = true ->
  (SyncRequest.session_id body ∉ session_ids d) ->
  (uid ∈ uids d) ->
  exists st',
    sync_upload body uid env (SessionLocal d)
      = (Ok {| SyncResponse.status := "ok";
               SyncResponse.synced_count :=
                 Z.of_nat (length (SyncRequest.actions body)) |}, st') /\
    action_id_seq (store st')
      = action_id_seq d + Z.of_nat (length (SyncRequest.actions body)).
Proof.
  intros Hconn (_ & _ & _ & _ & _ & _ & Hids & H0) Hmax Hst Hfresh Hfk.
  unfold storable in Hst. rewrite !andb_true_iff, negb_true_iff in Hst.
  destruct Hst as ((((Hsid & Hnul) & Hmode) & Hcount) & Hacts).
  rewrite sync_upload_run. cbv zeta.
  unfold flush. rewrite unit_of_work_staged, run_app.
  destruct (insert_rows_succeeds env uid (SyncRequest.actions body) Hacts
              (action_id_seq d) (tables d) Hids H0 Hmax) as [t1 Hrows].
  destruct (insert_rows_tables _ _ _ _ _ _ Hrows) as [Hu Hl].
  rewrite (run_pages_ok env _ O (action_id_seq d) (tables d)
             (action_id_seq d + Z.of_nat (length (SyncRequest.actions body))) t1 Hconn).
  2: { rewrite pages_concat. exact Hrows. }
  2: { rewrite pages_concat. apply staged_references_user. exact Hfk. }
  2: { rewrite pages_concat. apply storable_actions_nul. exact Hacts. }
  cbn [run].
  assert (Hnp : has_nul_param (InsertSyncSessionLogs (staged_session body uid)) = false).
  { cbn. rewrite Hnul. reflexivity. }
  rewrite Hnp, (lost_never env _ Hconn). cbn [exec].
  unfold staged_session. rewrite py_sum_count_deletes.
  destruct (insert_sync_session_logs_new env (SyncRequest.session_id body) uid
              (SyncRequest.mode body) (count_deletes (SyncRequest.actions body)) t1
              Hsid Hmode Hcount) as [row ->].
  { rewrite Hl. exact Hfresh. }
  { rewrite Hu. exact Hfk. }
  rewrite (lost_never env _ Hconn). eexists. split; reflexivity.
Qed.

Lemma upload_succeeds_witness :
  conn_lost_at Scenario.env = None /\
  consistent Scenario.db1 /\
  storable Scenario.batch = true /\
  (SyncRequest.session_id Scenario.batch ∉ session_ids Scenario.db1) /\
  (uuid4 Scenario.env ∈ uids Scenario.db1) /\
  exists st',
    sync_upload Scenario.batch (uuid4 Scenario.env) Scenario.env (SessionLocal Scenario.db1)
      = (Ok Scenario.resp2, st') /\
    action_id_seq (store st') = 2.
Proof.
  assert (Hst : storable Scenario.batch = true) by reflexivity.
  assert (Hfresh : SyncRequest.session_id Scenario.batch ∉ session_ids Scenario.db1)
    by (vm_compute; apply not_elem_of_nil).
  assert (Hfk : uuid4 Scenario.env ∈ uids Scenario.db1)
    by (vm_compute; apply list_elem_of_here).
  assert (Hmax : action_id_seq Scenario.db1
                 + Z.of_nat (length (SyncRequest.actions Scenario.batch))
                 <= 9223372036854775807) by (vm_compute; discriminate).
  split; [reflexivity|]. split; [exact consistent_db1|]. split; [exact Hst|].
  split; [exact Hfresh|]. split; [exact Hfk|].
  exact (upload_succeeds Scenario.env Scenario.db1 Scenario.batch (uuid4 Scenario.env)
           eq_refl consistent_db1 Hmax Hst Hfresh Hfk).
Defined.

Ltac step_raise H :=
  repeat
    (match type of H with
     | obind (check ?b _) _ = Raise _ =>
         let E := fresh "Hck" in
         destruct b eqn:E; cbn [obind check] in H; [|try discriminate H; auto]
     | obind (required _ ?v) _ = Raise _ =>
         let E := fresh "Hrq" in
         destruct v eqn:E; cbn [obind required] in H; [|try discriminate H; auto]
     end).

Lemma insert_sync_session_logs_truncation env o t ty :
  insert_sync_session_logs env o t = Raise (StringDataRightTruncation ty) ->
  fits_opt 64 (SyncSessionLogs.Obj.session_id o) = false \/
  fits_opt 64 (SyncSessionLogs.Obj.device_id o) = false.
Proof.
  unfold insert_sync_session_logs. cbv zeta. intros H.
  step_raise H. discriminate H.
Qed.

Lemma insert_sync_photo_actions_row_truncation env serial o t ty :
  insert_sync_photo_actions_row env serial o t = Raise (StringDataRightTruncation ty) ->
  fits_opt 32 (SyncPhotoActions.Obj.photo_md5 o) = false \/
  fits 10 (default "ANDROID" (SyncPhotoActions.Obj.action_source o)) = false.
Proof.
  unfold insert_sync_photo_actions_row. cbv zeta. intros H.
  step_raise H. discriminate H.
Qed.

(** A multi-row INSERT that fails: one of its rows was refused with the
    error, or the foreign key was violated when the statement ended. *)
Lemma insert_rows_Raise env (os : list SyncPhotoActions.Obj.t) : forall seq t seq' pe,
  insert_sync_photo_actions_rows env os seq t = (seq', Raise pe) ->
  exists o serial t0, o ∈ os /\ insert_sync_photo_actions_row env serial o t0 = Raise pe.
Proof.
  induction os as [|o os IH]; intros seq t seq' pe H; [discriminate H|].
  cbn [insert_sync_photo_actions_rows] in H. cbv zeta in H.
  destruct (insert_sync_photo_actions_row env _ o t) as [t1|e] eqn:Hrow.
  - apply IH in H as (o' & serial & t0 & Hin & Hr).
    exists o', serial, t0. split; [apply list_elem_of_further, Hin|exact Hr].
  - injection H as _ <-. do 3 eexists. split; [apply list_elem_of_here|exact Hrow].
Qed.

Lemma insert_sync_photo_actions_Raise env (os : list SyncPhotoActions.Obj.t) seq t seq' pe :
  insert_sync_photo_actions env os seq t = (seq', Raise pe) ->
  pe = ForeignKeyViolation "sync_photo_actions_uid_fkey" \/
  exists o serial t0, o ∈ os /\ insert_sync_photo_actions_row env serial o t0 = Raise pe.
Proof.
  unfold insert_sync_photo_actions.
  destruct (insert_sync_photo_actions_rows env os seq t) as [seq1 [t1|e]] eqn:Hrows.
  - destruct (forallb _ os); cbn; [discriminate|]. intros [= _ <-]. auto.
  - intros [= <- <-]. right. eapply insert_rows_Raise, Hrows.
Qed.

(** A flush that fails: a string held a NUL character, the connection was
    lost, or one of its statements failed. *)
Lemma run_Raise env (ss : list Statement) : forall k seq t e k' seq' t',
  run env ss k seq t = (Raise e, k', seq', t') ->
  e = nul_error \/ e = DBAPIError ConnectionLost \/
  exists s seq0 t0 seq1, s ∈ ss /\ exec env s seq0 t0 = (seq1, Raise e).
Proof.
  induction ss as [|s ss IH]; intros k seq t e k' seq' t' H; [discriminate H|].
  cbn [run] in H. destruct (has_nul_param s); [injection H as <- _ _ _; auto|].
  destruct (lost env k); [injection H as <- _ _ _; auto|].
  destruct (exec env s seq t) as [seq1 [t1|e1]] eqn:Hex.
  - apply IH in H as [->|[->|(s' & seq0 & t0 & seq2 & Hin & Hs')]]; auto.
    right. right. exists s', seq0, t0, seq2.
    split; [apply list_elem_of_further, Hin|exact Hs'].
  - injection H as <- _ _ _. right. right. exists s, seq, t, seq1.
    split; [apply list_elem_of_here|exact Hex].
Qed.

Lemma elem_of_pages {A} (l pg : list A) (x : A) : pg ∈ pages l -> x ∈ pg -> x ∈ l.
Proof.
  intros Hpg Hx. rewrite <- (pages_concat l).
  apply list_elem_of_In, in_concat. exists pg.
  split; apply list_elem_of_In; assumption.
Qed.

Lemma flush_staged_no_truncation env body uid :
  SyncRequest.valid body = true ->
  forall k seq t ty k' seq' t',
    flush env (staged body uid) k seq t
    <> (Raise (DBAPIError (StringDataRightTruncation ty)), k', seq', t').
Proof.
  intros Hv k seq t ty k' seq' t' H.
  unfold SyncRequest.valid in Hv. apply andb_true_iff in Hv as [Hsid Hacts].
  unfold flush in H. rewrite unit_of_work_staged in H.
  apply run_Raise in H as [H|[H|(s & seq0 & t0 & seq1 & Hin & Hex)]];
    [discriminate H..|].
  apply elem_of_app in Hin as [Hin|Hin].
  - apply list_elem_of_fmap in Hin as (pg & -> & Hpg). cbn [exec] in Hex.
    destruct (insert_sync_photo_actions env pg seq0 t0) as [seq2 [t2|pe]] eqn:Hins;
      [discriminate Hex|].
    injection Hex as _ ->.
    apply insert_sync_photo_actions_Raise in Hins
      as [Hins|(o & serial & t1 & Ho & Hrow)]; [discriminate Hins|].
    apply insert_sync_photo_actions_row_truncation in Hrow.
    pose proof (elem_of_pages _ _ _ Hpg Ho) as Hoa.
    apply list_elem_of_fmap in Hoa as (a & -> & Ha).
    rewrite forallb_forall in Hacts. apply list_elem_of_In in Ha.
    specialize (Hacts a Ha).
    unfold PhotoActionSchema.valid in Hacts. apply andb_true_iff in Hacts as [Hmd5 Hsrc].
    cbn in Hrow. unfold fits in Hrow. apply Z.eqb_eq in Hmd5. rewrite Hmd5, Hsrc in Hrow.
    destruct Hrow; discriminate.
  - apply list_elem_of_singleton in Hin. subst s. cbn [exec] in Hex.
    destruct (insert_sync_session_logs env _ t0) as [t2|pe] eqn:Hins; [discriminate Hex|].
    injection Hex as _ ->.
    apply insert_sync_session_logs_truncation in Hins. cbn in Hins.
    unfold fits in Hins. rewrite Hsid in Hins. destruct Hins; discriminate.
Qed.

(** X17. The request schema keeps the strings within the columns: for a
    batch that passes the validation of [SyncRequest], the exception that
    [sync_upload] catches is never the driver's string truncation error. *)
Theorem valid_upload_never_truncates (env : Env) (d : Database) (body : SyncRequest.t)
    (uid : Py.UUID) (ty : string) :
  SyncRequest.valid body = true ->
  fst (sync_upload_try body uid env (SessionLocal d))
  <> Raise (DBAPIError (StringDataRightTruncation ty)).
Proof.
  intros Hv. rewrite sync_upload_try_run.
  destruct (flush env (staged body uid) O (action_id_seq d) (tables d))
    as [[[[[]|e] k] seq] t] eqn:Hflush.
  - destruct (lost env k); discriminate.
  - intros [= ->]. exact (flush_staged_no_truncation _ _ _ Hv _ _ _ _ _ _ _ Hflush).
Qed.

Lemma valid_upload_never_truncates_witness :
  SyncRequest.valid Scenario.batch = true /\
  fst (sync_upload_try Scenario.batch (uuid4 Scenario.env) Scenario.env
         (SessionLocal Scenario.db2))
  <> Raise (DBAPIError (StringDataRightTruncation "character(32)")).
Proof.
  assert (Hv : SyncRequest.valid Scenario.batch = true) by reflexivity.
  split; [exact Hv|]. exact (valid_upload_never_truncates _ _ _ _ _ Hv).
Defined.

Lemma insert_rows_rows env uid (acts : list PhotoActionSchema.t) :
  forall seq t seq' t',
    insert_sync_photo_actions_rows env (staged_action uid <$> acts) seq t = (seq', Ok t') ->
    seq' = seq + Z.of_nat (length acts) /\
    exists rows,
      sync_photo_actions t' = sync_photo_actions t ++ rows /\
      length rows = length acts /\
      forall i r, rows !! i = Some r ->
        SyncPhotoActions.action_id r = seq + 1 + Z.of_nat i /\
        SyncPhotoActions.created_at r = db_now env.
Proof.
  induction acts as [|a acts IH]; intros seq t seq' t' H.
  - cbn in H. injection H as <- <-. split; [cbn; lia|].
    exists []. rewrite app_nil_r. split; [reflexivity|]. split; [reflexivity|].
    intros i r Hr. discriminate Hr.
  - cbn [fmap list_fmap insert_sync_photo_actions_rows] in H. cbv zeta in H.
    cbn [staged_action SyncPhotoActions_init SyncPhotoActions.Obj.action_id] in H.
    destruct (insert_sync_photo_actions_row env (seq + 1) _ t) as [t1|e] eqn:Hins;
      [|discriminate H].
    apply insert_sync_photo_actions_row_ok in Hins as (uid' & md5 & ty & _ & _ & _ & ->).
    apply IH in H as (-> & rows & Hrows & Hlen & Hall).
    cbn in Hrows. split; [cbn [length]; lia|].
    eexists (_ :: rows). split; [rewrite Hrows, <- app_assoc; reflexivity|].
    split; [cbn; congruence|].
    intros [|i] r Hr.
    + injection Hr as <-. cbn. split; [lia|reflexivity].
    + cbn in Hr. destruct (Hall i r Hr) as [Hid Hat]. split; [lia|exact Hat].
Qed.

(** X18. The columns an upload does not set. After a successful upload the
    new session row has [saved_bytes = 0], no [start_time], no [device_id]
    and the database's time as [created_at]; every new action row has the
    database's time as [created_at] and an [action_id] drawn from the
    sequence, which has advanced by the number of actions. *)
Theorem upload_row_defaults (env : Env) (d : Database) (body : SyncRequest.t)
    (uid : Py.UUID) (resp : SyncResponse.t) (st' : State) :
  sync_upload body uid env (SessionLocal d) = (Ok resp, st') ->
  action_id_seq (store st')
    = action_id_seq d + Z.of_nat (length (SyncRequest.actions body)) /\
  (exists row,
     sync_session_logs (tables (store st')) = sync_session_logs (tables d) ++ [row] /\
     SyncSessionLogs.saved_bytes row = 0 /\
     SyncSessionLogs.start_time row = None /\
     SyncSessionLogs.device_id row = None /\
     SyncSessionLogs.created_at row = db_now env) /\
  (exists rows,
     sync_photo_actions (tables (store st')) = sync_photo_actions (tables d) ++ rows /\
     length rows = length (SyncRequest.actions body) /\
     forall r, r ∈ rows ->
       action_id_seq d < SyncPhotoActions.action_id r
         <= action_id_seq d + Z.of_nat (length (SyncRequest.actions body)) /\
       SyncPhotoActions.created_at r = db_now env).
Proof.
  rewrite sync_upload_run. cbv zeta.
  destruct (flush env (staged body uid) O (action_id_seq d) (tables d))
    as [[[[[]|e] k] seq] t] eqn:Hflush; [|discriminate].
  destruct (lost env k); [discriminate|].
  intros [= _ <-]. cbn [store tables action_id_seq].
  apply flush_staged_inv in Hflush as (t1 & Hrows & _ & _ & _ & Hins).
  apply insert_sync_session_logs_ok in Hins as (sid & u & m & _ & _ & _ & _ & _ & ->).
  destruct (insert_rows_tables _ _ _ _ _ _ Hrows) as [_ Hlogs].
  apply insert_rows_rows in Hrows as (-> & rows & Hrows & Hlen & Hall).
  cbn [sync_session_logs sync_photo_actions].
  split; [reflexivity|]. split.
  - eexists. split; [rewrite Hlogs; reflexivity|]. cbn. auto.
  - exists rows. split; [exact Hrows|]. split; [exact Hlen|].
    intros r Hr. apply list_elem_of_lookup in Hr as [i Hi].
    destruct (Hall i r Hi) as [Hid Hat]. split; [|exact Hat].
    apply lookup_lt_Some in Hi. lia.
Qed.

Lemma upload_row_defaults_witness :
  sync_upload Scenario.batch (uuid4 Scenario.env) Scenario.env (SessionLocal Scenario.db1)
    = (Ok Scenario.resp2, Scenario.st2) /\
  action_id_seq (store Scenario.st2) = 2 /\
  SyncPhotoActions.action_id <$> sync_photo_actions (tables (store Scenario.st2)) = [1; 2] /\
  SyncSessionLogs.saved_bytes <$> sync_session_logs (tables (store Scenario.st2)) = [0].
Proof.
  assert (Hrun : sync_upload Scenario.batch (uuid4 Scenario.env) Scenario.env
                   (SessionLocal Scenario.db1) = (Ok Scenario.resp2, Scenario.st2))
    by (vm_compute; reflexivity).
  destruct (upload_row_defaults _ _ _ _ _ _ Hrun) as (Hseq & (row & Hrow & Hsaved & _) & _).
  split; [exact Hrun|]. split; [exact Hseq|]. split; [vm_compute; reflexivity|].
  rewrite Hrow, fmap_app. cbn. rewrite Hsaved. reflexivity.
Defined.

(** ** Sequences of requests *)

(** Induction over the requests that lead from one database to another. *)
Lemma reachable_invariant (I : Database -> Prop) :
  (forall env body d, I d -> I (store (snd (login body env (SessionLocal d))))) ->
  (forall env body uid d,
     I d -> I (store (snd (sync_upload body uid env (SessionLocal d))))) ->
  forall d0 d, reachable d0 d -> I d0 -> I d.
Proof.
  intros Hlogin Hupload d0 d Hr H0.
  induction Hr as [|env body d Hr IH|env now a body d Hr IH].
  - exact H0.
  - unfold post_login. rewrite get_db_run. cbn [snd]. apply Hlogin, IH.
  - unfold post_sync_upload. destruct (authenticate env now a) as [uid|e]; [|exact IH].
    rewrite get_db_run. cbn [snd]. apply Hupload, IH.
Qed.

Lemma same_user_refl r : same_user r r.
Proof. left. reflexivity. Qed.

Lemma same_user_trans r1 r2 r3 : same_user r1 r2 -> same_user r2 r3 -> same_user r1 r3.
Proof.
  intros [->|[t1 ->]] [->|[t2 ->]]; [left; reflexivity|right; eauto..].
Qed.

Lemma same_user_keys r r' :
  same_user r r' ->
  Users.uid r' = Users.uid r /\ Users.phone_number r' = Users.phone_number r /\
  Users.is_pro r' = Users.is_pro r.
Proof. intros [->|[t ->]]; repeat split. Qed.

Lemma Forall2_same_user_refl (l : list Users.row) : Forall2 same_user l l.
Proof. induction l; constructor; [apply same_user_refl|assumption]. Qed.

Lemma grows_refl d : grows d d.
Proof.
  split; [|split; [reflexivity|split; [reflexivity|lia]]].
  exists (users (tables d)), []. rewrite app_nil_r.
  split; [reflexivity|apply Forall2_same_user_refl].
Qed.

Lemma grows_trans d1 d2 d3 : grows d1 d2 -> grows d2 d3 -> grows d1 d3.
Proof.
  intros ((k1 & n1 & Hu1 & Hk1) & Hl1 & Ha1 & Hs1) ((k2 & n2 & Hu2 & Hk2) & Hl2 & Ha2 & Hs2).
  split; [|split; [etrans; eassumption|split; [etrans; eassumption|lia]]].
  rewrite Hu1 in Hk2. apply Forall2_app_inv_l in Hk2 as (k2a & k2b & Hka & Hkb & ->).
  exists k2a, (k2b ++ n2). split; [rewrite Hu2, <- app_assoc; reflexivity|].
  clear - Hk1 Hka. revert k2a Hka.
  induction Hk1 as [|r r' l l' Hr _ IH]; intros k Hk.
  - apply Forall2_nil_inv_l in Hk as ->. constructor.
  - apply Forall2_cons_inv_l in Hk as (r'' & k' & Hr' & Hk' & ->).
    constructor; [eapply same_user_trans; eassumption|auto].
Qed.

Lemma login_grows env body d :
  grows d (store (snd (login body env (SessionLocal d)))).
Proof.
  destruct (login body env (SessionLocal d)) as [r st'] eqn:Hrun. cbn [snd].
  destruct (login_store _ _ _ _ _ Hrun) as [->|(t1 & -> & Hstep)]; [apply grows_refl|].
  unfold grows. cbn [tables action_id_seq]. destruct (List.find _ _) as [u|].
  - apply update_run in Hstep as (-> & -> & ->).
    split; [|split; [reflexivity|split; [reflexivity|lia]]].
    exists (touch (Users.uid u) (clock env 0) <$> users (tables d)), [].
    rewrite app_nil_r. split; [reflexivity|].
    induction (users (tables d)) as [|r0 l IH]; constructor; [|exact IH].
    unfold touch, same_user. destruct (bool_decide _); eauto.
  - apply insert_users_ok in Hstep as (ph & _ & _ & _ & ->). cbn.
    split; [|split; [reflexivity|split; [reflexivity|lia]]].
    eexists (users (tables d)), [_]. split; [reflexivity|apply Forall2_same_user_refl].
Qed.

Lemma sync_upload_grows env body uid d :
  grows d (store (snd (sync_upload body uid env (SessionLocal d)))).
Proof.
  rewrite sync_upload_run. cbv zeta.
  destruct (flush env (staged body uid) O (action_id_seq d) (tables d))
    as [[[r k] seq] t] eqn:Hflush.
  pose proof (flush_seq_mono _ _ _ _ _ _ _ _ _ Hflush) as Hle.
  assert (Hsame : grows d {| tables := tables d; action_id_seq := seq |}).
  { pose proof (grows_refl d) as (Hu & Hl & Ha & _). repeat split; assumption. }
  destruct r as [[]|e]; [|exact Hsame].
  destruct (lost env k); [exact Hsame|]. cbn [snd store].
  apply flush_staged_ok in Hflush as (Husers & (row & Hrow & _) & (rows & Hrows & _)).
  unfold grows. cbn [tables action_id_seq]. rewrite Husers, Hrow, Hrows.
  split; [|split; [apply prefix_app_r; reflexivity|split; [apply prefix_app_r; reflexivity|lia]]].
  exists (users (tables d)), []. rewrite app_nil_r.
  split; [reflexivity|apply Forall2_same_user_refl].
Qed.

(** X19. Nothing is ever removed. Along any sequence of login and upload
    requests the users table keeps its rows in place, each the same user
    (same [uid], phone, membership and counters; only [last_login_at] may
    change), the session rows and the action rows stay as they are, new rows
    only come after them, and the sequence does not go back. *)
Theorem reachable_grows (d1 d2 : Database) : reachable d1 d2 -> grows d1 d2.
Proof.
  intros Hr. apply (reachable_invariant (grows d1)) with (d0 := d1);
    [| |exact Hr|apply grows_refl].
  - intros env body d Hd. eapply grows_trans; [exact Hd|apply login_grows].
  - intros env body uid d Hd. eapply grows_trans; [exact Hd|apply sync_upload_grows].
Qed.

Lemma reachable_grows_witness :
  reachable Scenario.empty_db (snd Scenario.upload1) /\
  grows Scenario.empty_db (snd Scenario.upload1) /\
  length (users (tables (snd Scenario.upload1))) = 1%nat.
Proof.
  assert (Hr : reachable Scenario.empty_db (snd Scenario.upload1)).
  { unfold Scenario.upload1, Scenario.login1.
    apply reachable_sync_upload, reachable_login, reachable_start. }
  split; [exact Hr|]. split; [exact (reachable_grows _ _ Hr)|].
  vm_compute. reflexivity.
Defined.

Lemma find_grows (p : Users.row -> bool) (l kept new : list Users.row) (u : Users.row) :
  (forall r r', same_user r r' -> p r' = p r) ->
  Forall2 same_user l kept ->
  List.find p l = Some u ->
  exists u', List.find p (kept ++ new) = Some u' /\ same_user u u'.
Proof.
  intros Hp Hk. induction Hk as [|r r' l kept Hr _ IH]; [discriminate|].
  cbn. rewrite (Hp r r' Hr). destruct (p r).
  - intros [= <-]. eauto.
  - exact IH.
Qed.

Lemma grows_find_phone d d' phone u :
  grows d d' ->
  List.find (fun r => bool_decide (Users.phone_number r = phone)) (users (tables d)) = Some u ->
  exists u', List.find (fun r => bool_decide (Users.phone_number r = phone))
               (users (tables d')) = Some u' /\ same_user u u'.
Proof.
  intros ((kept & new & -> & Hk) & _). apply find_grows; [|exact Hk].
  intros r r' Hr. destruct (same_user_keys _ _ Hr) as (_ & -> & _). reflexivity.
Qed.

Lemma grows_find_uid d d' uid u :
  grows d d' ->
  List.find (fun r => bool_decide (Users.uid r = uid)) (users (tables d)) = Some u ->
  exists u', List.find (fun r => bool_decide (Users.uid r = uid))
               (users (tables d')) = Some u' /\ same_user u u'.
Proof.
  intros ((kept & new & -> & Hk) & _). apply find_grows; [|exact Hk].
  intros r r' Hr. destruct (same_user_keys _ _ Hr) as (-> & _). reflexivity.
Qed.

(** X20. Logging in again finds the same user: after a successful login
    request and any sequence of further requests, a successful login request
    with the same phone, in whatever environment, returns the same user id and
    [is_pro] and adds no row. *)
Theorem login_again_same_user (env env' : Env) (d d1 d2 d3 : Database)
    (body body' : LoginRequest.t) (r1 r2 : LoginResponse.t) :
  post_login body env d = (Ok r1, d1) ->
  reachable d1 d2 ->
  LoginRequest.phone body' = LoginRequest.phone body ->
  post_login body' env' d2 = (Ok r2, d3) ->
  LoginResponse.user r2 = LoginResponse.user r1 /\
  length (users (tables d3)) = length (users (tables d2)) /\
  phones d3 = phones d2.
Proof.
  intros H1 Hreach Hphone H2.
  assert (Hg : grows d1 d2).
  { apply (reachable_invariant (grows d1)) with (d0 := d1);
      [| |exact Hreach|apply grows_refl].
    - intros e b d0 Hd. eapply grows_trans; [exact Hd|apply login_grows].
    - intros e b u d0 Hd. eapply grows_trans; [exact Hd|apply sync_upload_grows]. }
  apply post_login_inv in H1 as (st1 & H1 & ->).
  apply post_login_inv in H2 as (st2 & H2 & ->).
  apply login_ok_stored in H1 as (u & row1 & Hu & Hrow1 & Hr1).
  destruct (grows_find_phone _ _ _ _ Hg Hu) as (u' & Hu' & Hsu).
  destruct (grows_find_uid _ _ _ _ Hg Hrow1) as (row1' & Hrow1' & Hsr).
  destruct (same_user_keys _ _ Hsu) as (Huid & _).
  destruct (same_user_keys _ _ Hsr) as (Hruid & _ & Hrpro).
  apply login_ok_inv in H2 as (_ & t2 & uid2 & row2 & -> & Hstep & Hrow2 & _ & Hr2).
  rewrite Hphone, Hu' in Hstep. destruct Hstep as [Hupd ->].
  apply update_run in Hupd as (Husers & _). cbn [tables].
  rewrite Husers in Hrow2.
  rewrite find_fmap in Hrow2 by (intros r; cbn; rewrite touch_uid; reflexivity).
  rewrite Huid, Hrow1' in Hrow2. injection Hrow2 as <-.
  split; [rewrite Hr1, Hr2, touch_uid, touch_is_pro, Hruid, Hrpro; reflexivity|].
  split; [rewrite Husers; apply length_fmap|].
  unfold phones. cbn [tables]. rewrite Husers, <- list_fmap_compose.
  apply list_fmap_ext. intros i r _. cbn. apply touch_phone.
Qed.

Lemma login_again_same_user_witness :
  exists r1 r2 d3,
    Scenario.login1 = (Ok r1, snd Scenario.login1) /\
    reachable (snd Scenario.login1) (snd Scenario.upload1) /\
    post_login Scenario.good_login Scenario.env' (snd Scenario.upload1) = (Ok r2, d3) /\
    LoginResponse.user r2 = LoginResponse.user r1 /\
    phones d3 = phones (snd Scenario.upload1).
Proof.
  destruct Scenario.login1 as [[r1|e] d1] eqn:H1; [|vm_compute in H1; discriminate H1].
  assert (Hd1 : d1 = snd Scenario.login1) by (rewrite H1; reflexivity).
  assert (Hr : reachable d1 (snd Scenario.upload1)).
  { rewrite Hd1. unfold Scenario.upload1. apply reachable_sync_upload, reachable_start. }
  destruct (post_login Scenario.good_login Scenario.env' (snd Scenario.upload1))
    as [[r2|e] d3] eqn:H2; [|vm_compute in H2; discriminate H2].
  unfold Scenario.login1 in H1.
  destruct (login_again_same_user _ _ _ _ _ _ _ _ _ _ H1 Hr eq_refl H2) as (Hu & _ & Hp).
  exists r1, r2, d3. cbn [snd]. repeat split; assumption.
Defined.

Lemma NoDup_key_inj {A B} `{EqDecision B} (key : A -> B) (l : list A) (x y : A) :
  NoDup (key <$> l) -> x ∈ l -> y ∈ l -> key x = key y -> x = y.
Proof.
  intros Hnd Hx Hy Hk.
  pose proof (find_unique key l x Hnd Hx) as Fx.
  pose proof (find_unique key l y Hnd Hy) as Fy.
  rewrite Hk in Fx. congruence.
Qed.

Lemma grows_elem d d' u :
  grows d d' -> u ∈ users (tables d) ->
  exists u', u' ∈ users (tables d') /\ same_user u u'.
Proof.
  intros ((kept & new & -> & Hk) & _) Hin.
  apply list_elem_of_lookup in Hin as [i Hi].
  destruct (Forall2_lookup_l _ _ _ _ _ Hk Hi) as (u' & Hi' & Hs).
  exists u'. split; [|exact Hs].
  apply elem_of_app. left. eapply list_elem_of_lookup_2, Hi'.
Qed.

(** X21. Different phones, different users: starting from a consistent
    database, two successful login requests with different phones, with any
    sequence of requests between them, name different user ids. *)
Theorem distinct_phones_distinct_users (env env' : Env) (d d1 d2 d3 : Database)
    (body body' : LoginRequest.t) (r1 r2 : LoginResponse.t) :
  consistent d ->
  post_login body env d = (Ok r1, d1) ->
  reachable d1 d2 ->
  post_login body' env' d2 = (Ok r2, d3) ->
  LoginRequest.phone body' <> LoginRequest.phone body ->
  UserResponse.uid (LoginResponse.user r2) <> UserResponse.uid (LoginResponse.user r1).
Proof.
  intros Hc H1 Hreach H2 Hne Heq.
  assert (Hreach3 : reachable d1 d3).
  { replace d3 with (snd (post_login body' env' d2)) by (rewrite H2; reflexivity).
    apply reachable_login, Hreach. }
  assert (Hg : grows d1 d3).
  { apply (reachable_invariant (grows d1)) with (d0 := d1);
      [| |exact Hreach3|apply grows_refl].
    - intros e b d0 Hd. eapply grows_trans; [exact Hd|apply login_grows].
    - intros e b u d0 Hd. eapply grows_trans; [exact Hd|apply sync_upload_grows]. }
  assert (Hc1 : consistent d1).
  { replace d1 with (snd (post_login body env d)) by (rewrite H1; reflexivity).
    unfold post_login. rewrite get_db_run. apply login_consistent, Hc. }
  assert (Hc3 : consistent d3).
  { apply (reachable_invariant consistent) with (d0 := d1);
      [intros; apply login_consistent; assumption
      |intros; apply sync_upload_consistent; assumption
      |exact Hreach3|exact Hc1]. }
  destruct Hc3 as (Huids & _).
  apply post_login_inv in H1 as (st1 & H1 & ->).
  apply post_login_inv in H2 as (st2 & H2 & ->).
  apply login_ok_stored in H1 as (u1 & row1 & Hu1 & Hrow1 & Hr1).
  apply login_ok_stored in H2 as (u2 & row2 & Hu2 & Hrow2 & Hr2).
  apply find_elem in Hu1 as [Hin1 Hp1]. apply bool_decide_eq_true in Hp1.
  apply find_elem in Hu2 as [Hin2 Hp2]. apply bool_decide_eq_true in Hp2.
  apply find_elem in Hrow1 as [_ Hk1]. apply bool_decide_eq_true in Hk1.
  apply find_elem in Hrow2 as [_ Hk2]. apply bool_decide_eq_true in Hk2.
  rewrite Hr1, Hr2 in Heq. cbn in Heq. rewrite Hk1, Hk2 in Heq.
  destruct (grows_elem _ _ _ Hg Hin1) as (u1' & Hin1' & Hs).
  destruct (same_user_keys _ _ Hs) as (Huid & Hphone & _).
  assert (u2 = u1').
  { apply (NoDup_key_inj Users.uid _ _ _ Huids Hin2 Hin1'). congruence. }
  subst u1'. apply Hne, encrypt_phone_inj_aux. congruence.
Qed.

Lemma distinct_phones_distinct_users_witness :
  exists r1 r2 d3,
    consistent Scenario.empty_db /\
    Scenario.login1 = (Ok r1, snd Scenario.login1) /\
    reachable (snd Scenario.login1) (snd Scenario.upload1) /\
    post_login Scenario.other_login Scenario.env' (snd Scenario.upload1) = (Ok r2, d3) /\
    UserResponse.uid (LoginResponse.user r2) <> UserResponse.uid (LoginResponse.user r1).
Proof.
  destruct Scenario.login1 as [[r1|e] d1] eqn:H1; [|vm_compute in H1; discriminate H1].
  assert (Hd1 : d1 = snd Scenario.login1) by (rewrite H1; reflexivity).
  assert (Hr : reachable d1 (snd Scenario.upload1)).
  { rewrite Hd1. unfold Scenario.upload1. apply reachable_sync_upload, reachable_start. }
  destruct (post_login Scenario.other_login Scenario.env' (snd Scenario.upload1))
    as [[r2|e] d3] eqn:H2; [|vm_compute in H2; discriminate H2].
  unfold Scenario.login1 in H1.
  assert (Hne : LoginRequest.phone Scenario.other_login
                <> LoginRequest.phone Scenario.good_login) by discriminate.
  pose proof (distinct_phones_distinct_users _ _ _ _ _ _ _ _ _ _
                consistent_empty_db H1 Hr H2 Hne) as Hd.
  exists r1, r2, d3. cbn [snd].
  split; [exact consistent_empty_db|]. repeat split; assumption.
Defined.

(** X22. A session id is accepted at most once. After a successful upload
    and any sequence of further requests, every upload with the same session
    id, by whatever user and with whatever actions, fails with the HTTP 500
    error and leaves the tables as they are. *)
Theorem session_id_accepted_once (env env' : Env) (d d2 : Database)
    (body body' : SyncRequest.t) (uid uid' : Py.UUID)
    (resp : SyncResponse.t) (st1 : State) :
  sync_upload body uid env (SessionLocal d) = (Ok resp, st1) ->
  reachable (store st1) d2 ->
  SyncRequest.session_id body' = SyncRequest.session_id body ->
  exists detail st2,
    sync_upload body' uid' env' (SessionLocal d2)
      = (Raise (HTTPException HTTP_500_INTERNAL_SERVER_ERROR detail []), st2) /\
    tables (store st2) = tables d2.
Proof.
  intros H1 Hreach Hsid.
  assert (Hg : grows (store st1) d2).
  { apply (reachable_invariant (grows (store st1))) with (d0 := store st1);
      [| |exact Hreach|apply grows_refl].
    - intros e b d0 Hd. eapply grows_trans; [exact Hd|apply login_grows].
    - intros e b u d0 Hd. eapply grows_trans; [exact Hd|apply sync_upload_grows]. }
  apply upload_commits_session_id in H1.
  assert (Hin : SyncRequest.session_id body' ∈ session_ids d2).
  { rewrite Hsid. destruct Hg as (_ & [new Hlogs] & _).
    unfold session_ids in *. rewrite Hlogs, fmap_app. apply elem_of_app. left. exact H1. }
  rewrite sync_upload_run. cbv zeta.
  destruct (flush env' (staged body' uid') O (action_id_seq d2) (tables d2))
    as [[[[[]|e] k] seq] t] eqn:Hflush.
  - apply flush_staged_ok in Hflush
      as (_ & (row & _ & _ & _ & _ & _ & _ & _ & Hfresh & _) & _).
    contradiction.
  - do 2 eexists. split; reflexivity.
Qed.

Lemma session_id_accepted_once_witness :
  let d2 := snd (post_login Scenario.other_login Scenario.env' (store Scenario.st2)) in
  sync_upload Scenario.batch (uuid4 Scenario.env) Scenario.env (SessionLocal Scenario.db1)
    = (Ok Scenario.resp2, Scenario.st2) /\
  reachable (store Scenario.st2) d2 /\
  length (users (tables d2)) = 2%nat /\
  exists detail st3,
    sync_upload Scenario.batch (uuid4 Scenario.env') Scenario.env' (SessionLocal d2)
      = (Raise (HTTPException 500 detail []), st3) /\
    tables (store st3) = tables d2.
Proof.
  cbv zeta.
  assert (Hrun : sync_upload Scenario.batch (uuid4 Scenario.env) Scenario.env
                   (SessionLocal Scenario.db1) = (Ok Scenario.resp2, Scenario.st2))
    by (vm_compute; reflexivity).
  assert (Hr : reachable (store Scenario.st2)
                 (snd (post_login Scenario.other_login Scenario.env' (store Scenario.st2))))
    by apply reachable_login, reachable_start.
  split; [exact Hrun|]. split; [exact Hr|]. split; [vm_compute; reflexivity|].
  exact (session_id_accepted_once Scenario.env Scenario.env' _ _ _ Scenario.batch _
           (uuid4 Scenario.env') _ _ Hrun Hr eq_refl).
Defined.
